(** * kprobe-coverage (src/kernel/kmod.c): probe records and their three lists

    A shallow embedding of the kernel module: the coverage entries live in a
    heap of vzalloc'ed records, the three intrusive lists of
    [struct kprobe_coverage] are sequences of entry pointers, and every
    function of the module is a computation in a small state monad whose
    outcomes are: it returns, the kernel faults on a bad pointer, or the
    caller goes to sleep on the wait queue.

    Target: x86-64 ([unsigned long] has 64 bits, [kprobe_opcode_t] is [u8]). *)

From Stdlib Require Import ZArith NArith String Ascii List Bool Lia.
From stdpp Require Import base option list gmap.

Local Open Scope Z_scope.

(** ** Machine integers and pointers *)

Definition BITS_PER_LONG : Z := 64.

(** sizeof(kprobe_opcode_t): pointer arithmetic on [kp.addr] scales by it. *)
Definition sizeof_kprobe_opcode_t : Z := 1.

(** Wrap-around of [unsigned long] arithmetic. *)
Definition ulong (z : Z) : Z := z mod 2 ^ BITS_PER_LONG.

Definition EINVAL : Z := 22.
Definition ENOMEM : Z := 12.
Definition EFAULT : Z := 14.

(** Addresses of coverage entries; [NULL] is 0. *)
Abbreviation ptr := N (only parsing).
Definition NULL : ptr := 0%N.

(** ** Characters and C strings *)

Definition NUL : ascii := "000"%char.
Definition LF : ascii := "010"%char.
Definition CR : ascii := "013"%char.

Definition byte_of (c : ascii) : Z := Z.of_N (N_of_ascii c).

(** A buffer read as a C string ends at its first NUL byte. *)
Fixpoint c_str (buf : string) : string :=
  match buf with
  | EmptyString => EmptyString
  | String c buf' => if Ascii.eqb c NUL then EmptyString else String c (c_str buf')
  end.

(** ** Kernel library functions the module calls

    These are the kernel's, not the module's; they are written out here the
    way lib/crc32.c, lib/string.c and lib/vsprintf.c define them. *)

Definition CRCPOLY_LE : Z := 0xedb88320.

(** The inner loop of crc32_le: [crc = (crc >> 1) ^ ((crc & 1) ? CRCPOLY_LE : 0)],
    [n] times. *)
Fixpoint crc32_le_bits (n : nat) (crc : Z) : Z :=
  match n with
  | O => crc
  | S n' =>
      crc32_le_bits n'
        (Z.lxor (Z.shiftr crc 1) (if Z.testbit crc 0 then CRCPOLY_LE else 0))
  end.

(** One round of the outer loop of crc32_le: [crc ^= *p++], then eight
    rounds of the inner loop. *)
Definition crc32_le_byte (crc : Z) (c : ascii) : Z :=
  crc32_le_bits 8 (Z.lxor crc (byte_of c)).

(** crc32_le(crc, p, len) over the bytes of a string. *)
Fixpoint crc32_le (crc : Z) (p : string) {struct p} : Z :=
  match p with
  | EmptyString => crc
  | String c p' => crc32_le (crc32_le_byte crc c) p'
  end.

Definition crc32 (seed : Z) (p : string) : Z := crc32_le seed p.

(** ** Data model *)

(** struct kprobe_coverage_entry.  [kp_addr] is [kp.addr]; [kp.pre_handler]
    is always [kpc_pre_handler]; the list node [lh] is the entry's position in
    one of the three lists and the work item [work] its membership in the
    work queue, both kept in the state below. *)
Record kprobe_coverage_entry := {
  kp_addr : Z;
  module_checksum : Z;
  base_addr : Z
}.

(** What the module reads of a struct module. *)
Record module := {
  name : string;
  module_core : Z
}.

(** Calls into the kernel that leave a trace. *)
Inductive call :=
| register_kprobe_call (p : ptr)
| enable_kprobe_call (p : ptr)
| unregister_kprobe_call (p : ptr)
| vfree_call (p : ptr)
| schedule_work_call (p : ptr)
| wake_up_call.

(** The three lists of struct kprobe_coverage (entry pointers, head first),
    followed by the kernel state around them: the records that are allocated,
    the highest address the allocator has handed out, the kprobes the registrar holds, the work
    items that are scheduled, and the calls made so far (oldest first). *)
Record state := {
  deferred_list : list ptr;
  pending_list : list ptr;
  hit_list : list ptr;
  heap : gmap N kprobe_coverage_entry;
  brk : ptr;
  kprobes : gset N;
  workqueue : list ptr;
  calls : list call
}.

(** The results of the calls the module cannot decide itself. *)
Record kernel := {
  find_module : string -> option module;
  vzalloc_fails : ptr -> bool;         (* for the record at this address *)
  register_kprobe_rv : ptr -> Z;
  enable_kprobe_rv : ptr -> Z;
  signal_pending : bool;               (* a signal interrupts the wait *)
  copy_to_user_rv : Z;
  buffer_vzalloc_fails : bool;         (* for the buffer of a control write *)
  copy_from_user_rv : Z
}.

(** ** The monad *)

Inductive outcome (A : Type) : Type :=
| Done (a : A) (st : state)   (* the function returns a *)
| Oops (st : state)           (* NULL, freed or poisoned memory is dereferenced *)
| Sleeps (st : state).        (* the caller waits on kpc->wq *)
Arguments Done {A} a st.
Arguments Oops {A} st.
Arguments Sleeps {A} st.

Definition M (A : Type) : Type := state -> outcome A.

Definition ret {A} (a : A) : M A := fun st => Done a st.

Definition bind {A B} (m : M A) (k : A -> M B) : M B :=
  fun st =>
    match m st with
    | Done a st' => k a st'
    | Oops st' => Oops st'
    | Sleeps st' => Sleeps st'
    end.

Declare Scope kpc_scope.
Delimit Scope kpc_scope with kpc.
Notation "x <- m ;; k" := (bind m (fun x => k))
  (at level 100, m at next level, right associativity) : kpc_scope.
Notation "m ;; k" := (bind m (fun _ => k))
  (at level 100, right associativity) : kpc_scope.
Local Open Scope kpc_scope.

(** ** State updates *)

Definition set_deferred (l : list ptr) (st : state) : state :=
  {| deferred_list := l; pending_list := pending_list st;
     hit_list := hit_list st; heap := heap st; brk := brk st;
     kprobes := kprobes st; workqueue := workqueue st; calls := calls st |}.

Definition set_pending (l : list ptr) (st : state) : state :=
  {| deferred_list := deferred_list st; pending_list := l;
     hit_list := hit_list st; heap := heap st; brk := brk st;
     kprobes := kprobes st; workqueue := workqueue st; calls := calls st |}.

Definition set_hit (l : list ptr) (st : state) : state :=
  {| deferred_list := deferred_list st; pending_list := pending_list st;
     hit_list := l; heap := heap st; brk := brk st;
     kprobes := kprobes st; workqueue := workqueue st; calls := calls st |}.

Definition set_heap (h : gmap N kprobe_coverage_entry) (st : state) : state :=
  {| deferred_list := deferred_list st; pending_list := pending_list st;
     hit_list := hit_list st; heap := h; brk := brk st;
     kprobes := kprobes st; workqueue := workqueue st; calls := calls st |}.

Definition set_brk (b : ptr) (st : state) : state :=
  {| deferred_list := deferred_list st; pending_list := pending_list st;
     hit_list := hit_list st; heap := heap st; brk := b;
     kprobes := kprobes st; workqueue := workqueue st; calls := calls st |}.

Definition set_kprobes (k : gset N) (st : state) : state :=
  {| deferred_list := deferred_list st; pending_list := pending_list st;
     hit_list := hit_list st; heap := heap st; brk := brk st;
     kprobes := k; workqueue := workqueue st; calls := calls st |}.

Definition set_workqueue (w : list ptr) (st : state) : state :=
  {| deferred_list := deferred_list st; pending_list := pending_list st;
     hit_list := hit_list st; heap := heap st; brk := brk st;
     kprobes := kprobes st; workqueue := w; calls := calls st |}.

Definition set_calls (c : list call) (st : state) : state :=
  {| deferred_list := deferred_list st; pending_list := pending_list st;
     hit_list := hit_list st; heap := heap st; brk := brk st;
     kprobes := kprobes st; workqueue := workqueue st; calls := c |}.

(** ** Memory *)

Definition trace (c : call) : M unit :=
  fun st => Done tt (set_calls (calls st ++ [c]) st).

(** Reading a record through its pointer. *)
Definition deref (p : ptr) : M kprobe_coverage_entry :=
  fun st =>
    match heap st !! p with
    | Some e => Done e st
    | None => Oops st
    end.

(** Writing a record through its pointer. *)
Definition store (p : ptr) (e : kprobe_coverage_entry) : M unit :=
  fun st =>
    match heap st !! p with
    | Some _ => Done tt (set_heap (<[p := e]> (heap st)) st)
    | None => Oops st
    end.

Definition zero_entry : kprobe_coverage_entry :=
  {| kp_addr := 0; module_checksum := 0; base_addr := 0 |}.

(** vzalloc(sizeof(struct kprobe_coverage_entry)): NULL, or a zeroed record at
    an address that was never handed out before, the one after [brk]. *)
Definition vzalloc (K : kernel) : M ptr :=
  fun st =>
    let p := N.succ (brk st) in
    if vzalloc_fails K p then Done NULL st
    else Done p (set_brk p (set_heap (<[p := zero_entry]> (heap st)) st)).

(** vfree(p): nothing for NULL; freeing what is not allocated is a fault. *)
Definition vfree (p : ptr) : M unit :=
  trace (vfree_call p) ;;
  fun st =>
    if N.eqb p NULL then Done tt st
    else match heap st !! p with
         | Some _ => Done tt (set_heap (delete p (heap st)) st)
         | None => Oops st
         end.

(** ** linux/list.h *)

Inductive list_head := deferred | pending | hit.

Definition get_list (h : list_head) (st : state) : list ptr :=
  match h with
  | deferred => deferred_list st
  | pending => pending_list st
  | hit => hit_list st
  end.

Definition set_list (h : list_head) (l : list ptr) (st : state) : state :=
  match h with
  | deferred => set_deferred l st
  | pending => set_pending l st
  | hit => set_hit l st
  end.

Definition remove_ptr (p : ptr) (l : list ptr) : list ptr :=
  filter (fun q => q <> p) l.

Definition on_list (p : ptr) (l : list ptr) : bool :=
  bool_decide (p ∈ l).

Arguments remove_ptr : simpl never.
Arguments on_list : simpl never.

(** The entries right before and right after [p] on the list [l]. *)
Fixpoint neighbours (p : ptr) (l : list ptr) : list ptr :=
  match l with
  | [] => []
  | a :: l' =>
      match l' with
      | b :: _ =>
          (if N.eqb a p then [b] else []) ++ (if N.eqb b p then [a] else [])
      | [] => []
      end ++ neighbours p l'
  end.

(** Whether each of [ps] is an allocated record, so that the links of its
    list node can be written. *)
Definition allocated (h : gmap N kprobe_coverage_entry) (ps : list ptr) : bool :=
  forallb (fun q => bool_decide (is_Some (h !! q))) ps.

(** list_add(&entry->lh, head): the entry becomes the first of the list.
    __list_add(new, head, head->next) writes the links of the new entry and
    [head->next->prev], a link of the entry that was the first (of the head
    itself when the list is empty). *)
Definition list_add (p : ptr) (h : list_head) : M unit :=
  _ <- deref p ;;
  fun st =>
    if allocated (heap st) (take 1 (get_list h st))
    then Done tt (set_list h (p :: get_list h st) st)
    else Oops st.

(** list_add_tail(&entry->lh, head): the entry becomes the last of the list.
    __list_add(new, head->prev, head) writes [head->prev->next], a link of
    the entry that was the last. *)
Definition list_add_tail (p : ptr) (h : list_head) : M unit :=
  _ <- deref p ;;
  fun st =>
    if allocated (heap st) (take 1 (reverse (get_list h st)))
    then Done tt (set_list h (get_list h st ++ [p]) st)
    else Oops st.

(** list_del(&entry->lh): unlinks the entry from the list it is on.
    __list_del(entry->prev, entry->next) writes [next->prev] and
    [prev->next], links of the entries next to it.  A node that is on no
    list has NULL (fresh from vzalloc) or poisoned (after a list_del) links,
    and unlinking it faults. *)
Definition list_del (p : ptr) : M unit :=
  _ <- deref p ;;
  fun st =>
    if on_list p (deferred_list st) || on_list p (pending_list st)
       || on_list p (hit_list st)
    then
      if allocated (heap st)
           (neighbours p (deferred_list st) ++ neighbours p (pending_list st)
            ++ neighbours p (hit_list st))
      then Done tt
             (set_deferred (remove_ptr p (deferred_list st))
                (set_pending (remove_ptr p (pending_list st))
                   (set_hit (remove_ptr p (hit_list st)) st)))
      else Oops st
    else Oops st.

Definition INIT_LIST_HEAD (h : list_head) : M unit :=
  fun st => Done tt (set_list h [] st).

(** list_for_each_safe over the entries a list holds when the loop starts;
    [iter->next] is read from each entry before the body runs on it. *)
Fixpoint list_for_each_safe (l : list ptr) (body : ptr -> M unit) : M unit :=
  match l with
  | [] => ret tt
  | p :: l' => _ <- deref p ;; body p ;; list_for_each_safe l' body
  end.

(** ** The probe registrar (linux/kprobes.h) *)

(** register_kprobe(&entry->kp): on success the registrar holds the kprobe,
    which is armed from then on (a zeroed kprobe is not disabled). *)
Definition register_kprobe (K : kernel) (p : ptr) : M Z :=
  trace (register_kprobe_call p) ;;
  _ <- deref p ;;
  let rv := register_kprobe_rv K p in
  if rv <? 0 then ret rv
  else fun st => Done rv (set_kprobes ({[ p ]} ∪ kprobes st) st).

Definition enable_kprobe (K : kernel) (p : ptr) : M Z :=
  trace (enable_kprobe_call p) ;;
  _ <- deref p ;;
  ret (enable_kprobe_rv K p).

(** unregister_kprobe(&entry->kp): idempotent. *)
Definition unregister_kprobe (p : ptr) : M unit :=
  trace (unregister_kprobe_call p) ;;
  _ <- deref p ;;
  fun st => Done tt (set_kprobes (kprobes st ∖ {[ p ]}) st).

(** ** The work queue (linux/workqueue.h) *)

(** schedule_work(&entry->work): queues the work item unless it is queued
    already. *)
Definition schedule_work (p : ptr) : M unit :=
  trace (schedule_work_call p) ;;
  _ <- deref p ;;
  fun st =>
    if on_list p (workqueue st) then Done tt st
    else Done tt (set_workqueue (workqueue st ++ [p]) st).

Definition wake_up : M unit := trace wake_up_call.

(** ** The module *)

Definition get_name_checksum (name : option string) : Z :=
  match name with
  | None => 0
  | Some n => crc32 0 n
  end.

Definition kpc_pre_handler (entry : ptr) : M Z :=
  schedule_work entry ;;
  ret 0.

Definition kpc_probe_work (entry : ptr) : M unit :=
  unregister_kprobe entry ;;
  list_del entry ;;
  list_add_tail entry hit ;;
  wake_up.

Definition kpc_free_entry (entry : ptr) : M unit := vfree entry.

Definition kpc_new_entry (K : kernel) (module_name : option string)
    (mod_ : option module) (where_ : Z) : M ptr :=
  out <- vzalloc K ;;
  if N.eqb out NULL then ret NULL
  else
    let base_addr :=
      match mod_ with
      | Some m => ulong (module_core m)
      | None => 0
      end in
    store out {| module_checksum := get_name_checksum module_name;
                 base_addr := base_addr;
                 kp_addr := ulong (base_addr + where_) |} ;;
    ret out.

Definition kpc_enable_probe (K : kernel) (entry : ptr) : M Z :=
  err <- register_kprobe K entry ;;
  if err <? 0 then ret (- EINVAL)
  else
    list_add entry pending ;;
    rv <- enable_kprobe K entry ;;
    if rv <? 0 then
      unregister_kprobe entry ;;
      ret (- EINVAL)
    else ret 0.

Definition kpc_defer_probe (entry : ptr) : M unit :=
  list_add entry deferred.

Definition kpc_add_probe (K : kernel) (module_name : option string)
    (where_ : Z) : M unit :=
  let module :=
    match module_name with
    | Some n => find_module K n
    | None => None
    end in
  entry <- kpc_new_entry K module_name module where_ ;;
  rv <- match module_name, module with
        | Some _, None => kpc_defer_probe entry ;; ret 0
        | _, _ => kpc_enable_probe K entry
        end ;;
  if rv <? 0 then kpc_free_entry entry else ret tt.

Definition kpc_clear_list (head : list_head) (do_unregister : bool) : M unit :=
  fun st =>
    list_for_each_safe (get_list head st)
      (fun entry =>
         (if do_unregister then unregister_kprobe entry else ret tt) ;;
         list_del entry ;;
         kpc_free_entry entry) st.

Definition kpc_clear : M unit :=
  kpc_clear_list deferred false ;;
  INIT_LIST_HEAD deferred ;;
  kpc_clear_list hit true ;;
  kpc_clear_list pending true ;;
  INIT_LIST_HEAD pending ;;
  INIT_LIST_HEAD hit.

(** wait_event_interruptible returns at once when the hit list is not empty;
    otherwise the caller sleeps until a signal makes it return NULL. *)
Definition kpc_unlink_next (K : kernel) : M ptr :=
  fun st =>
    match hit_list st with
    | [] => if signal_pending K then Done NULL st else Sleeps st
    | entry :: _ => (list_del entry ;; ret entry) st
    end.

(** *** Readout *)

Definition hex_digit (d : Z) : ascii :=
  if d <? 10 then ascii_of_N (Z.to_N (48 + d)) else ascii_of_N (Z.to_N (87 + d)).

(** The [n] low hexadecimal digits of [v], most significant first. *)
Fixpoint hex_digits (n : nat) (v : Z) : string :=
  match n with
  | O => EmptyString
  | S n' => (hex_digits n' (v / 16) ++ String (hex_digit (v mod 16)) EmptyString)%string
  end.

(** printf's [%0<width>x]: at least [width] digits, padded with zeros. *)
Definition fmt_0x (width : nat) (v : Z) : string :=
  hex_digits (Nat.max width (Z.to_nat (Z.log2 v / 4 + 1))) v.

(** snprintf(buf, sizeof(buf), "0x%08x:0x%016lx\n", module_checksum, addr) *)
Definition snprintf_hit (module_checksum addr : Z) : string :=
  ("0x" ++ fmt_0x 8 module_checksum ++ ":0x" ++ fmt_0x 16 addr
     ++ String LF EmptyString)%string.

(** The value read returns, and the bytes it put into the user's buffer. *)
Definition kpc_show_read (K : kernel) : M (Z * string) :=
  entry <- kpc_unlink_next K ;;
  if N.eqb entry NULL then ret (0, EmptyString)
  else
    e <- deref entry ;;
    let addr := ulong (kp_addr e - base_addr e) in
    let buf := snprintf_hit (module_checksum e) addr in
    let n := Z.of_nat (String.length buf) in
    if n >=? 64 then ret (- EINVAL, EmptyString)
    else
      let '(n, copied) :=
        if copy_to_user_rv K =? 0 then (n, buf) else (- EFAULT, EmptyString) in
      kpc_free_entry entry ;;
      ret (n, copied).

(** *** Control *)

Definition is_delim (c : ascii) : bool := Ascii.eqb c CR || Ascii.eqb c LF.

(** strsep(&p, "\r\n"): the token, and what [p] is afterwards ([None] for
    NULL, when no delimiter was found). *)
Fixpoint strsep (p : string) : string * option string :=
  match p with
  | EmptyString => (EmptyString, None)
  | String c p' =>
      if is_delim c then (EmptyString, Some p')
      else let '(tok, rest) := strsep p' in (String c tok, rest)
  end.

(** The first token of [p] and the later ones, of those that end in a
    delimiter. *)
Fixpoint terminated (p : string) : option (string * list string) :=
  match p with
  | EmptyString => None
  | String c p' =>
      let later := terminated p' in
      if is_delim c then
        Some (EmptyString,
              match later with Some (t, r) => t :: r | None => [] end)
      else
        match later with
        | Some (t, r) => Some (String c t, r)
        | None => None
        end
  end.

(** The tokens successive calls of strsep return while they leave [p]
    non-NULL, in order. *)
Definition strsep_lines (p : string) : list string :=
  match terminated p with
  | Some (t, r) => t :: r
  | None => []
  end.

(** strstr(line, ":"): the text before the first colon and the text after it. *)
Fixpoint strstr_colon (line : string) : option (string * string) :=
  match line with
  | EmptyString => None
  | String c line' =>
      if Ascii.eqb c ":"%char then Some (EmptyString, line')
      else match strstr_colon line' with
           | Some (m, a) => Some (String c m, a)
           | None => None
           end
  end.

(** The value of a hexadecimal digit, as _parse_integer reads it. *)
Definition xdigit_value (c : ascii) : option Z :=
  let b := byte_of c in
  let lc := Z.lor b 32 in
  if (48 <=? b) && (b <=? 57) then Some (b - 48)
  else if (97 <=? lc) && (lc <=? 102) then Some (lc - 97 + 10)
  else None.

(** _parse_integer(s, 16, &res): the value and the number of digits read. *)
Fixpoint _parse_integer (s : string) (res : Z) {struct s} : Z * nat :=
  match s with
  | EmptyString => (res, O)
  | String c s' =>
      match xdigit_value c with
      | Some val =>
          let '(r, rv) := _parse_integer s' (ulong (res * 16 + val)) in (r, S rv)
      | None => (res, O)
      end
  end.

(** _parse_integer_fixup_radix(s, &base) for base 16: skips "0x". *)
Definition _parse_integer_fixup_radix (s : string) : string * nat :=
  match s with
  | String c0 (String c1 s') =>
      if Ascii.eqb c0 "0"%char && (Z.lor (byte_of c1) 32 =? 120) then (s', 2%nat)
      else (s, O)
  | _ => (s, O)
  end.

(** simple_strtoul(cp, &endp, 16): the value, and [endp - cp]. *)
Definition simple_strtoul (cp : string) : Z * nat :=
  let '(s, skipped) := _parse_integer_fixup_radix cp in
  let '(result, rv) := _parse_integer s 0 in
  (result, (skipped + rv)%nat).

(** The body of the while loop of kpc_control_write, over the lines strsep
    yields. *)
Fixpoint kpc_control_lines (K : kernel) (lines : list string) (out : Z) : M Z :=
  match lines with
  | [] => ret out
  | line :: lines' =>
      if String.eqb line EmptyString then ret out
      else
        let out := out + (Z.of_nat (String.length line) + 1) in
        if String.eqb line "clear" then kpc_clear ;; ret out
        else
          let '(module, addr_p) :=
            match strstr_colon line with
            | Some (m, a) => (Some m, a)
            | None => (None, line)
            end in
          let '(addr, endp) := simple_strtoul addr_p in
          if Nat.eqb endp 0 || negb (Nat.eqb endp (String.length addr_p))
          then kpc_control_lines K lines' out
          else kpc_add_probe K module addr ;; kpc_control_lines K lines' out
  end.

Definition kpc_control_write (K : kernel) (user_buf : string) : M Z :=
  if buffer_vzalloc_fails K then ret (- ENOMEM)
  else if negb (copy_from_user_rv K =? 0) then ret (- EFAULT)
  else kpc_control_lines K (strsep_lines (c_str user_buf)) 0.

(** *** Module notifications *)

Definition kpc_handle_coming_module (K : kernel) (mod_ : module) : M unit :=
  fun st =>
    list_for_each_safe (deferred_list st)
      (fun entry =>
         e <- deref entry ;;
         if negb (get_name_checksum (Some (name mod_)) =? module_checksum e)
         then ret tt
         else
           list_del entry ;;
           let base_addr := ulong (module_core mod_) in
           store entry
             {| module_checksum := module_checksum e;
                base_addr := base_addr;
                kp_addr := ulong (kp_addr e + sizeof_kprobe_opcode_t * base_addr) |} ;;
           rv <- kpc_enable_probe K entry ;;
           if rv <? 0 then kpc_free_entry entry else ret tt) st.

Definition kpc_handle_going_module (mod_ : module) : M unit :=
  fun st =>
    list_for_each_safe (pending_list st)
      (fun entry =>
         e <- deref entry ;;
         if negb (get_name_checksum (Some (name mod_)) =? module_checksum e)
         then ret tt
         else
           unregister_kprobe entry ;;
           list_del entry) st.

Inductive module_state :=
| MODULE_STATE_LIVE
| MODULE_STATE_COMING
| MODULE_STATE_GOING.

Definition kpc_module_notifier (K : kernel) (event : module_state)
    (mod_ : module) : M Z :=
  match event with
  | MODULE_STATE_COMING => kpc_handle_coming_module K mod_
  | MODULE_STATE_GOING => kpc_handle_going_module mod_
  | MODULE_STATE_LIVE => ret tt
  end ;;
  ret 0.

(** The state kpc_init leaves: three empty lists, nothing allocated. *)
Definition kpc_init : state :=
  {| deferred_list := []; pending_list := []; hit_list := [];
     heap := ∅; brk := 0%N; kprobes := ∅; workqueue := []; calls := [] |}.

(** kpc_exit_module: a last kpc_clear. *)
Definition kpc_exit_module : M unit := kpc_clear.

(** *** Loading and unloading

    The functions that set the module up and take it down, with what they
    do to debugfs, to the chain of module notifiers and to the memory of
    struct kprobe_coverage.  [kpc_init] and [kpc_exit_module] above are the
    part of them that concerns the lists. *)

Definition ENODEV : Z := 19.

(** What the kernel answers while the module is loaded. *)
Record loader := {
  vmalloc_fails : bool;                         (* for struct kprobe_coverage *)
  debugfs_create_dir_fails : bool;
  debugfs_create_file_fails : string -> bool;   (* by the name of the file *)
  register_module_notifier_rv : Z
}.

Inductive file_operations :=
| kpc_control_fops      (* .open = kpc_control_open, .write = kpc_control_write *)
| kpc_show_fops.        (* .open = kpc_show_open, .read = kpc_show_read *)

(** A file of debugfs: its name, its mode and its operations. *)
Record dentry := {
  d_name : string;
  d_mode : Z;
  d_fops : file_operations
}.

(** The module and what it holds of the kernel: whether [global_kpc] is not
    NULL, whether the struct it points to is allocated, the directory
    "kprobe-coverage" of debugfs and the files in it, whether the notifier
    block is on the chain, the messages printed, and the lists with the
    records. *)
Record system := {
  global_kpc : bool;
  kpc_allocated : bool;
  debugfs_root : bool;
  debugfs_files : list dentry;
  notifier_registered : bool;
  printk : list string;
  kpc : state
}.

Module Lifecycle.

(** debugfs_remove_recursive(kpc->debugfs_root) *)
Definition debugfs_remove_recursive (sys : system) : system :=
  {| global_kpc := global_kpc sys; kpc_allocated := kpc_allocated sys;
     debugfs_root := false; debugfs_files := [];
     notifier_registered := notifier_registered sys;
     printk := printk sys; kpc := kpc sys |}.

(** debugfs_create_file(name, mode, kpc->debugfs_root, kpc, fops), when it
    succeeds. *)
Definition debugfs_create_file (name : string) (mode : Z)
    (fops : file_operations) (sys : system) : system :=
  {| global_kpc := global_kpc sys; kpc_allocated := kpc_allocated sys;
     debugfs_root := debugfs_root sys;
     debugfs_files :=
       {| d_name := name; d_mode := mode; d_fops := fops |} :: debugfs_files sys;
     notifier_registered := notifier_registered sys;
     printk := printk sys; kpc := kpc sys |}.

Definition kpc_init (L : loader) (sys : system) : Z * system :=
  if debugfs_create_dir_fails L then
    (- ENODEV,
     {| global_kpc := global_kpc sys; kpc_allocated := kpc_allocated sys;
        debugfs_root := false; debugfs_files := debugfs_files sys;
        notifier_registered := notifier_registered sys;
        printk :=
          printk sys
          ++ [("kprobe-coverage: creating root dir failed"
               ++ String LF EmptyString)%string];
        kpc := kpc sys |})
  else
    let sys :=
      {| global_kpc := global_kpc sys; kpc_allocated := kpc_allocated sys;
         debugfs_root := true; debugfs_files := debugfs_files sys;
         notifier_registered := notifier_registered sys;
         printk := printk sys; kpc := kpc sys |} in
    if debugfs_create_file_fails L "control" then
      (- EINVAL, debugfs_remove_recursive sys)
    else
      let sys := debugfs_create_file "control" 128 (* 0200 *) kpc_control_fops sys in
      if debugfs_create_file_fails L "show" then
        (- EINVAL, debugfs_remove_recursive sys)
      else
        let sys := debugfs_create_file "show" 256 (* 0400 *) kpc_show_fops sys in
        if register_module_notifier_rv L <? 0 then
          (- EINVAL, debugfs_remove_recursive sys)
        else
          (0,
           {| global_kpc := global_kpc sys; kpc_allocated := kpc_allocated sys;
              debugfs_root := debugfs_root sys;
              debugfs_files := debugfs_files sys;
              notifier_registered := true;
              printk := printk sys;
              kpc :=
                match (INIT_LIST_HEAD pending ;;
                       INIT_LIST_HEAD hit ;;
                       INIT_LIST_HEAD deferred) (kpc sys) with
                | Done _ st => st
                | Oops st => st
                | Sleeps st => st
                end |}).

(** vmalloc and memset of the struct, then kpc_init; the struct is freed
    when kpc_init fails, and [global_kpc] keeps its value. *)
Definition kpc_init_module (L : loader) (sys : system) : Z * system :=
  if vmalloc_fails L then
    (- ENOMEM,
     {| global_kpc := false; kpc_allocated := false;
        debugfs_root := debugfs_root sys; debugfs_files := debugfs_files sys;
        notifier_registered := notifier_registered sys;
        printk := printk sys; kpc := kpc sys |})
  else
    let '(out, sys) :=
      kpc_init L
        {| global_kpc := true; kpc_allocated := true;
           debugfs_root := debugfs_root sys; debugfs_files := debugfs_files sys;
           notifier_registered := notifier_registered sys;
           printk := printk sys; kpc := kpc sys |} in
    if out <? 0 then
      (out,
       {| global_kpc := global_kpc sys; kpc_allocated := false;
          debugfs_root := debugfs_root sys; debugfs_files := debugfs_files sys;
          notifier_registered := notifier_registered sys;
          printk := printk sys; kpc := kpc sys |})
    else (out, sys).

(** kpc_clear, debugfs_remove_recursive, unregister_module_notifier, vfree
    of the struct, and [global_kpc = NULL].  [None] when kpc_clear faults. *)
Definition kpc_exit_module (sys : system) : option system :=
  match kpc_clear (kpc sys) with
  | Done _ st' =>
      Some {| global_kpc := false; kpc_allocated := false;
              debugfs_root := false; debugfs_files := [];
              notifier_registered := false;
              printk := printk sys; kpc := st' |}
  | Oops _ => None
  | Sleeps _ => None
  end.

End Lifecycle.

(** ** Vocabulary of the properties *)

(** *** Control lines *)

(** The address part of a control line: what follows the first colon, or the
    whole line when it has none. *)
Definition address_text (line : string) : string :=
  match strstr_colon line with
  | Some (_, a) => a
  | None => line
  end.

(** 0-9, a-f, A-F. *)
Definition hex_char (c : ascii) : bool :=
  let n := nat_of_ascii c in
  ((48 <=? n) && (n <=? 57) || (97 <=? n) && (n <=? 102)
   || (65 <=? n) && (n <=? 70))%nat.

Fixpoint all_hex (a : string) : bool :=
  match a with
  | EmptyString => true
  | String c a' => hex_char c && all_hex a'
  end.

(** An address may carry a leading 0x or 0X. *)
Definition strip_0x (a : string) : string :=
  match a with
  | String "0" (String "x" a') => a'
  | String "0" (String "X" a') => a'
  | _ => a
  end.


Fixpoint nul_free (a : string) : bool :=
  match a with
  | EmptyString => true
  | String c a' => negb (Ascii.eqb c NUL) && nul_free a'
  end.

Fixpoint delim_free (a : string) : bool :=
  match a with
  | EmptyString => true
  | String c a' => negb (is_delim c) && delim_free a'
  end.

(** The blob that holds [lines], each followed by the delimiter [t]. *)
Fixpoint join_lines (t : ascii) (lines : list string) : string :=
  match lines with
  | [] => EmptyString
  | line :: lines' => (line ++ String t (join_lines t lines'))%string
  end.

(** A line that neither ends the loop of kpc_control_write nor confuses
    strsep: not empty, not "clear", without delimiter and without NUL. *)
Definition plain_line (line : string) : bool :=
  negb (String.eqb line EmptyString) && negb (String.eqb line "clear")
  && delim_free line && nul_free line.

(** Two outcomes that differ at most in the value returned. *)
Definition same_effect {A} (o1 o2 : outcome A) : Prop :=
  match o1, o2 with
  | Done _ st1, Done _ st2 => st1 = st2
  | Oops st1, Oops st2 => st1 = st2
  | Sleeps st1, Sleeps st2 => st1 = st2
  | _, _ => False
  end.

(** The module part of a control line: the text before the first colon, or
    NULL (the kernel) when the line has none. *)
Definition module_text (line : string) : option string :=
  match strstr_colon line with
  | Some (m, _) => Some m
  | None => None
  end.

(** The digit a hexadecimal character stands for. *)
Definition digit_of (c : ascii) : Z :=
  let n := Z.of_nat (nat_of_ascii c) in
  if n <=? 57 then n - 48 else if n <=? 70 then n - 55 else n - 87.

(** The number a string of hexadecimal digits denotes, the most significant
    digit first. *)
Fixpoint hex_number (a : string) : Z :=
  match a with
  | EmptyString => 0
  | String c a' => digit_of c * 16 ^ Z.of_nat (String.length a') + hex_number a'
  end.

(** The bytes a sequence of lines takes in the buffer, a delimiter after
    each. *)
Fixpoint line_bytes (lines : list string) : Z :=
  match lines with
  | [] => 0
  | line :: lines' => Z.of_nat (String.length line) + 1 + line_bytes lines'
  end.

(** *** The lists and the records *)

(** The entries the three lists hold. *)
Definition on_lists (st : state) : list ptr :=
  deferred_list st ++ pending_list st ++ hit_list st.

(** Every linked entry is allocated. *)
Definition lists_live (st : state) : Prop :=
  forall p, p ∈ on_lists st -> is_Some (heap st !! p).

(** No entry is linked twice, every linked entry is allocated, and NULL is
    not an entry. *)
Definition lists_ok (st : state) : Prop :=
  NoDup (on_lists st)
  /\ (forall p, p ∈ on_lists st -> is_Some (heap st !! p))
  /\ NULL ∉ on_lists st.

(** The allocator has handed out every address that is in use. *)
Definition brk_ok (st : state) : Prop :=
  forall p, p ∈ on_lists st -> (p <= brk st)%N.

(** "Each coverage entry is on exactly one of these lists": the lists are
    pairwise disjoint, hold only allocated records, and hold every allocated
    record. *)
Definition kpc_inv (st : state) : Prop :=
  lists_ok st /\ forall p, is_Some (heap st !! p) -> p ∈ on_lists st.

(** [lists_ok] and [brk_ok], computed. *)
Definition lists_okb (st : state) : bool :=
  bool_decide (NoDup (on_lists st))
  && forallb (fun p => bool_decide (is_Some (heap st !! p))) (on_lists st)
  && negb (on_list NULL (on_lists st)).

Definition brk_okb (st : state) : bool :=
  forallb (fun p => N.leb p (brk st)) (on_lists st).

(** *** The states the operations leave *)

(** The record kpc_new_entry sets up. *)
Definition new_entry (module_name : option string) (mod_ : option module)
    (where_ : Z) : kprobe_coverage_entry :=
  let base_addr :=
    match mod_ with
    | Some m => ulong (module_core m)
    | None => 0
    end in
  {| module_checksum := get_name_checksum module_name;
     base_addr := base_addr;
     kp_addr := ulong (base_addr + where_) |}.

(** The state after one round of the loop of kpc_clear_list on [entry]. *)
Definition clear_one (do_unregister : bool) (entry : ptr) (st : state) : state :=
  set_heap (delete entry (heap st))
    (set_calls
       (calls st
        ++ (if do_unregister then [unregister_kprobe_call entry] else [])
        ++ [vfree_call entry])
       (set_kprobes
          (if do_unregister then kprobes st ∖ {[ entry ]} else kprobes st)
          (set_deferred (remove_ptr entry (deferred_list st))
             (set_pending (remove_ptr entry (pending_list st))
                (set_hit (remove_ptr entry (hit_list st)) st))))).

(** The state after the loop of kpc_clear_list over [entries]. *)
Fixpoint cleared (do_unregister : bool) (entries : list ptr) (st : state) : state :=
  match entries with
  | [] => st
  | entry :: entries' =>
      cleared do_unregister entries' (clear_one do_unregister entry st)
  end.

(** The state kpc_clear leaves. *)
Definition clear_state (st : state) : state :=
  set_hit []
    (set_pending []
       (cleared true (pending_list st)
          (cleared true (hit_list st)
             (set_deferred [] (cleared false (deferred_list st) st))))).


(** One round of the loop of kpc_handle_coming_module. *)
Definition coming_round (K : kernel) (mod_ : module) (entry : ptr) : M unit :=
  e <- deref entry ;;
  if negb (get_name_checksum (Some (name mod_)) =? module_checksum e)
  then ret tt
  else
    list_del entry ;;
    let base_addr := ulong (module_core mod_) in
    store entry
      {| module_checksum := module_checksum e;
         base_addr := base_addr;
         kp_addr := ulong (kp_addr e + sizeof_kprobe_opcode_t * base_addr) |} ;;
    rv <- kpc_enable_probe K entry ;;
    if rv <? 0 then kpc_free_entry entry else ret tt.

(** What a round of a loop on [q] leaves alone: the other records, the
    other entries of the lists, the other kprobes, and an empty hit list. *)
Definition frame (q : ptr) (st st' : state) : Prop :=
  (forall r, r <> q -> heap st' !! r = heap st !! r)
  /\ (forall r, r <> q -> r ∈ deferred_list st' <-> r ∈ deferred_list st)
  /\ (forall r, r <> q -> r ∈ pending_list st' <-> r ∈ pending_list st)
  /\ (forall r, r <> q -> r ∈ kprobes st' <-> r ∈ kprobes st)
  /\ (hit_list st = [] -> hit_list st' = []).

(** Whether the record at [p] carries the checksum [c]. *)
Definition of_module (c : Z) (st : state) (p : ptr) : bool :=
  match heap st !! p with
  | Some e => c =? module_checksum e
  | None => false
  end.

(** The state in the loop of kpc_handle_going_module for a module with
    checksum [c], started in [st], when the pending entries [done] have been
    visited and [rest] are still to come. *)
Definition going_state (c : Z) (done rest : list ptr) (st : state) : state :=
  set_calls
    (calls st
     ++ map unregister_kprobe_call
          (filter (fun p => of_module c st p = true) done))
    (set_kprobes
       (kprobes st ∖ list_to_set (filter (fun p => of_module c st p = true) done))
       (set_pending
          (filter (fun p => of_module c st p = false) done ++ rest) st)).

(** The record of a deferred entry once its module has come at [base]. *)
Definition rebase (base : Z) (e : kprobe_coverage_entry) : kprobe_coverage_entry :=
  {| module_checksum := module_checksum e;
     base_addr := base;
     kp_addr := ulong (kp_addr e + sizeof_kprobe_opcode_t * base) |}.

Fixpoint rebased (base : Z) (entries : list ptr)
    (h : gmap N kprobe_coverage_entry) : gmap N kprobe_coverage_entry :=
  match entries with
  | [] => h
  | q :: entries' =>
      rebased base entries'
        (match h !! q with
         | Some e => <[q := rebase base e]> h
         | None => h
         end)
  end.

(** The state in the loop of kpc_handle_coming_module for a module with
    checksum [c] loaded at [base], started in [st], when the deferred entries
    [done] have been visited and armed and [rest] are still to come. *)
Definition coming_state (c base : Z) (done rest : list ptr) (st : state) : state :=
  let come := filter (fun p => of_module c st p = true) done in
  set_calls
    (calls st
     ++ flat_map (fun q => [register_kprobe_call q; enable_kprobe_call q]) come)
    (set_kprobes (list_to_set come ∪ kprobes st)
       (set_heap (rebased base come (heap st))
          (set_deferred
             (filter (fun p => of_module c st p = false) done ++ rest)
             (set_pending (reverse come ++ pending_list st) st)))).


(** The state an operation ends in. *)
Definition after {A} (m : M A) (st : state) : state :=
  match m st with
  | Done _ st' => st'
  | Oops st' => st'
  | Sleeps st' => st'
  end.

(** *** The module and the kernel around it as a transition system *)

(** What can happen: a write to control, a read of show, a module
    notification, the hit of a kprobe the registrar holds, and the worker
    running a work item that is queued.  Each runs to its end before the
    next begins. *)
Inductive event :=
| control_write_event (K : kernel) (user_buf : string)
| show_read_event (K : kernel)
| module_event (K : kernel) (ev : module_state) (mod_ : module)
| fire_event (entry : ptr)
| work_event (entry : ptr).

Definition returns {A} (o : outcome A) : option state :=
  match o with
  | Done _ st => Some st
  | Oops _ => None
  | Sleeps _ => None
  end.

Definition step (ev : event) (st : state) : option state :=
  match ev with
  | control_write_event K user_buf => returns (kpc_control_write K user_buf st)
  | show_read_event K => returns (kpc_show_read K st)
  | module_event K ev mod_ => returns (kpc_module_notifier K ev mod_ st)
  | fire_event entry =>
      if bool_decide (entry ∈ kprobes st)
      then returns (kpc_pre_handler entry st)
      else None
  | work_event entry =>
      if on_list entry (workqueue st)
      then returns (kpc_probe_work entry
                      (set_workqueue (remove_ptr entry (workqueue st)) st))
      else None
  end.

Fixpoint run (evs : list event) (st : state) : option state :=
  match evs with
  | [] => Some st
  | ev :: evs' =>
      match step ev st with
      | Some st' => run evs' st'
      | None => None
      end
  end.




(** *** The worker, step by step *)

(** The kernel's worker runs a queued item in two steps: it takes the item
    off the queue, which clears the pending bit that schedule_work tests,
    and then calls the item's function, kpc_probe_work.  Between the two
    the kprobe is still registered and kpc_pre_handler takes no lock, so a
    hit in that window queues the item again.  The second component of the
    state holds the items the worker has taken and not yet run; an item is
    not taken again while it is there (a work item never runs concurrently
    with itself). *)
Inductive worker_event :=
| other_event (ev : event)        (* a write, a read, a notification, a hit *)
| dequeue_event (entry : ptr)     (* the worker takes the item off the queue *)
| func_event (entry : ptr).       (* the worker calls kpc_probe_work *)

Definition worker_step (ev : worker_event) (s : state * list ptr)
    : option (state * list ptr) :=
  let '(st, taken) := s in
  match ev with
  | other_event (work_event _) => None
  | other_event ev =>
      match step ev st with
      | Some st' => Some (st', taken)
      | None => None
      end
  | dequeue_event entry =>
      if on_list entry (workqueue st) && negb (on_list entry taken)
      then Some (set_workqueue (remove_ptr entry (workqueue st)) st,
                 taken ++ [entry])
      else None
  | func_event entry =>
      if on_list entry taken
      then match returns (kpc_probe_work entry st) with
           | Some st' => Some (st', remove_ptr entry taken)
           | None => None
           end
      else None
  end.

Fixpoint worker_run (evs : list worker_event) (s : state * list ptr)
    : option (state * list ptr) :=
  match evs with
  | [] => Some s
  | ev :: evs' =>
      match worker_step ev s with
      | Some s' => worker_run evs' s'
      | None => None
      end
  end.

(** How often the worker calls kpc_probe_work on [entry] in [evs]. *)
Fixpoint worker_completions (entry : ptr) (evs : list worker_event) : nat :=
  match evs with
  | [] => O
  | func_event q :: evs' =>
      ((if N.eqb q entry then 1 else 0) + worker_completions entry evs')%nat
  | _ :: evs' => worker_completions entry evs'
  end.

(** The hit of the kprobe of [entry], and the worker running its work. *)
Definition hit_and_work (entry : ptr) : list worker_event :=
  [other_event (fire_event entry); dequeue_event entry; func_event entry].



(** An operation that only unregisters kprobes and unlinks deferred
    records. *)
Definition shrinks (st st' : state) : Prop :=
  workqueue st' = workqueue st
  /\ brk st' = brk st
  /\ (forall r, r ∈ deferred_list st' -> r ∈ deferred_list st)
  /\ (forall r, r ∈ kprobes st' -> r ∈ kprobes st)
  /\ (heap st !! NULL = None -> heap st' !! NULL = None).

(** An operation that, besides, may register the kprobe of [q], and then
    leaves [q] off the deferred list. *)
Definition arms (q : ptr) (st st' : state) : Prop :=
  workqueue st' = workqueue st
  /\ brk st' = brk st
  /\ (forall r, r ∈ deferred_list st' -> r ∈ deferred_list st)
  /\ (forall r, r ∈ kprobes st' -> r ∈ kprobes st \/ r = q)
  /\ (q ∈ kprobes st' -> q ∈ deferred_list st' -> q ∈ kprobes st)
  /\ (heap st !! NULL = None -> heap st' !! NULL = None).

(** An operation that allocates [q] and defers it or registers its kprobe. *)
Definition adds (q : ptr) (st st' : state) : Prop :=
  workqueue st' = workqueue st
  /\ brk st' = q
  /\ (forall r, r ∈ deferred_list st' -> r ∈ deferred_list st \/ r = q)
  /\ (forall r, r ∈ kprobes st' -> r ∈ kprobes st \/ r = q)
  /\ (q ∈ kprobes st' -> q ∈ deferred_list st' ->
      q ∈ kprobes st \/ q ∈ deferred_list st)
  /\ (heap st !! NULL = None -> heap st' !! NULL = None).

(** *** Kernels and states to run the module in *)

(** A kernel without modules in which every call succeeds. *)
Definition K_ok : kernel :=
  {| find_module := fun _ => None;
     vzalloc_fails := fun _ => false;
     register_kprobe_rv := fun _ => 0;
     enable_kprobe_rv := fun _ => 0;
     signal_pending := false;
     copy_to_user_rv := 0;
     buffer_vzalloc_fails := false;
     copy_from_user_rv := 0 |}.

(** [K_ok], but enable_kprobe fails. *)
Definition K_enable_fails : kernel :=
  {| find_module := find_module K_ok;
     vzalloc_fails := vzalloc_fails K_ok;
     register_kprobe_rv := register_kprobe_rv K_ok;
     enable_kprobe_rv := fun _ => - EINVAL;
     signal_pending := signal_pending K_ok;
     copy_to_user_rv := copy_to_user_rv K_ok;
     buffer_vzalloc_fails := buffer_vzalloc_fails K_ok;
     copy_from_user_rv := copy_from_user_rv K_ok |}.

(** [K_ok], but no record can be allocated. *)
Definition K_no_memory : kernel :=
  {| find_module := find_module K_ok;
     vzalloc_fails := fun _ => true;
     register_kprobe_rv := register_kprobe_rv K_ok;
     enable_kprobe_rv := enable_kprobe_rv K_ok;
     signal_pending := signal_pending K_ok;
     copy_to_user_rv := copy_to_user_rv K_ok;
     buffer_vzalloc_fails := buffer_vzalloc_fails K_ok;
     copy_from_user_rv := copy_from_user_rv K_ok |}.

(** [K_ok], but register_kprobe fails. *)
Definition K_register_fails : kernel :=
  {| find_module := find_module K_ok;
     vzalloc_fails := vzalloc_fails K_ok;
     register_kprobe_rv := fun _ => - EINVAL;
     enable_kprobe_rv := enable_kprobe_rv K_ok;
     signal_pending := signal_pending K_ok;
     copy_to_user_rv := copy_to_user_rv K_ok;
     buffer_vzalloc_fails := buffer_vzalloc_fails K_ok;
     copy_from_user_rv := copy_from_user_rv K_ok |}.

(** [K_ok], but copy_to_user fails. *)
Definition K_copy_fails : kernel :=
  {| find_module := find_module K_ok;
     vzalloc_fails := vzalloc_fails K_ok;
     register_kprobe_rv := register_kprobe_rv K_ok;
     enable_kprobe_rv := enable_kprobe_rv K_ok;
     signal_pending := signal_pending K_ok;
     copy_to_user_rv := 1;
     buffer_vzalloc_fails := buffer_vzalloc_fails K_ok;
     copy_from_user_rv := copy_from_user_rv K_ok |}.

(** [K_ok], but the buffer of a control write cannot be allocated. *)
Definition K_no_buffer : kernel :=
  {| find_module := find_module K_ok;
     vzalloc_fails := vzalloc_fails K_ok;
     register_kprobe_rv := register_kprobe_rv K_ok;
     enable_kprobe_rv := enable_kprobe_rv K_ok;
     signal_pending := signal_pending K_ok;
     copy_to_user_rv := copy_to_user_rv K_ok;
     buffer_vzalloc_fails := true;
     copy_from_user_rv := copy_from_user_rv K_ok |}.

(** [K_ok], but copy_from_user leaves 3 bytes uncopied. *)
Definition K_bad_user_buffer : kernel :=
  {| find_module := find_module K_ok;
     vzalloc_fails := vzalloc_fails K_ok;
     register_kprobe_rv := register_kprobe_rv K_ok;
     enable_kprobe_rv := enable_kprobe_rv K_ok;
     signal_pending := signal_pending K_ok;
     copy_to_user_rv := copy_to_user_rv K_ok;
     buffer_vzalloc_fails := buffer_vzalloc_fails K_ok;
     copy_from_user_rv := 3 |}.

Definition mymod : module := {| name := "mymod"; module_core := 0x1000 |}.

(** [K_ok] with the module "mymod" loaded at 0x1000. *)
Definition K_mymod : kernel :=
  {| find_module := fun n => if String.eqb n "mymod" then Some mymod else None;
     vzalloc_fails := vzalloc_fails K_ok;
     register_kprobe_rv := register_kprobe_rv K_ok;
     enable_kprobe_rv := enable_kprobe_rv K_ok;
     signal_pending := signal_pending K_ok;
     copy_to_user_rv := copy_to_user_rv K_ok;
     buffer_vzalloc_fails := buffer_vzalloc_fails K_ok;
     copy_from_user_rv := copy_from_user_rv K_ok |}.

(** One record deferred (1) and one pending (2). *)
Definition quiet_state : state :=
  Eval vm_compute in
    after (kpc_add_probe K_ok (Some "othermod"%string) 0x40 ;;
           kpc_add_probe K_ok None 0x20) kpc_init.

(** One record deferred (1), two pending (3, 2) and one hit (4), whose work
    has run; no work is queued. *)
Definition busy_state : state :=
  Eval vm_compute in
    let st := after (kpc_add_probe K_ok (Some "othermod"%string) 0x40 ;;
                     kpc_add_probe K_ok None 0x20 ;;
                     kpc_add_probe K_ok None 0x30 ;;
                     kpc_add_probe K_ok None 0x50) kpc_init in
    match run [fire_event 4; work_event 4] st with
    | Some st' => st'
    | None => st
    end.

(** Records 1 and 2 deferred for "mymod", record 3 deferred for "othermod"
    and record 4 pending for the kernel. *)
Definition waiting_state : state :=
  Eval vm_compute in
    after (kpc_add_probe K_ok (Some "mymod"%string) 0x10 ;;
           kpc_add_probe K_ok (Some "mymod"%string) 0x20 ;;
           kpc_add_probe K_ok (Some "othermod"%string) 0x40 ;;
           kpc_add_probe K_ok None 0x30) kpc_init.

(** [waiting_state] once "mymod" has come: record 3 deferred, records 1, 2
    and 4 pending. *)
Definition arrived_state : state :=
  Eval vm_compute in after (kpc_handle_coming_module K_ok mymod) waiting_state.

(** A write of "10\n"; the kprobe it arms is hit; the worker takes the
    work item off the queue; the kprobe, still registered, is hit again and
    the item is queued again; the worker calls kpc_probe_work, takes the
    item a second time and calls kpc_probe_work again. *)
Definition raced_run : list worker_event :=
  [other_event (control_write_event K_ok ("10" ++ String LF EmptyString));
   other_event (fire_event 1); dequeue_event 1;
   other_event (fire_event 1); func_event 1;
   dequeue_event 1; func_event 1].

(** The same up to the first call of kpc_probe_work; then a read returns
    the hit and frees the record, and the worker takes the item again. *)
Definition raced_read_run : list worker_event :=
  [other_event (control_write_event K_ok ("10" ++ String LF EmptyString));
   other_event (fire_event 1); dequeue_event 1;
   other_event (fire_event 1); func_event 1;
   other_event (show_read_event K_ok); dequeue_event 1].




(** Record 1 pending for the kernel, hit, its work queued and not yet run. *)
Definition fired_state : state :=
  Eval vm_compute in
    after (kpc_add_probe K_ok None 0x10 ;; kpc_pre_handler 1) kpc_init.

(** The module before it is loaded. *)
Definition unloaded : system :=
  {| global_kpc := false; kpc_allocated := false;
     debugfs_root := false; debugfs_files := [];
     notifier_registered := false; printk := []; kpc := kpc_init |}.

(** A kernel in which loading succeeds. *)
Definition L_ok : loader :=
  {| vmalloc_fails := false; debugfs_create_dir_fails := false;
     debugfs_create_file_fails := fun _ => false;
     register_module_notifier_rv := 0 |}.

(** * Properties *)

(** ** The control parser *)

Lemma append_nil (b : string) : (EmptyString ++ b)%string = b.
Proof. reflexivity. Qed.

Lemma append_cons c (a b : string) :
  (String c a ++ b)%string = String c (a ++ b).
Proof. reflexivity. Qed.

Lemma strsep_lines_cons c p :
  strsep_lines (String c p) =
    if is_delim c then EmptyString :: strsep_lines p
    else match strsep_lines p with
         | t :: r => String c t :: r
         | [] => []
         end.
Proof.
  unfold strsep_lines; simpl.
  destruct (is_delim c), (terminated p) as [[t r]|]; reflexivity.
Qed.

(** [strsep_lines] is what iterating [strsep] yields. *)
Lemma strsep_lines_strsep p :
  match strsep p with
  | (tok, Some rest) => strsep_lines p = tok :: strsep_lines rest
  | (_, None) => strsep_lines p = []
  end.
Proof.
  induction p as [|c p IH]; [reflexivity|].
  rewrite strsep_lines_cons. cbn [strsep].
  destruct (is_delim c); [reflexivity|].
  destruct (strsep p) as [tok [rest|]]; rewrite IH; reflexivity.
Qed.

Lemma strsep_lines_terminated a t b :
  is_delim t = true -> strsep_lines (a ++ String t b) <> [].
Proof.
  intros Ht. induction a as [|c a IH]; rewrite ?append_nil, ?append_cons;
    rewrite strsep_lines_cons.
  - rewrite Ht. discriminate.
  - destruct (is_delim c); [discriminate|].
    destruct (strsep_lines (a ++ String t b)); [contradiction|discriminate].
Qed.

Lemma strsep_lines_app a t b :
  is_delim t = true ->
  strsep_lines (a ++ String t b) =
    strsep_lines (a ++ String t EmptyString) ++ strsep_lines b.
Proof.
  intros Ht. induction a as [|c a IH]; rewrite ?append_nil, ?append_cons.
  - rewrite !strsep_lines_cons, Ht. reflexivity.
  - rewrite !strsep_lines_cons, IH.
    destruct (is_delim c); [reflexivity|].
    pose proof (strsep_lines_terminated a t EmptyString Ht) as Hne.
    destruct (strsep_lines (a ++ String t EmptyString)); [contradiction|reflexivity].
Qed.

Lemma c_str_app a b :
  c_str (a ++ b) = if nul_free a then (a ++ c_str b)%string else c_str a.
Proof.
  induction a as [|c a IH]; rewrite ?append_nil, ?append_cons; [reflexivity|].
  cbn [c_str nul_free]. destruct (Ascii.eqb c NUL); [reflexivity|].
  cbn [negb andb]. rewrite IH. destruct (nul_free a); reflexivity.
Qed.

Lemma is_delim_not_NUL t : is_delim t = true -> Ascii.eqb t NUL = false.
Proof.
  unfold is_delim. intros H. apply orb_true_iff in H as [H|H];
    apply Ascii.eqb_eq in H; subst t; reflexivity.
Qed.

Lemma kpc_control_lines_stop K before after out st :
  kpc_control_lines K (before ++ EmptyString :: after) out st =
  kpc_control_lines K before out st.
Proof.
  revert out st. induction before as [|line before IH]; intros out st.
  - reflexivity.
  - cbn [app kpc_control_lines].
    destruct (String.eqb line EmptyString); [reflexivity|].
    destruct (String.eqb line "clear"); [reflexivity|].
    destruct (strstr_colon line) as [[m a]|].
    + destruct (simple_strtoul a) as [addr endp].
      destruct (Nat.eqb endp 0 || negb (Nat.eqb endp (String.length a))).
      * apply IH.
      * unfold bind. destruct (kpc_add_probe K (Some m) addr st); auto.
    + destruct (simple_strtoul line) as [addr endp].
      destruct (Nat.eqb endp 0 || negb (Nat.eqb endp (String.length line))).
      * apply IH.
      * unfold bind. destruct (kpc_add_probe K None addr st); auto.
Qed.

(** C10: an empty line ends the processing of a control write.  Whatever
    follows an empty token in the sequence of lines plays no role; in a blob,
    two delimiters in a row (CR LF included) make such a token, so the write
    does what the blob cut after the first of them does; and of
    "10\r\n20\r\n" only the first line is acted on. *)
Theorem C10_empty_line_stops_processing :
  (forall K before after out st,
      kpc_control_lines K (before ++ EmptyString :: after) out st =
      kpc_control_lines K before out st)
  /\ (forall K pre t1 t2 rest st,
        is_delim t1 = true -> is_delim t2 = true ->
        kpc_control_write K (pre ++ String t1 (String t2 rest)) st =
        kpc_control_write K (pre ++ String t1 EmptyString) st)
  /\ (forall K st,
        buffer_vzalloc_fails K = false -> copy_from_user_rv K = 0 ->
        kpc_control_write K
          ("10" ++ String CR (String LF ("20" ++ String CR (String LF EmptyString))))
          st
        = (kpc_add_probe K None 16 ;; ret 3) st).
Proof.
  split; [exact kpc_control_lines_stop|split].
  - intros K pre t1 t2 rest st H1 H2. unfold kpc_control_write.
    destruct (buffer_vzalloc_fails K); [reflexivity|].
    destruct (negb (copy_from_user_rv K =? 0)); [reflexivity|].
    rewrite !c_str_app. destruct (nul_free pre); [|reflexivity].
    cbn [c_str]. rewrite (is_delim_not_NUL t1 H1), (is_delim_not_NUL t2 H2).
    rewrite (strsep_lines_app pre t1 _ H1), strsep_lines_cons, H2.
    rewrite kpc_control_lines_stop. reflexivity.
  - intros K st Hb Hc. unfold kpc_control_write. rewrite Hb, Hc.
    reflexivity.
Qed.

Lemma xdigit_value_hex_char c : xdigit_value c = None -> hex_char c = false.
Proof.
  destruct c as [[] [] [] [] [] [] [] []]; vm_compute; congruence.
Qed.


Lemma _parse_integer_length s res :
  (snd (_parse_integer s res) <= String.length s)%nat.
Proof.
  revert res. induction s as [|c s IH]; intros res; cbn [_parse_integer];
    [cbn; lia|].
  destruct (xdigit_value c) as [val|]; cbn [snd String.length]; [|lia].
  specialize (IH (ulong (res * 16 + val))).
  destruct (_parse_integer s (ulong (res * 16 + val))) as [r rv].
  cbn [snd] in *. lia.
Qed.


Lemma _parse_integer_fixup_radix_strip a :
  exists k, _parse_integer_fixup_radix a = (strip_0x a, k)
            /\ String.length a = (k + String.length (strip_0x a))%nat.
Proof.
  destruct a as [|c0 [|c1 a]].
  - exists O. split; reflexivity.
  - exists O. destruct c0 as [[] [] [] [] [] [] [] []]; split; reflexivity.
  - destruct c0 as [[] [] [] [] [] [] [] []];
      try (exists O; split; reflexivity).
    destruct c1 as [[] [] [] [] [] [] [] []];
      try (exists O; split; reflexivity);
      exists 2%nat; split; reflexivity.
Qed.



(** The byte count [out] plays no role in what the loop does. *)
Lemma kpc_control_lines_out K lines out out' st :
  same_effect (kpc_control_lines K lines out st)
              (kpc_control_lines K lines out' st).
Proof.
  revert out out' st. induction lines as [|line lines IH]; intros out out' st.
  - reflexivity.
  - cbn [kpc_control_lines].
    destruct (String.eqb line EmptyString); [reflexivity|].
    destruct (String.eqb line "clear").
    { unfold bind. destruct (kpc_clear st); reflexivity. }
    destruct (strstr_colon line) as [[m a]|].
    + destruct (simple_strtoul a) as [addr endp].
      destruct (Nat.eqb endp 0 || negb (Nat.eqb endp (String.length a))).
      * apply IH.
      * unfold bind. destruct (kpc_add_probe K (Some m) addr st);
          first [apply IH | reflexivity].
    + destruct (simple_strtoul line) as [addr endp].
      destruct (Nat.eqb endp 0 || negb (Nat.eqb endp (String.length line))).
      * apply IH.
      * unfold bind. destruct (kpc_add_probe K None addr st);
          first [apply IH | reflexivity].
Qed.



Lemma strsep_lines_head line t rest :
  delim_free line = true -> is_delim t = true ->
  strsep_lines (line ++ String t rest) = line :: strsep_lines rest.
Proof.
  intros Hline Ht. induction line as [|c line IH];
    rewrite ?append_nil, ?append_cons, strsep_lines_cons.
  - rewrite Ht. reflexivity.
  - cbn [delim_free] in Hline. apply andb_true_iff in Hline as [Hc Hline].
    apply negb_true_iff in Hc. rewrite Hc, (IH Hline). reflexivity.
Qed.


(** ** Running the primitives *)

Lemma remove_ptr_notin p l : p ∉ l -> remove_ptr p l = l.
Proof.
  intros Hp. unfold remove_ptr. induction l as [|q l IH]; [reflexivity|].
  apply not_elem_of_cons in Hp as [Hne Hp].
  rewrite filter_cons_True by congruence. f_equal. auto.
Qed.

Lemma remove_ptr_head p l : p ∉ l -> remove_ptr p (p :: l) = l.
Proof.
  intros Hp. unfold remove_ptr. rewrite filter_cons_False by (intros H; apply H; reflexivity).
  apply remove_ptr_notin, Hp.
Qed.

Lemma remove_ptr_app p l1 l2 :
  remove_ptr p (l1 ++ l2) = remove_ptr p l1 ++ remove_ptr p l2.
Proof. apply filter_app. Qed.

Lemma elem_of_remove_ptr q p l : q ∈ remove_ptr p l <-> q ≠ p /\ q ∈ l.
Proof. unfold remove_ptr. rewrite list_elem_of_filter. reflexivity. Qed.

Lemma on_list_true p l : on_list p l = true <-> p ∈ l.
Proof. unfold on_list. rewrite bool_decide_eq_true. reflexivity. Qed.

Lemma on_list_false p l : on_list p l = false <-> p ∉ l.
Proof. unfold on_list. rewrite bool_decide_eq_false. reflexivity. Qed.

Lemma allocated_true h ps :
  (forall q, q ∈ ps -> is_Some (h !! q)) -> allocated h ps = true.
Proof.
  intros H. unfold allocated. apply forallb_forall.
  intros q Hq. apply bool_decide_eq_true, H, list_elem_of_In, Hq.
Qed.

Lemma allocated_elem h ps q :
  allocated h ps = true -> q ∈ ps -> is_Some (h !! q).
Proof.
  unfold allocated. intros H Hq. rewrite forallb_forall in H.
  apply list_elem_of_In, H, bool_decide_eq_true in Hq. exact Hq.
Qed.

Lemma allocated_app h a b :
  allocated h (a ++ b) = allocated h a && allocated h b.
Proof. apply forallb_app. Qed.

Lemma allocated_insert h ps p e :
  allocated h ps = true -> allocated (<[p := e]> h) ps = true.
Proof.
  intros H. apply allocated_true. intros q Hq.
  apply lookup_insert_is_Some'. right. exact (allocated_elem h ps q H Hq).
Qed.


Lemma elem_of_neighbours q p l : q ∈ neighbours p l -> q ∈ l.
Proof.
  induction l as [|a l IH]; cbn [neighbours]; [auto|].
  rewrite elem_of_app. intros [H|H]; [|right; apply IH, H].
  destruct l as [|b l]; [inversion H|].
  rewrite elem_of_app in H.
  destruct H as [H|H]; [destruct (N.eqb a p)|destruct (N.eqb b p)];
    try (inversion H; fail); apply list_elem_of_singleton in H as ->;
    [right; left|left].
Qed.


Lemma elem_of_take_1 (q : ptr) l : q ∈ take 1 l -> q ∈ l.
Proof.
  destruct l as [|a l]; cbn [take]; [auto|].
  intros H. apply list_elem_of_singleton in H as ->. left.
Qed.

Lemma lists_ok_live st : lists_ok st -> lists_live st.
Proof. intros (_ & H & _). exact H. Qed.

(** The first entry of a list is linked, hence allocated when every linked
    entry is. *)
Lemma allocated_first st h :
  lists_live st -> allocated (heap st) (take 1 (get_list h st)) = true.
Proof.
  intros Hlive. apply allocated_true. intros q Hq. apply elem_of_take_1 in Hq.
  apply Hlive. unfold on_lists. rewrite !elem_of_app. destruct h; cbn in Hq; tauto.
Qed.

(** The entries next to a linked entry are linked, hence allocated when
    every linked entry is. *)
Lemma allocated_beside p st h :
  lists_live st -> heap st = h ->
  allocated h
    (neighbours p (deferred_list st) ++ neighbours p (pending_list st)
     ++ neighbours p (hit_list st)) = true.
Proof.
  intros Hlive <-. apply allocated_true. intros q Hq. apply Hlive.
  unfold on_lists. rewrite !elem_of_app in Hq |- *.
  destruct Hq as [Hq|[Hq|Hq]]; apply elem_of_neighbours in Hq; tauto.
Qed.

Ltac unfold_prims :=
  unfold kpc_free_entry, kpc_defer_probe, register_kprobe, enable_kprobe,
    unregister_kprobe, schedule_work, wake_up, list_add, list_add_tail,
    list_del, INIT_LIST_HEAD, vfree, vzalloc, store, deref, trace, bind, ret.

Ltac simpl_state :=
  cbn [deferred_list pending_list hit_list heap brk kprobes workqueue calls
       set_deferred set_pending set_hit set_heap set_brk set_kprobes
       set_workqueue set_calls get_list set_list].

Lemma kpc_probe_work_Done p e st :
  lists_live st ->
  heap st !! p = Some e ->
  p ∈ on_lists st ->
  kpc_probe_work p st =
    Done tt
      (set_calls (calls st ++ [unregister_kprobe_call p; wake_up_call])
         (set_kprobes (kprobes st ∖ {[ p ]})
            (set_deferred (remove_ptr p (deferred_list st))
               (set_pending (remove_ptr p (pending_list st))
                  (set_hit (remove_ptr p (hit_list st) ++ [p]) st))))).
Proof.
  intros Hlive Hp Hin. unfold kpc_probe_work. unfold_prims. simpl_state.
  rewrite Hp. simpl_state. rewrite Hp. simpl_state.
  assert (on_list p (deferred_list st) || on_list p (pending_list st)
          || on_list p (hit_list st) = true) as ->.
  { unfold on_lists in Hin. rewrite !elem_of_app in Hin.
    rewrite !orb_true_iff, !on_list_true. tauto. }
  rewrite (allocated_beside p st) by auto.
  simpl_state. rewrite Hp. simpl_state.
  rewrite allocated_true.
  - simpl_state. rewrite <- app_assoc. reflexivity.
  - intros q Hq. apply elem_of_take_1, elem_of_reverse, elem_of_remove_ptr in Hq.
    apply Hlive. unfold on_lists. rewrite !elem_of_app. tauto.
Qed.

Lemma kpc_unlink_next_beside K p r e st :
  allocated (heap st)
    (neighbours p (deferred_list st) ++ neighbours p (pending_list st)
     ++ neighbours p (hit_list st)) = true ->
  hit_list st = p :: r ->
  heap st !! p = Some e ->
  kpc_unlink_next K st =
    Done p
      (set_deferred (remove_ptr p (deferred_list st))
         (set_pending (remove_ptr p (pending_list st))
            (set_hit (remove_ptr p (hit_list st)) st))).
Proof.
  intros Hbeside Hh Hp. unfold kpc_unlink_next. rewrite Hh. unfold_prims.
  rewrite Hp. rewrite <- Hh.
  assert (on_list p (hit_list st) = true) as ->.
  { apply on_list_true. rewrite Hh. left. }
  rewrite !orb_true_r. rewrite Hbeside. reflexivity.
Qed.

Lemma kpc_unlink_next_Done K p r e st :
  lists_live st ->
  hit_list st = p :: r ->
  heap st !! p = Some e ->
  kpc_unlink_next K st =
    Done p
      (set_deferred (remove_ptr p (deferred_list st))
         (set_pending (remove_ptr p (pending_list st))
            (set_hit (remove_ptr p (hit_list st)) st))).
Proof.
  intros Hlive. apply kpc_unlink_next_beside, allocated_beside; auto.
Qed.



Lemma lists_ok_pending st p :
  lists_ok st -> p ∈ pending_list st ->
  is_Some (heap st !! p) /\ p ∈ on_lists st
  /\ (p ∉ deferred_list st) /\ (p ∉ hit_list st).
Proof.
  intros (Hnd & Hlive & _) Hp. unfold on_lists in *.
  apply NoDup_app in Hnd as (_ & Hd & Hnd).
  apply NoDup_app in Hnd as (_ & Hh & _).
  assert (p ∈ deferred_list st ++ pending_list st ++ hit_list st) as Hin
    by (rewrite !elem_of_app; tauto).
  repeat split; auto.
  intros Hc. apply (Hd p Hc). rewrite elem_of_app. tauto.
Qed.


(** ** kpc_clear *)

Lemma clear_round (do_unregister : bool) (p : ptr) e st :
  lists_live st ->
  heap st !! p = Some e -> p <> NULL -> p ∈ on_lists st ->
  ((if do_unregister then unregister_kprobe p else ret tt) ;;
   list_del p ;;
   kpc_free_entry p) st
  = Done tt (clear_one do_unregister p st).
Proof.
  intros Hlive Hp Hnull Hin.
  assert (on_list p (deferred_list st) || on_list p (pending_list st)
          || on_list p (hit_list st) = true) as Hon.
  { unfold on_lists in Hin. rewrite !elem_of_app in Hin.
    rewrite !orb_true_iff, !on_list_true. tauto. }
  apply N.eqb_neq in Hnull.
  destruct do_unregister; unfold_prims; simpl_state;
    rewrite ?Hp; simpl_state; rewrite ?Hp; simpl_state; rewrite Hon;
    rewrite (allocated_beside p st) by auto;
    simpl_state; rewrite Hnull, Hp; unfold clear_one; simpl_state;
    rewrite <- ?app_assoc; reflexivity.
Qed.

Lemma on_lists_clear_one u p q st :
  q ∈ on_lists (clear_one u p st) <-> q <> p /\ q ∈ on_lists st.
Proof.
  unfold on_lists, clear_one. simpl_state.
  rewrite !elem_of_app, !elem_of_remove_ptr. tauto.
Qed.

Lemma heap_clear_one u p st :
  heap (clear_one u p st) = delete p (heap st).
Proof. reflexivity. Qed.

Lemma lists_live_clear_one u p st :
  lists_live st -> lists_live (clear_one u p st).
Proof.
  intros Hlive q Hq. apply on_lists_clear_one in Hq as [Hne Hq].
  rewrite heap_clear_one, lookup_delete_ne by congruence. apply Hlive, Hq.
Qed.

Lemma kpc_clear_list_loop (u : bool) l st :
  lists_live st ->
  NoDup l ->
  (forall p, p ∈ l -> p <> NULL /\ p ∈ on_lists st) ->
  list_for_each_safe l
    (fun entry =>
       (if u then unregister_kprobe entry else ret tt) ;;
       list_del entry ;;
       kpc_free_entry entry) st
  = Done tt (cleared u l st).
Proof.
  revert st. induction l as [|p l IH]; intros st Hlive Hnd Hl; [reflexivity|].
  apply NoDup_cons in Hnd as [Hp Hnd].
  destruct (Hl p) as (Hnull & Hin); [left|].
  destruct (Hlive p Hin) as [e He].
  cbn [list_for_each_safe cleared].
  unfold bind at 1. unfold deref at 1. rewrite He.
  unfold bind at 1. rewrite (clear_round u p e st Hlive He Hnull Hin).
  apply IH; [apply lists_live_clear_one, Hlive|exact Hnd|].
  intros q Hq. destruct (Hl q) as (Hqn & Hqin); [right; exact Hq|].
  assert (q <> p) as Hne by (intros ->; contradiction).
  split; [exact Hqn|]. apply on_lists_clear_one. auto.
Qed.

Lemma cleared_list_disjoint u h l st :
  (forall p, p ∈ l -> p ∉ get_list h st) ->
  get_list h (cleared u l st) = get_list h st.
Proof.
  revert st. induction l as [|p l IH]; intros st Hl; [reflexivity|].
  cbn [cleared].
  assert (get_list h (clear_one u p st) = get_list h st) as Hone.
  { unfold clear_one. destruct h; simpl_state; apply remove_ptr_notin;
      apply (Hl p); left. }
  rewrite IH; [exact Hone|].
  intros q Hq. rewrite Hone. apply Hl. right. exact Hq.
Qed.

Lemma cleared_heap_notin u l q st :
  q ∉ l -> heap (cleared u l st) !! q = heap st !! q.
Proof.
  revert st. induction l as [|p l IH]; intros st Hq; [reflexivity|].
  apply not_elem_of_cons in Hq as [Hne Hq]. cbn [cleared].
  rewrite IH by exact Hq. rewrite heap_clear_one.
  apply lookup_delete_ne. congruence.
Qed.

Lemma cleared_heap_in u l q st : q ∈ l -> heap (cleared u l st) !! q = None.
Proof.
  revert st. induction l as [|p l IH]; intros st Hq; [inversion Hq|].
  cbn [cleared]. destruct (decide (q ∈ l)) as [Hin|Hnin]; [apply IH, Hin|].
  apply elem_of_cons in Hq as [->|Hq]; [|contradiction].
  rewrite cleared_heap_notin by exact Hnin. rewrite heap_clear_one.
  apply lookup_delete_eq.
Qed.


Lemma cleared_kprobes u l st :
  kprobes (cleared u l st) =
    if u then kprobes st ∖ list_to_set l else kprobes st.
Proof.
  revert st. induction l as [|p l IH]; intros st.
  - cbn [cleared list_to_set]. destruct u; [set_solver|reflexivity].
  - cbn [cleared]. rewrite IH. unfold clear_one. simpl_state.
    destruct u; [|reflexivity]. cbn [list_to_set]. set_solver.
Qed.


Lemma cleared_workqueue u l st : workqueue (cleared u l st) = workqueue st.
Proof. revert st. induction l as [|p l IH]; intros st; [reflexivity|].
  cbn [cleared]. rewrite IH. reflexivity. Qed.

Lemma lists_ok_disjoint st :
  lists_ok st ->
  NoDup (deferred_list st) /\ NoDup (pending_list st) /\ NoDup (hit_list st)
  /\ (forall p, p ∈ deferred_list st -> p ∉ pending_list st)
  /\ (forall p, p ∈ deferred_list st -> p ∉ hit_list st)
  /\ (forall p, p ∈ pending_list st -> p ∉ hit_list st).
Proof.
  intros (Hnd & _ & _). unfold on_lists in Hnd.
  apply NoDup_app in Hnd as (Hd & Hdx & Hnd).
  apply NoDup_app in Hnd as (Hp & Hpx & Hh).
  repeat split; auto.
  - intros p Hp1 Hp2. apply (Hdx p Hp1). rewrite elem_of_app. tauto.
  - intros p Hp1 Hp2. apply (Hdx p Hp1). rewrite elem_of_app. tauto.
Qed.

Lemma lists_live_cleared u l st : lists_live st -> lists_live (cleared u l st).
Proof.
  revert st. induction l as [|p l IH]; intros st Hlive; [exact Hlive|].
  cbn [cleared]. apply IH, lists_live_clear_one, Hlive.
Qed.

Lemma kpc_clear_Done st :
  lists_ok st -> kpc_clear st = Done tt (clear_state st).
Proof.
  intros Hok.
  destruct (lists_ok_disjoint st Hok) as (Hd & Hp & Hh & Hdp & Hdh & Hph).
  destruct Hok as (_ & Hlive & Hnull).
  assert (forall p, p ∈ on_lists st -> p <> NULL) as Hnn
    by (intros p Hp' ->; contradiction).
  unfold on_lists in Hnn.
  set (st1 := cleared false (deferred_list st) st).
  set (st2 := set_deferred [] st1).
  set (st3 := cleared true (hit_list st) st2).
  assert (hit_list st1 = hit_list st) as Hh1
    by (apply (cleared_list_disjoint false hit); exact Hdh).
  assert (pending_list st1 = pending_list st) as Hp1
    by (apply (cleared_list_disjoint false pending); exact Hdp).
  assert (pending_list st3 = pending_list st) as Hp3.
  { unfold st3. rewrite (cleared_list_disjoint true pending); [exact Hp1|].
    intros p Hp1' Hp2'. cbn [get_list] in Hp2'. change (pending_list st2)
      with (pending_list st1) in Hp2'. rewrite Hp1 in Hp2'. exact (Hph p Hp2' Hp1'). }
  assert (lists_live st1) as Hlive1
    by (unfold st1; apply lists_live_cleared; exact Hlive).
  assert (lists_live st2) as Hlive2.
  { intros q Hq. apply Hlive1. revert Hq. unfold on_lists, st2. simpl_state.
    cbn [app]. rewrite !elem_of_app. tauto. }
  assert (lists_live st3) as Hlive3
    by (unfold st3; apply lists_live_cleared; exact Hlive2).
  assert (kpc_clear_list deferred false st = Done tt st1) as Hrun1.
  { unfold kpc_clear_list. apply (kpc_clear_list_loop false); [exact Hlive|exact Hd|].
    intros p Hp'. cbn [get_list] in Hp'. split.
    - apply Hnn. rewrite !elem_of_app. tauto.
    - unfold on_lists. rewrite !elem_of_app. tauto. }
  assert (kpc_clear_list hit true st2 = Done tt st3) as Hrun2.
  { unfold kpc_clear_list. change (get_list hit st2) with (hit_list st1).
    rewrite Hh1. apply (kpc_clear_list_loop true); [exact Hlive2|exact Hh|].
    intros p Hp'. split.
    - apply Hnn. rewrite !elem_of_app. tauto.
    - unfold on_lists. change (hit_list st2) with (hit_list st1).
      rewrite Hh1, !elem_of_app. tauto. }
  assert (kpc_clear_list pending true st3
          = Done tt (cleared true (pending_list st) st3)) as Hrun3.
  { unfold kpc_clear_list. change (get_list pending st3) with (pending_list st3).
    rewrite Hp3. apply (kpc_clear_list_loop true); [exact Hlive3|exact Hp|].
    intros p Hp'. split.
    - apply Hnn. rewrite !elem_of_app. tauto.
    - unfold on_lists. rewrite Hp3, !elem_of_app. tauto. }
  unfold kpc_clear, bind. rewrite Hrun1.
  change (INIT_LIST_HEAD deferred st1) with (Done tt st2).
  cbv beta iota. rewrite Hrun2, Hrun3. reflexivity.
Qed.

Lemma clear_state_lists st :
  deferred_list (clear_state st) = [] /\ pending_list (clear_state st) = []
  /\ hit_list (clear_state st) = [].
Proof.
  split; [|split; reflexivity]. unfold clear_state.
  change (deferred_list (set_hit [] ?s)) with (deferred_list s).
  change (deferred_list (set_pending [] ?s)) with (deferred_list s).
  rewrite !(cleared_list_disjoint true deferred).
  - reflexivity.
  - intros p _. apply not_elem_of_nil.
  - intros p _. rewrite (cleared_list_disjoint true deferred).
    + apply not_elem_of_nil.
    + intros q _. apply not_elem_of_nil.
Qed.

Lemma clear_state_heap st p :
  lists_ok st ->
  heap (clear_state st) !! p =
    if bool_decide (p ∈ on_lists st) then None else heap st !! p.
Proof.
  intros Hok. unfold clear_state, on_lists.
  change (heap (set_hit [] ?s)) with (heap s).
  change (heap (set_pending [] ?s)) with (heap s).
  destruct (decide (p ∈ pending_list st)) as [Hp|Hp].
  { rewrite cleared_heap_in by exact Hp. rewrite bool_decide_eq_true_2; [reflexivity|].
    rewrite !elem_of_app. tauto. }
  rewrite cleared_heap_notin by exact Hp.
  destruct (decide (p ∈ hit_list st)) as [Hh|Hh].
  { rewrite cleared_heap_in by exact Hh. rewrite bool_decide_eq_true_2; [reflexivity|].
    rewrite !elem_of_app. tauto. }
  rewrite cleared_heap_notin by exact Hh.
  change (heap (set_deferred [] ?s)) with (heap s).
  destruct (decide (p ∈ deferred_list st)) as [Hd|Hd].
  { rewrite cleared_heap_in by exact Hd. rewrite bool_decide_eq_true_2; [reflexivity|].
    rewrite !elem_of_app. tauto. }
  rewrite cleared_heap_notin by exact Hd.
  rewrite bool_decide_eq_false_2; [reflexivity|]. rewrite !elem_of_app. tauto.
Qed.



Lemma clear_state_workqueue st : workqueue (clear_state st) = workqueue st.
Proof.
  unfold clear_state.
  change (workqueue (set_hit [] ?s)) with (workqueue s).
  change (workqueue (set_pending [] ?s)) with (workqueue s).
  rewrite !cleared_workqueue.
  change (workqueue (set_deferred [] ?s)) with (workqueue s).
  apply cleared_workqueue.
Qed.

(** ** Adding, firing, reading *)

Lemma kpc_add_probe_armed K module_name where_ st :
  let p := N.succ (brk st) in
  let mod_ := match module_name with
              | Some n => find_module K n
              | None => None
              end in
  allocated (heap st) (take 1 (pending_list st)) = true ->
  vzalloc_fails K p = false ->
  (module_name = None \/ is_Some mod_) ->
  0 <= register_kprobe_rv K p ->
  0 <= enable_kprobe_rv K p ->
  kpc_add_probe K module_name where_ st =
    Done tt
      (set_calls (calls st ++ [register_kprobe_call p; enable_kprobe_call p])
         (set_kprobes ({[ p ]} ∪ kprobes st)
            (set_pending (p :: pending_list st)
               (set_brk p
                  (set_heap (<[p := new_entry module_name mod_ where_]> (heap st))
                     st))))).
Proof.
  intros p mod_ Hfirst Halloc Hdirect Hreg Hen.
  assert (N.eqb p NULL = false) as Hnull by (apply N.eqb_neq; unfold NULL, p; lia).
  apply Z.ltb_ge in Hreg, Hen.
  unfold kpc_add_probe, kpc_new_entry, kpc_enable_probe. unfold_prims.
  fold p. fold mod_. rewrite Halloc, Hnull. simpl_state.
  rewrite lookup_insert_eq, insert_insert_eq.
  assert (match module_name, mod_ with
          | Some _, None => false
          | _, _ => true
          end = true) as Hcase.
  { destruct Hdirect as [->|[m ->]]; [reflexivity|]. destruct module_name; reflexivity. }
  destruct module_name as [n|], mod_ as [m|]; try discriminate Hcase;
    repeat (progress (simpl_state;
                      rewrite ?lookup_insert_eq, ?insert_insert_eq, ?Hreg, ?Hen,
                        ?(allocated_insert _ _ _ _ Hfirst);
                      cbv beta iota));
    change (0 <? 0) with false; cbv iota; rewrite <- app_assoc; reflexivity.
Qed.

Lemma kpc_add_probe_deferred K n where_ st :
  let p := N.succ (brk st) in
  allocated (heap st) (take 1 (deferred_list st)) = true ->
  vzalloc_fails K p = false ->
  find_module K n = None ->
  kpc_add_probe K (Some n) where_ st =
    Done tt
      (set_deferred (p :: deferred_list st)
         (set_brk p
            (set_heap (<[p := new_entry (Some n) None where_]> (heap st)) st))).
Proof.
  intros p Hfirst Halloc Hmod.
  assert (N.eqb p NULL = false) as Hnull by (apply N.eqb_neq; unfold NULL, p; lia).
  unfold kpc_add_probe, kpc_new_entry. unfold_prims.
  fold p. rewrite Hmod, Halloc, Hnull. simpl_state.
  repeat (progress (simpl_state;
                    rewrite ?lookup_insert_eq, ?insert_insert_eq,
                      ?(allocated_insert _ _ _ _ Hfirst);
                    cbv beta iota)).
  reflexivity.
Qed.

Lemma kpc_pre_handler_Done p e st :
  heap st !! p = Some e ->
  kpc_pre_handler p st =
    Done 0
      (set_workqueue
         (if on_list p (workqueue st) then workqueue st else workqueue st ++ [p])
         (set_calls (calls st ++ [schedule_work_call p]) st)).
Proof.
  intros Hp. unfold kpc_pre_handler. unfold_prims. simpl_state. rewrite Hp.
  simpl_state. destruct (on_list p (workqueue st)); reflexivity.
Qed.

Lemma hit_and_work_Done p e st :
  lists_live st ->
  heap st !! p = Some e ->
  p ∈ kprobes st ->
  p ∈ on_lists st ->
  worker_run (hit_and_work p) (st, []) =
    Some
      (set_calls
         (calls st
          ++ [schedule_work_call p; unregister_kprobe_call p; wake_up_call])
         (set_kprobes (kprobes st ∖ {[ p ]})
            (set_workqueue (remove_ptr p (workqueue st))
               (set_deferred (remove_ptr p (deferred_list st))
                  (set_pending (remove_ptr p (pending_list st))
                     (set_hit (remove_ptr p (hit_list st) ++ [p]) st))))),
       []).
Proof.
  intros Hlive Hp Hk Hin.
  unfold hit_and_work. cbn [worker_run].
  unfold worker_step at 1. cbn [step].
  rewrite bool_decide_eq_true_2 by exact Hk.
  rewrite (kpc_pre_handler_Done p e st Hp). cbn [returns].
  set (w := if on_list p (workqueue st) then workqueue st else workqueue st ++ [p]).
  assert (p ∈ w) as Hw.
  { unfold w. destruct (on_list p (workqueue st)) eqn:Hon.
    - apply on_list_true, Hon.
    - rewrite elem_of_app, list_elem_of_singleton. tauto. }
  assert (remove_ptr p w = remove_ptr p (workqueue st)) as Hrm.
  { unfold w. destruct (on_list p (workqueue st)); [reflexivity|].
    rewrite remove_ptr_app.
    rewrite (remove_ptr_head p []) by apply not_elem_of_nil.
    apply app_nil_r. }
  unfold worker_step at 1. simpl_state. apply on_list_true in Hw. rewrite Hw.
  change (on_list p []) with false. cbn [negb andb app].
  unfold worker_step at 1.
  assert (on_list p [p] = true) as -> by (apply on_list_true; left).
  rewrite kpc_probe_work_Done with (e := e); [|exact Hlive|exact Hp|exact Hin].
  cbn [returns]. simpl_state. rewrite Hrm.
  rewrite (remove_ptr_head p []) by apply not_elem_of_nil.
  rewrite <- app_assoc. reflexivity.
Qed.

Lemma length_append (a b : string) :
  String.length (a ++ b) = (String.length a + String.length b)%nat.
Proof.
  induction a as [|c a IH]; rewrite ?append_nil, ?append_cons; [reflexivity|].
  cbn [String.length]. rewrite IH. reflexivity.
Qed.

Lemma length_hex_digits n v : String.length (hex_digits n v) = n.
Proof.
  revert v. induction n as [|n IH]; intros v; [reflexivity|].
  cbn [hex_digits]. rewrite length_append, IH. cbn [String.length]. lia.
Qed.

Lemma length_fmt_0x (width : nat) v :
  0 <= v < 2 ^ (4 * Z.of_nat width) -> (0 < width)%nat ->
  String.length (fmt_0x width v) = width.
Proof.
  intros Hv Hw. unfold fmt_0x. rewrite length_hex_digits.
  apply Nat.max_l.
  destruct (Z.eq_dec v 0) as [->|Hne];
    [change (Z.to_nat (Z.log2 0 / 4 + 1)) with 1%nat; lia|].
  assert (Z.log2 v < 4 * Z.of_nat width) by (apply Z.log2_lt_pow2; lia).
  pose proof (Z.log2_nonneg v).
  assert (Z.log2 v / 4 < Z.of_nat width) by (apply Z.div_lt_upper_bound; lia).
  assert (0 <= Z.log2 v / 4) by (apply Z.div_pos; lia).
  lia.
Qed.

Lemma ulong_range z : 0 <= ulong z < 2 ^ 64.
Proof. unfold ulong, BITS_PER_LONG. apply Z.mod_pos_bound. lia. Qed.

(** The offset read back is the offset that was added. *)
Lemma ulong_rebase base where_ :
  ulong (ulong (base + where_) - base) = ulong where_.
Proof.
  unfold ulong. rewrite Zminus_mod_idemp_l. f_equal. lia.
Qed.

Lemma length_snprintf_hit c a :
  0 <= c < 2 ^ 32 -> 0 <= a < 2 ^ 64 ->
  String.length (snprintf_hit c a) = 30%nat.
Proof.
  intros Hc Ha. unfold snprintf_hit.
  rewrite !length_append, (length_fmt_0x 8), (length_fmt_0x 16);
    first [reflexivity | lia | cbn; lia].
Qed.

Lemma kpc_show_read_Done K p r e st :
  lists_live st ->
  hit_list st = p :: r ->
  heap st !! p = Some e ->
  p <> NULL ->
  copy_to_user_rv K = 0 ->
  let buf := snprintf_hit (module_checksum e) (ulong (kp_addr e - base_addr e)) in
  (String.length buf < 64)%nat ->
  kpc_show_read K st =
    Done (Z.of_nat (String.length buf), buf)
      (set_heap (delete p (heap st))
         (set_calls (calls st ++ [vfree_call p])
            (set_deferred (remove_ptr p (deferred_list st))
               (set_pending (remove_ptr p (pending_list st))
                  (set_hit (remove_ptr p (hit_list st)) st))))).
Proof.
  intros Hlive Hh Hp Hnull Hcopy buf Hlen. unfold kpc_show_read.
  unfold bind at 1. rewrite (kpc_unlink_next_Done K p r e st Hlive Hh Hp).
  apply N.eqb_neq in Hnull. rewrite Hnull.
  unfold bind at 1. unfold deref at 1. simpl_state. rewrite Hp.
  fold buf.
  assert ((Z.of_nat (String.length buf) >=? 64) = false) as ->
    by (rewrite Z.geb_leb; apply Z.leb_gt; lia).
  rewrite Hcopy. change (0 =? 0) with true. cbv iota.
  unfold kpc_free_entry. unfold_prims. simpl_state. rewrite Hnull, Hp.
  reflexivity.
Qed.


(** ** Module notifications *)

Lemma kpc_handle_coming_module_rounds K mod_ st :
  kpc_handle_coming_module K mod_ st =
  list_for_each_safe (deferred_list st) (coming_round K mod_) st.
Proof. reflexivity. Qed.

Lemma list_for_each_safe_inv (Inv : list ptr -> state -> Prop) body l st :
  Inv l st ->
  (forall q rest s,
      Inv (q :: rest) s ->
      is_Some (heap s !! q)
      /\ exists s', body q s = Done tt s' /\ Inv rest s') ->
  exists st', list_for_each_safe l body st = Done tt st' /\ Inv [] st'.
Proof.
  intros HI Hbody. revert st HI.
  induction l as [|q l IH]; intros st HI.
  - exists st. split; [reflexivity|exact HI].
  - destruct (Hbody q l st HI) as ([e He] & s' & Hrun & HI').
    destruct (IH s' HI') as (st' & Hrest & Hfin).
    exists st'. split; [|exact Hfin].
    cbn [list_for_each_safe]. unfold bind, deref. rewrite He, Hrun. exact Hrest.
Qed.

Lemma frame_refl q st : frame q st st.
Proof. repeat split; auto. Qed.

Lemma allocated_pending_insert q x st :
  lists_live st ->
  allocated (<[q := x]> (heap st)) (take 1 (remove_ptr q (pending_list st)))
  = true.
Proof.
  intros Hlive. apply allocated_true. intros r Hr.
  apply elem_of_take_1, elem_of_remove_ptr in Hr as [Hne Hr].
  rewrite lookup_insert_ne by congruence.
  apply Hlive. unfold on_lists. rewrite !elem_of_app. tauto.
Qed.

(** A round of the loop of kpc_handle_coming_module returns and leaves
    every linked entry allocated, unless enable_kprobe fails after
    register_kprobe has succeeded. *)
Lemma coming_round_frame K mod_ q e st :
  lists_live st ->
  heap st !! q = Some e ->
  q ∈ deferred_list st ->
  (module_checksum e = get_name_checksum (Some (name mod_)) ->
   register_kprobe_rv K q < 0 \/ 0 <= enable_kprobe_rv K q) ->
  exists st',
    coming_round K mod_ q st = Done tt st' /\ frame q st st' /\ lists_live st'.
Proof.
  intros Hlive He Hq Hok. unfold coming_round. unfold bind at 1.
  unfold deref at 1. rewrite He.
  destruct (negb (get_name_checksum (Some (name mod_)) =? module_checksum e))
    eqn:Hm.
  { exists st. split; [reflexivity|]. split; [apply frame_refl|exact Hlive]. }
  apply negb_false_iff, Z.eqb_eq, eq_sym in Hm. specialize (Hok Hm).
  assert (on_list q (deferred_list st) = true) as Hon by (apply on_list_true, Hq).
  unfold kpc_enable_probe. unfold_prims. rewrite He, Hon. cbn [orb].
  rewrite (allocated_beside q st) by auto.
  repeat (progress (simpl_state; rewrite ?lookup_insert_eq, ?He; cbv beta iota)).
  assert (forall (h : gmap N kprobe_coverage_entry) x r,
            r <> q -> <[q := x]> h !! r = h !! r) as Hins
    by (intros; apply lookup_insert_ne; congruence).
  assert (forall (h : gmap N kprobe_coverage_entry) r,
            r <> q -> delete q h !! r = h !! r) as Hdel
    by (intros; apply lookup_delete_ne; congruence).
  assert (forall l, hit_list st = l -> l = [] -> remove_ptr q l = []) as Hhit
    by (intros l _ ->; reflexivity).
  destruct (register_kprobe_rv K q <? 0) eqn:Hreg;
    [|destruct (enable_kprobe_rv K q <? 0) eqn:Hen;
      [exfalso; apply Z.ltb_ge in Hreg; apply Z.ltb_lt in Hen;
       destruct Hok; lia|]];
    repeat (progress (simpl_state;
                      rewrite ?lookup_insert_eq, ?He, ?Hreg, ?Hen,
                        ?(allocated_pending_insert q _ st Hlive);
                      cbv beta iota));
    change (- EINVAL <? 0) with true; change (0 <? 0) with false; cbv iota;
    simpl_state; rewrite ?lookup_insert_eq;
    destruct (N.eqb q NULL);
    (eexists; split; [reflexivity|]);
    (split;
     [unfold frame; simpl_state;
      (split; [intros r Hr; rewrite ?Hdel, ?Hins by exact Hr; reflexivity|]);
      (split; [intros r Hr; rewrite elem_of_remove_ptr; tauto|]);
      (split; [intros r Hr; rewrite ?elem_of_cons, elem_of_remove_ptr; tauto|]);
      (split; [intros r Hr; set_solver|]);
      intros ->; reflexivity
     |intros r Hr; revert Hr; unfold on_lists; simpl_state;
      rewrite !elem_of_app, ?elem_of_cons, !elem_of_remove_ptr; intros Hr;
      destruct (decide (r = q)) as [->|Hne];
      [first [rewrite lookup_insert_eq; eauto | tauto]
      |rewrite ?Hdel, ?Hins by exact Hne; apply Hlive; unfold on_lists;
       rewrite !elem_of_app; tauto]]).
Qed.

Lemma coming_round_armed K mod_ q e st :
  lists_live st ->
  heap st !! q = Some e ->
  q ∈ deferred_list st ->
  module_checksum e = get_name_checksum (Some (name mod_)) ->
  0 <= register_kprobe_rv K q ->
  0 <= enable_kprobe_rv K q ->
  coming_round K mod_ q st =
    Done tt
      (set_calls (calls st ++ [register_kprobe_call q; enable_kprobe_call q])
         (set_kprobes ({[ q ]} ∪ kprobes st)
            (set_heap
               (<[q := {| module_checksum := module_checksum e;
                          base_addr := ulong (module_core mod_);
                          kp_addr :=
                            ulong (kp_addr e
                                   + sizeof_kprobe_opcode_t
                                     * ulong (module_core mod_)) |}]>
                  (heap st))
               (set_deferred (remove_ptr q (deferred_list st))
                  (set_pending (q :: remove_ptr q (pending_list st))
                     (set_hit (remove_ptr q (hit_list st)) st)))))).
Proof.
  intros Hlive He Hq Hsum Hreg Hen. apply Z.ltb_ge in Hreg, Hen.
  assert (on_list q (deferred_list st) = true) as Hon by (apply on_list_true, Hq).
  unfold coming_round, kpc_enable_probe. unfold_prims.
  rewrite He, Hsum, Z.eqb_refl. cbn [negb].
  repeat (progress (simpl_state;
                    rewrite ?lookup_insert_eq, ?He, ?Hon, ?Hreg, ?Hen,
                      ?(allocated_beside q st _ Hlive eq_refl),
                      ?(allocated_pending_insert q _ st Hlive);
                    cbn [orb]; cbv beta iota)).
  change (0 <? 0) with false. cbv iota. rewrite <- app_assoc. reflexivity.
Qed.

(** ** Where the code leaves the lists and the records apart *)

(** C4: arming a record whose enable_kprobe fails.  register_kprobe is
    called first, the record is linked on the pending list, enable_kprobe
    fails, the kprobe is unregistered and kpc_add_probe frees the record, but
    nothing unlinks it: the freed record stays on the pending list. *)
Theorem C4_enable_failure_leaves_freed_record_pending :
  exists st',
    kpc_add_probe K_enable_fails None 0x10 kpc_init = Done tt st'
    /\ calls st' = [register_kprobe_call 1; enable_kprobe_call 1;
                    unregister_kprobe_call 1; vfree_call 1]
    /\ heap st' !! 1%N = None
    /\ pending_list st' = [1%N]
    /\ kprobes st' = ∅.
Proof.
  eexists. split; [vm_compute; reflexivity|].
  repeat split; vm_compute; reflexivity.
Qed.

(** C5: a module goes.  With one record deferred for "mymod" (1), one pending
    for "mymod" (2) and one pending for the kernel (3), the departure of
    "mymod" unregisters record 2 and takes it off the pending list, leaves
    the deferred record and the kernel's record where they are, and does not
    free record 2: it stays allocated, on no list. *)
Theorem C5_going_module_leaks_pending_record :
  exists st st',
    (kpc_add_probe K_ok (Some "mymod"%string) 0x10 ;;
     kpc_add_probe K_mymod (Some "mymod"%string) 0x20 ;;
     kpc_add_probe K_ok None 0x30) kpc_init = Done tt st
    /\ deferred_list st = [1%N] /\ pending_list st = [3%N; 2%N]
    /\ kpc_module_notifier K_ok MODULE_STATE_GOING mymod st = Done 0 st'
    /\ calls st' = calls st ++ [unregister_kprobe_call 2]
    /\ deferred_list st' = [1%N] /\ pending_list st' = [3%N]
    /\ hit_list st' = []
    /\ heap st' !! 2%N =
         Some {| kp_addr := 0x1020; module_checksum := crc32 0 "mymod";
                 base_addr := 0x1000 |}
    /\ heap st' = heap st.
Proof.
  eexists. eexists. split; [vm_compute; reflexivity|].
  split; [reflexivity|]. split; [reflexivity|].
  split; [vm_compute; reflexivity|].
  repeat split; vm_compute; reflexivity.
Qed.

(** C6: no memory for the record.  kpc_new_entry returns NULL and
    kpc_add_probe goes on with it: for the kernel or a loaded module it calls
    register_kprobe on the kprobe of the NULL record, for an absent module it
    links the NULL record on the deferred list; either way the kernel faults,
    and the control write does not return -ENOMEM. *)
Theorem C6_allocation_failure_is_not_reported :
  (exists st',
      kpc_add_probe K_no_memory None 0x10 kpc_init = Oops st'
      /\ calls st' = [register_kprobe_call NULL])
  /\ kpc_add_probe K_no_memory (Some "mymod"%string) 0x10 kpc_init
     = Oops kpc_init
  /\ (exists st',
        kpc_control_write K_no_memory ("10" ++ String LF EmptyString) kpc_init
        = Oops st'
        /\ calls st' = [register_kprobe_call NULL])
  /\ (forall st',
        kpc_control_write K_no_memory ("10" ++ String LF EmptyString) kpc_init
        <> Done (- ENOMEM) st').
Proof.
  split; [eexists; split; vm_compute; reflexivity|].
  split; [vm_compute; reflexivity|].
  split; [eexists; split; vm_compute; reflexivity|].
  intros st'. vm_compute. discriminate.
Qed.

(** C3: the lists and the live records agree in the state kpc_init leaves,
    and two complete operations break that: after an add whose enable_kprobe
    fails a freed record is on the pending list, and after the departure of a
    module a live record is on no list. *)
Theorem C3_lists_and_live_records_disagree :
  kpc_inv kpc_init
  /\ (exists st',
        kpc_add_probe K_enable_fails None 0x10 kpc_init = Done tt st'
        /\ 1%N ∈ pending_list st' /\ heap st' !! 1%N = None
        /\ ~ kpc_inv st')
  /\ (exists st st',
        kpc_add_probe K_mymod (Some "mymod"%string) 0x20 kpc_init = Done tt st
        /\ kpc_inv st
        /\ kpc_module_notifier K_ok MODULE_STATE_GOING mymod st = Done 0 st'
        /\ is_Some (heap st' !! 1%N) /\ (1%N ∉ on_lists st')
        /\ ~ kpc_inv st').
Proof.
  assert (forall st p, on_lists st = [p] -> heap st !! p = None -> ~ kpc_inv st)
    as Hfreed.
  { intros st p Hl Hp ((_ & Hlive & _) & _).
    destruct (Hlive p) as [e He]; [rewrite Hl; left|congruence]. }
  assert (forall st p, on_lists st = [] -> is_Some (heap st !! p) -> ~ kpc_inv st)
    as Hleak.
  { intros st p Hl Hp (_ & Hall). apply Hall in Hp. rewrite Hl in Hp.
    inversion Hp. }
  split; [|split].
  - split; [split; [|split]|].
    + apply NoDup_nil_2.
    + intros p Hp. inversion Hp.
    + apply not_elem_of_nil.
    + intros p [e He]. cbn in He. rewrite lookup_empty in He. discriminate.
  - eexists. split; [vm_compute; reflexivity|].
    split; [left|]. split; [vm_compute; reflexivity|].
    apply (Hfreed _ 1%N); vm_compute; reflexivity.
  - pose proof (kpc_add_probe_armed K_mymod (Some "mymod"%string) 0x20 kpc_init)
      as Hadd.
    cbv zeta in Hadd. change (N.succ (brk kpc_init)) with 1%N in Hadd.
    specialize (Hadd eq_refl eq_refl (or_intror (ex_intro _ mymod eq_refl))
                  ltac:(cbn; lia) ltac:(cbn; lia)).
    set (e := new_entry _ _ _) in Hadd. set (st := set_calls _ _) in Hadd.
    exists st. eexists. split; [exact Hadd|]. split.
    { split; [split; [|split]|].
      - change (on_lists st) with [1%N]. apply NoDup_singleton.
      - intros p Hp. change (on_lists st) with [1%N] in Hp.
        apply list_elem_of_singleton in Hp as ->. exists e.
        apply lookup_insert_eq.
      - change (on_lists st) with [1%N]. rewrite list_elem_of_singleton.
        discriminate.
      - intros p [x Hx]. change (on_lists st) with [1%N].
        apply list_elem_of_singleton.
        change (heap st) with (<[1%N := e]> (∅ : gmap N kprobe_coverage_entry)) in Hx.
        destruct (decide (p = 1%N)) as [->|Hne]; [reflexivity|].
        rewrite lookup_insert_ne, lookup_empty in Hx by congruence.
        discriminate. }
    split; [vm_compute; reflexivity|].
    split; [eexists; vm_compute; reflexivity|].
    split; [intros Hc; vm_compute in Hc; inversion Hc|].
    apply (Hleak _ 1%N); [vm_compute; reflexivity|].
    eexists; vm_compute; reflexivity.
Qed.

(** ** At most one completion per record *)

Ltac destr_scrut x :=
  lazymatch x with
  | context [match ?y with _ => _ end] => destr_scrut y
  | _ => destruct x eqn:?
  end.

Ltac simpl_state_in H :=
  cbn [deferred_list pending_list hit_list heap brk kprobes workqueue calls
       set_deferred set_pending set_hit set_heap set_brk set_kprobes
       set_workqueue set_calls get_list set_list] in H.

Ltac split_run H :=
  repeat (simpl_state_in H; cbv beta iota in H;
          lazymatch type of H with
          | context [match ?x with _ => _ end] => destr_scrut x
          end;
          try discriminate H).

Ltac unfold_prims_in H :=
  unfold kpc_free_entry, kpc_defer_probe, register_kprobe, enable_kprobe,
    unregister_kprobe, schedule_work, wake_up, list_add, list_add_tail,
    list_del, INIT_LIST_HEAD, vfree, vzalloc, store, deref, trace, bind, ret
    in H.

Ltac solve_footprint H :=
  try congruence;
  inversion H; subst; clear H;
  repeat match goal with
         | Hq : N.eqb _ _ = true |- _ => apply N.eqb_eq in Hq; try subst
         | Hq : N.eqb _ _ = false |- _ => apply N.eqb_neq in Hq
         end;
  unfold adds, arms, shrinks; simpl_state;
  repeat split; try reflexivity; try assumption;
  intros; rewrite ?elem_of_cons, ?elem_of_remove_ptr in *;
  repeat first [rewrite lookup_insert_ne
                  by (first [assumption | intros ?; subst; congruence])
               |rewrite lookup_delete_ne
                  by (first [assumption | intros ?; subst; congruence])];
  try assumption; try congruence; set_solver.

Lemma coming_round_arms K mod_ q st st' :
  coming_round K mod_ q st = Done tt st' -> arms q st st'.
Proof.
  intros H. unfold coming_round, kpc_enable_probe in H. unfold_prims_in H.
  split_run H; solve_footprint H.
Qed.











Lemma bind_Done {A B} (m : M A) (k : A -> M B) st b st' :
  bind m k st = Done b st' ->
  exists a s, m st = Done a s /\ k a s = Done b st'.
Proof.
  unfold bind. destruct (m st) as [a s| |]; try discriminate. eauto.
Qed.

















(** C2: the work of a record can run twice.  The worker takes the work
    item off the queue before it calls kpc_probe_work, and the kprobe stays
    registered until kpc_probe_work unregisters it: a second hit in between
    queues the item again, and the worker runs kpc_probe_work a second time
    on the same record.  That run unregisters the kprobe again, takes the
    record off the hit list (kpc_probe_work expects it on the pending list),
    appends it again and wakes the reader again; when a read has come in
    between, the record has been read and freed, and the second run works
    on freed memory.  The hit itself only calls schedule_work: the
    unregistering and the move are done by the worker. *)
Theorem C2_work_can_run_twice :
  (exists st,
      worker_run raced_run (kpc_init, []) = Some (st, [])
      /\ worker_completions 1 raced_run = 2%nat
      /\ calls st =
           [register_kprobe_call 1; enable_kprobe_call 1;
            schedule_work_call 1; schedule_work_call 1;
            unregister_kprobe_call 1; wake_up_call;
            unregister_kprobe_call 1; wake_up_call]
      /\ hit_list st = [1%N])
  /\ (exists st,
        worker_run raced_read_run (kpc_init, []) = Some (st, [1%N])
        /\ calls st =
             [register_kprobe_call 1; enable_kprobe_call 1;
              schedule_work_call 1; schedule_work_call 1;
              unregister_kprobe_call 1; wake_up_call; vfree_call 1]
        /\ heap st !! 1%N = None
        /\ kpc_probe_work 1 st =
             Oops (set_calls (calls st ++ [unregister_kprobe_call 1]) st)
        /\ worker_step (func_event 1) (st, [1%N]) = None).
Proof.
  split.
  - eexists. split; [vm_compute; reflexivity|].
    split; [reflexivity|]. split; reflexivity.
  - eexists. split; [vm_compute; reflexivity|].
    split; [reflexivity|]. split; [vm_compute; reflexivity|].
    split; vm_compute; reflexivity.
Qed.

(** ** First hit, first read *)













(** ** Well-formed lines, byte counts and the end of a write *)

Lemma hex_char_digit_of c :
  hex_char c = true -> xdigit_value c = Some (digit_of c).
Proof.
  destruct c as [[] [] [] [] [] [] [] []]; vm_compute; congruence.
Qed.

Lemma ulong_mul_add a b c : ulong (ulong a * b + c) = ulong (a * b + c).
Proof.
  unfold ulong. rewrite Zplus_mod, Zmult_mod_idemp_l, <- Zplus_mod.
  reflexivity.
Qed.

(** _parse_integer reads a string of digits to its end and returns the
    number it denotes, modulo 2^64. *)
Lemma _parse_integer_all_hex s :
  forall res,
    all_hex s = true ->
    _parse_integer s (ulong res) =
      (ulong (res * 16 ^ Z.of_nat (String.length s) + hex_number s),
       String.length s).
Proof.
  induction s as [|c s IH]; intros res H;
    cbn [_parse_integer all_hex hex_number String.length] in *.
  - f_equal. f_equal. change (16 ^ Z.of_nat 0) with 1. lia.
  - apply andb_true_iff in H as [Hc Hs].
    rewrite (hex_char_digit_of c Hc), ulong_mul_add, (IH _ Hs).
    f_equal. f_equal. rewrite Nat2Z.inj_succ, Z.pow_succ_r by lia. ring.
Qed.

(** simple_strtoul on a well-formed address: the number of its digits modulo
    2^64, and [endp] at the end of the text. *)
Lemma simple_strtoul_all_hex a :
  all_hex (strip_0x a) = true ->
  simple_strtoul a = (ulong (hex_number (strip_0x a)), String.length a).
Proof.
  intros H. unfold simple_strtoul.
  destruct (_parse_integer_fixup_radix_strip a) as (k & -> & Hlen).
  change 0 with (ulong 0) at 1.
  rewrite (_parse_integer_all_hex _ 0 H), Hlen. f_equal.
Qed.

Lemma kpc_control_lines_add K line lines out st :
  line <> EmptyString -> line <> "clear"%string ->
  address_text line <> EmptyString ->
  all_hex (strip_0x (address_text line)) = true ->
  kpc_control_lines K (line :: lines) out st =
    (kpc_add_probe K (module_text line)
       (ulong (hex_number (strip_0x (address_text line)))) ;;
     kpc_control_lines K lines (out + (Z.of_nat (String.length line) + 1))) st.
Proof.
  intros Hne Hcl Ha Hhex. cbn [kpc_control_lines].
  apply String.eqb_neq in Hne, Hcl. rewrite Hne, Hcl.
  unfold address_text, module_text in *.
  assert (forall a, a <> EmptyString ->
            Nat.eqb (String.length a) 0
            || negb (Nat.eqb (String.length a) (String.length a)) = false) as Hok.
  { intros [|c a] Hc; [contradiction|]. cbn [String.length].
    rewrite Nat.eqb_refl. reflexivity. }
  destruct (strstr_colon line) as [[m a]|];
    rewrite (simple_strtoul_all_hex _ Hhex), (Hok _ Ha); reflexivity.
Qed.

Lemma c_str_nul_free a : nul_free a = true -> c_str a = a.
Proof.
  induction a as [|c a IH]; intros H; cbn [c_str nul_free] in *; [reflexivity|].
  apply andb_true_iff in H as [Hc Ha]. apply negb_true_iff in Hc.
  rewrite Hc, (IH Ha). reflexivity.
Qed.

Lemma delim_free_c_str t : delim_free t = true -> delim_free (c_str t) = true.
Proof.
  induction t as [|c t IH]; intros H; cbn [c_str delim_free] in *; [reflexivity|].
  apply andb_true_iff in H as [Hc Ht].
  destruct (Ascii.eqb c NUL); [reflexivity|].
  cbn [delim_free]. rewrite Hc, (IH Ht). reflexivity.
Qed.

Lemma length_c_str buf : (String.length (c_str buf) <= String.length buf)%nat.
Proof.
  induction buf as [|c buf IH]; cbn [c_str String.length]; [lia|].
  destruct (Ascii.eqb c NUL); cbn [String.length]; lia.
Qed.

Lemma strsep_lines_delim_free t : delim_free t = true -> strsep_lines t = [].
Proof.
  induction t as [|c t IH]; intros H; [reflexivity|].
  cbn [delim_free] in H. apply andb_true_iff in H as [Hc Ht].
  apply negb_true_iff in Hc. rewrite strsep_lines_cons, Hc, (IH Ht).
  reflexivity.
Qed.

(** Text after the last delimiter belongs to no line. *)
Lemma strsep_lines_tail b t :
  delim_free t = true -> strsep_lines (b ++ t) = strsep_lines b.
Proof.
  intros Ht. induction b as [|c b IH]; rewrite ?append_nil, ?append_cons.
  - apply strsep_lines_delim_free, Ht.
  - rewrite !strsep_lines_cons, IH. reflexivity.
Qed.

Lemma line_bytes_nonneg lines : 0 <= line_bytes lines.
Proof. induction lines as [|l lines IH]; cbn [line_bytes]; lia. Qed.

Lemma line_bytes_strsep_lines p :
  line_bytes (strsep_lines p) <= Z.of_nat (String.length p).
Proof.
  induction p as [|c p IH]; [cbn; lia|].
  rewrite strsep_lines_cons. cbn [String.length].
  destruct (is_delim c).
  - cbn [line_bytes String.length]. lia.
  - destruct (strsep_lines p) as [|t r]; cbn [line_bytes String.length] in *; lia.
Qed.

(** The loop returns the bytes of the lines it went through. *)
Lemma kpc_control_lines_bytes K lines :
  forall out st r st',
    kpc_control_lines K lines out st = Done r st' ->
    out <= r <= out + line_bytes lines.
Proof.
  induction lines as [|line lines IH]; intros out st r st' H;
    cbn [kpc_control_lines line_bytes] in *.
  - injection H as <- _. lia.
  - pose proof (line_bytes_nonneg lines).
    destruct (String.eqb line EmptyString); [injection H as <- _; lia|].
    destruct (String.eqb line "clear").
    { apply bind_Done in H as ([] & s & _ & H). injection H as <- _. lia. }
    assert (forall m addr,
              (kpc_add_probe K m addr ;;
               kpc_control_lines K lines
                 (out + (Z.of_nat (String.length line) + 1))) st = Done r st' ->
              out <= r <= out + (Z.of_nat (String.length line) + 1
                                 + line_bytes lines)) as Hadd.
    { intros m addr Hrun. apply bind_Done in Hrun as ([] & s & _ & Hrun).
      apply IH in Hrun. lia. }
    destruct (strstr_colon line) as [[m a]|].
    + destruct (simple_strtoul a) as [addr endp].
      destruct (Nat.eqb endp 0 || negb (Nat.eqb endp (String.length a)));
        [apply IH in H; lia|exact (Hadd _ _ H)].
    + destruct (simple_strtoul line) as [addr endp].
      destruct (Nat.eqb endp 0 || negb (Nat.eqb endp (String.length line)));
        [apply IH in H; lia|exact (Hadd _ _ H)].
Qed.

Lemma kpc_control_lines_clear K before after out st :
  kpc_control_lines K (before ++ "clear"%string :: after) out st =
  kpc_control_lines K (before ++ ["clear"%string]) out st.
Proof.
  revert out st. induction before as [|line before IH]; intros out st.
  - reflexivity.
  - cbn [app kpc_control_lines].
    destruct (String.eqb line EmptyString); [reflexivity|].
    destruct (String.eqb line "clear"); [reflexivity|].
    destruct (strstr_colon line) as [[m a]|].
    + destruct (simple_strtoul a) as [addr endp].
      destruct (Nat.eqb endp 0 || negb (Nat.eqb endp (String.length a))).
      * apply IH.
      * unfold bind. destruct (kpc_add_probe K (Some m) addr st); auto.
    + destruct (simple_strtoul line) as [addr endp].
      destruct (Nat.eqb endp 0 || negb (Nat.eqb endp (String.length line))).
      * apply IH.
      * unfold bind. destruct (kpc_add_probe K None addr st); auto.
Qed.




(** X1: a well-formed line of a control write adds a probe.  For a line
    that is not empty and not "clear" and whose address (the text after the
    first colon, or the whole line) is a non-empty string of hexadecimal
    digits, with or without 0x in front, simple_strtoul returns the number
    the digits denote modulo 2^64 and stops at the end of the text, and the
    write calls kpc_add_probe with the text before the colon as the module
    (NULL without a colon) and that number, then goes on with the rest of the
    blob. *)
Theorem X1_well_formed_line_adds_probe K line t rest st :
  buffer_vzalloc_fails K = false -> copy_from_user_rv K = 0 ->
  delim_free line = true -> nul_free line = true -> is_delim t = true ->
  line <> EmptyString -> line <> "clear"%string ->
  address_text line <> EmptyString ->
  all_hex (strip_0x (address_text line)) = true ->
  simple_strtoul (address_text line) =
    (hex_number (strip_0x (address_text line)) mod 2 ^ 64,
     String.length (address_text line))
  /\ same_effect
       (kpc_control_write K (line ++ String t rest) st)
       ((kpc_add_probe K (module_text line)
           (hex_number (strip_0x (address_text line)) mod 2 ^ 64) ;;
         kpc_control_write K rest) st).
Proof.
  intros Hb Hc Hd Hn Ht Hne Hcl Ha Hhex.
  split; [exact (simple_strtoul_all_hex _ Hhex)|].
  unfold kpc_control_write. rewrite Hb, Hc. cbn [negb Z.eqb].
  rewrite c_str_app, Hn. cbn [c_str]. rewrite (is_delim_not_NUL t Ht).
  rewrite (strsep_lines_head line t _ Hd Ht).
  rewrite kpc_control_lines_add by assumption.
  unfold bind, ulong, BITS_PER_LONG.
  destruct (kpc_add_probe K _ _ st); first [apply kpc_control_lines_out|reflexivity].
Qed.

(** X3: the text after the last line terminator of a control write is
    ignored: strsep returns it with [p] at NULL, and the loop breaks.  A write
    without any terminator does nothing and returns 0. *)
Theorem X3_unterminated_tail_is_ignored K b t st :
  delim_free t = true ->
  kpc_control_write K (b ++ t) st = kpc_control_write K b st
  /\ (buffer_vzalloc_fails K = false -> copy_from_user_rv K = 0 ->
      kpc_control_write K t st = Done 0 st).
Proof.
  intros Ht. split.
  - unfold kpc_control_write.
    destruct (buffer_vzalloc_fails K); [reflexivity|].
    destruct (negb (copy_from_user_rv K =? 0)); [reflexivity|].
    rewrite c_str_app. destruct (nul_free b) eqn:Hb; [|reflexivity].
    rewrite (c_str_nul_free b Hb), strsep_lines_tail; [reflexivity|].
    apply delim_free_c_str, Ht.
  - intros Hb Hc. unfold kpc_control_write. rewrite Hb, Hc. cbn [negb Z.eqb].
    rewrite (strsep_lines_delim_free _ (delim_free_c_str t Ht)). reflexivity.
Qed.

(** X4: the line "clear" ends a control write: kpc_clear runs and the loop
    breaks, so the lines after it in the same write are dropped, well-formed
    or not, and the write returns the bytes up to and including the
    terminator of "clear". *)
Theorem X4_clear_ends_the_write :
  (forall K before after out st,
      kpc_control_lines K (before ++ "clear"%string :: after) out st =
      kpc_control_lines K (before ++ ["clear"%string]) out st)
  /\ (forall K pre t0 t rest st,
        is_delim t0 = true -> is_delim t = true ->
        kpc_control_write K (pre ++ String t0 ("clear" ++ String t rest)) st =
        kpc_control_write K (pre ++ String t0 ("clear" ++ String t EmptyString)) st)
  /\ (forall K t rest st,
        is_delim t = true ->
        buffer_vzalloc_fails K = false -> copy_from_user_rv K = 0 ->
        kpc_control_write K ("clear" ++ String t rest) st =
        (kpc_clear ;; ret 6) st).
Proof.
  split; [exact kpc_control_lines_clear|split].
  - intros K pre t0 t rest st H0 Ht. unfold kpc_control_write.
    destruct (buffer_vzalloc_fails K); [reflexivity|].
    destruct (negb (copy_from_user_rv K =? 0)); [reflexivity|].
    rewrite !c_str_app. destruct (nul_free pre); [|reflexivity].
    rewrite !append_cons, !append_nil. cbn [c_str Ascii.eqb Bool.eqb NUL].
    rewrite (is_delim_not_NUL t0 H0), (is_delim_not_NUL t Ht).
    rewrite (strsep_lines_app pre t0 (String "c" (String "l" (String "e"
               (String "a" (String "r" (String t (c_str rest))))))) H0).
    rewrite (strsep_lines_app pre t0 (String "c" (String "l" (String "e"
               (String "a" (String "r" (String t EmptyString)))))) H0).
    change (String "c" (String "l" (String "e" (String "a" (String "r"
              (String t (c_str rest)))))))
      with ("clear" ++ String t (c_str rest))%string.
    change (String "c" (String "l" (String "e" (String "a" (String "r"
              (String t EmptyString))))))
      with ("clear" ++ String t EmptyString)%string.
    rewrite !(strsep_lines_head "clear" t _ eq_refl Ht).
    change (strsep_lines EmptyString) with (@nil string).
    apply kpc_control_lines_clear.
  - intros K t rest st Ht Hb Hc. unfold kpc_control_write. rewrite Hb, Hc.
    cbn [negb Z.eqb]. rewrite !append_cons, !append_nil.
    cbn [c_str Ascii.eqb Bool.eqb NUL]. rewrite (is_delim_not_NUL t Ht).
    change (String "c" (String "l" (String "e" (String "a" (String "r"
              (String t (c_str rest)))))))
      with ("clear" ++ String t (c_str rest))%string.
    rewrite (strsep_lines_head "clear" t _ eq_refl Ht). reflexivity.
Qed.

(** ** The line a read returns, written back *)

Lemma hex_digit_digit d :
  0 <= d < 16 -> hex_char (hex_digit d) = true /\ digit_of (hex_digit d) = d.
Proof.
  intros H.
  assert (d = 0 \/ d = 1 \/ d = 2 \/ d = 3 \/ d = 4 \/ d = 5 \/ d = 6 \/ d = 7
          \/ d = 8 \/ d = 9 \/ d = 10 \/ d = 11 \/ d = 12 \/ d = 13 \/ d = 14
          \/ d = 15) as Hd by lia.
  repeat (destruct Hd as [->|Hd]; [split; reflexivity|]).
  subst d. split; reflexivity.
Qed.

Lemma all_hex_app a b : all_hex (a ++ b) = all_hex a && all_hex b.
Proof.
  induction a as [|c a IH]; rewrite ?append_nil, ?append_cons; [reflexivity|].
  cbn [all_hex]. rewrite IH, andb_assoc. reflexivity.
Qed.

Lemma all_hex_hex_digits n v : all_hex (hex_digits n v) = true.
Proof.
  revert v. induction n as [|n IH]; intros v; [reflexivity|].
  cbn [hex_digits]. rewrite all_hex_app, IH. cbn [all_hex andb].
  rewrite (proj1 (hex_digit_digit (v mod 16) (Z.mod_pos_bound v 16 eq_refl))).
  reflexivity.
Qed.

Lemma hex_number_app a c :
  hex_number (a ++ String c EmptyString) = hex_number a * 16 + digit_of c.
Proof.
  induction a as [|x a IH]; rewrite ?append_nil, ?append_cons.
  - cbn [hex_number String.length]. change (16 ^ Z.of_nat 0) with 1. lia.
  - cbn [hex_number]. rewrite IH, length_append. cbn [String.length].
    replace (Z.of_nat (String.length a + 1)) with (Z.succ (Z.of_nat (String.length a)))
      by lia.
    rewrite Z.pow_succ_r by lia. ring.
Qed.

(** The digits printed for [v] denote [v], as far as they go. *)
Lemma hex_number_hex_digits n v :
  hex_number (hex_digits n v) = v mod 16 ^ Z.of_nat n.
Proof.
  revert v. induction n as [|n IH]; intros v.
  - change (16 ^ Z.of_nat 0) with 1. rewrite Z.mod_1_r. reflexivity.
  - cbn [hex_digits]. rewrite hex_number_app, IH.
    rewrite (proj2 (hex_digit_digit (v mod 16) (Z.mod_pos_bound v 16 eq_refl))).
    rewrite Nat2Z.inj_succ, Z.pow_succ_r by lia.
    rewrite (Z.rem_mul_r v 16 (16 ^ Z.of_nat n)) by lia. lia.
Qed.

Lemma fmt_0x_hex_digits (width : nat) v :
  0 <= v < 2 ^ (4 * Z.of_nat width) -> (0 < width)%nat ->
  fmt_0x width v = hex_digits width v.
Proof.
  intros Hv Hw. unfold fmt_0x. f_equal.
  apply Nat.max_l.
  destruct (Z.eq_dec v 0) as [->|Hne];
    [change (Z.to_nat (Z.log2 0 / 4 + 1)) with 1%nat; lia|].
  assert (Z.log2 v < 4 * Z.of_nat width) by (apply Z.log2_lt_pow2; lia).
  pose proof (Z.log2_nonneg v).
  assert (Z.log2 v / 4 < Z.of_nat width) by (apply Z.div_lt_upper_bound; lia).
  assert (0 <= Z.log2 v / 4) by (apply Z.div_pos; lia).
  lia.
Qed.

Lemma hex_char_plain c :
  hex_char c = true ->
  is_delim c = false /\ Ascii.eqb c NUL = false /\ Ascii.eqb c ":" = false.
Proof.
  destruct c as [[] [] [] [] [] [] [] []]; vm_compute; intuition congruence.
Qed.

(** A string of hexadecimal digits holds no delimiter, no NUL and no colon. *)
Lemma all_hex_plain a :
  all_hex a = true ->
  delim_free a = true /\ nul_free a = true
  /\ forall r, strstr_colon (a ++ String ":" r) = Some (a, r).
Proof.
  induction a as [|c a IH]; intros H; cbn [all_hex] in H.
  - repeat split.
  - apply andb_true_iff in H as [Hc Ha].
    destruct (hex_char_plain c Hc) as (H1 & H2 & H3).
    destruct (IH Ha) as (I1 & I2 & I3).
    cbn [delim_free nul_free]. rewrite H1, H2, I1, I2.
    split; [reflexivity|]. split; [reflexivity|].
    intros r. rewrite append_cons. cbn [strstr_colon]. rewrite H3, I3.
    reflexivity.
Qed.

Lemma delim_free_app a b :
  delim_free (a ++ b) = delim_free a && delim_free b.
Proof.
  induction a as [|c a IH]; rewrite ?append_nil, ?append_cons; [reflexivity|].
  cbn [delim_free]. rewrite IH, andb_assoc. reflexivity.
Qed.

Lemma nul_free_app a b : nul_free (a ++ b) = nul_free a && nul_free b.
Proof.
  induction a as [|c a IH]; rewrite ?append_nil, ?append_cons; [reflexivity|].
  cbn [nul_free]. rewrite IH, andb_assoc. reflexivity.
Qed.

Lemma append_assoc (a b c : string) : ((a ++ b) ++ c = a ++ (b ++ c))%string.
Proof.
  induction a as [|x a IH]; rewrite ?append_nil, ?append_cons; [reflexivity|].
  rewrite IH. reflexivity.
Qed.

Lemma ulong_small v : 0 <= v < 2 ^ 64 -> ulong v = v.
Proof. intros H. unfold ulong, BITS_PER_LONG. apply Z.mod_small, H. Qed.

(** X5: the line a read returns can be written back.  For every checksum
    (a u32) and address (an unsigned long), the 30 bytes
    "0x%08x:0x%016lx\n" that kpc_show_read formats are one well-formed
    control line: a control write of them adds one probe, for the module
    named by the text of the checksum, at exactly the address that was
    printed, and returns 30. *)
Theorem X5_show_line_written_back K c a st :
  0 <= c < 2 ^ 32 -> 0 <= a < 2 ^ 64 ->
  buffer_vzalloc_fails K = false -> copy_from_user_rv K = 0 ->
  simple_strtoul ("0x" ++ fmt_0x 16 a) = (a, 18%nat)
  /\ kpc_control_write K (snprintf_hit c a) st =
     (kpc_add_probe K (Some ("0x" ++ fmt_0x 8 c)%string) a ;; ret 30) st.
Proof.
  intros Hc Ha Hb Hu.
  rewrite (fmt_0x_hex_digits 16 a) by (cbn; lia).
  assert (simple_strtoul ("0x" ++ hex_digits 16 a) = (a, 18%nat)) as Hparse.
  { rewrite simple_strtoul_all_hex.
    - rewrite !append_cons, !append_nil. cbn [strip_0x String.length].
      rewrite hex_number_hex_digits, length_hex_digits.
      change (16 ^ Z.of_nat 16) with (2 ^ 64).
      rewrite Z.mod_small by lia. rewrite (ulong_small a Ha). reflexivity.
    - rewrite !append_cons, !append_nil. cbn [strip_0x].
      apply all_hex_hex_digits. }
  split; [exact Hparse|].
  unfold snprintf_hit.
  rewrite (fmt_0x_hex_digits 8 c), (fmt_0x_hex_digits 16 a) by (cbn; lia).
  set (d8 := hex_digits 8 c). set (d16 := hex_digits 16 a).
  destruct (all_hex_plain d8 (all_hex_hex_digits 8 c)) as (D1 & N1 & C1).
  destruct (all_hex_plain d16 (all_hex_hex_digits 16 a)) as (D2 & N2 & _).
  set (line := ("0x" ++ d8 ++ ":0x" ++ d16)%string).
  assert (("0x" ++ d8 ++ ":0x" ++ d16 ++ String LF EmptyString)%string
          = (line ++ String LF EmptyString)%string) as ->.
  { unfold line. rewrite !append_assoc. reflexivity. }
  assert (delim_free line = true /\ nul_free line = true) as [Dl Nl].
  { unfold line. rewrite !delim_free_app, !nul_free_app, D1, D2, N1, N2.
    split; reflexivity. }
  assert (strstr_colon line = Some (("0x" ++ d8)%string, ("0x" ++ d16)%string))
    as Hcolon.
  { unfold line. rewrite !append_cons, !append_nil.
    cbn [strstr_colon Ascii.eqb Bool.eqb]. rewrite C1. reflexivity. }
  assert (String.length line = 29%nat) as Hlen.
  { unfold line, d8, d16. rewrite !length_append, !length_hex_digits.
    reflexivity. }
  unfold kpc_control_write. rewrite Hb, Hu. cbn [negb Z.eqb].
  rewrite c_str_app, Nl. cbn [c_str Ascii.eqb Bool.eqb LF NUL].
  rewrite (strsep_lines_head line LF EmptyString Dl eq_refl).
  change (strsep_lines EmptyString) with (@nil string).
  rewrite kpc_control_lines_add.
  - unfold module_text, address_text. rewrite Hcolon.
    rewrite !append_cons, !append_nil. cbn [strip_0x].
    unfold d16 at 1. rewrite hex_number_hex_digits.
    change (16 ^ Z.of_nat 16) with (2 ^ 64).
    rewrite (Z.mod_small a) by lia. rewrite (ulong_small a Ha).
    cbn [kpc_control_lines]. rewrite Hlen. reflexivity.
  - unfold line. rewrite !append_cons. discriminate.
  - intros E. rewrite E in Hlen. discriminate.
  - unfold address_text. rewrite Hcolon, !append_cons. discriminate.
  - unfold address_text. rewrite Hcolon, !append_cons, !append_nil.
    cbn [strip_0x]. apply all_hex_hex_digits.
Qed.

(** ** Checksums, failed calls and the offset read back *)

Lemma lxor_range n a b :
  0 < n -> 0 <= a < 2 ^ n -> 0 <= b < 2 ^ n -> 0 <= Z.lxor a b < 2 ^ n.
Proof.
  intros Hn Ha Hb.
  assert (0 <= Z.lxor a b) as Hx by (apply Z.lxor_nonneg; lia).
  split; [exact Hx|].
  destruct (Z.eq_dec (Z.lxor a b) 0) as [->|Hne]; [lia|].
  apply Z.log2_lt_pow2; [lia|].
  pose proof (Z.log2_lxor a b (proj1 Ha) (proj1 Hb)) as Hl.
  assert (Z.log2 a < n).
  { destruct (Z.eq_dec a 0) as [->|]; [exact Hn|apply Z.log2_lt_pow2; lia]. }
  assert (Z.log2 b < n).
  { destruct (Z.eq_dec b 0) as [->|]; [exact Hn|apply Z.log2_lt_pow2; lia]. }
  lia.
Qed.

Lemma crc32_le_bits_range n crc :
  0 <= crc < 2 ^ 32 -> 0 <= crc32_le_bits n crc < 2 ^ 32.
Proof.
  revert crc. induction n as [|n IH]; intros crc H; cbn [crc32_le_bits];
    [exact H|].
  apply IH, lxor_range; [lia| |].
  - rewrite Z.shiftr_div_pow2 by lia. change (2 ^ 1) with 2.
    split; [apply Z.div_pos; lia|apply Z.div_lt_upper_bound; lia].
  - destruct (Z.testbit crc 0); unfold CRCPOLY_LE; lia.
Qed.

Lemma byte_of_range c : 0 <= byte_of c < 2 ^ 32.
Proof.
  unfold byte_of. pose proof (N_ascii_bounded c). lia.
Qed.

Lemma crc32_le_range p :
  forall crc, 0 <= crc < 2 ^ 32 -> 0 <= crc32_le crc p < 2 ^ 32.
Proof.
  induction p as [|c p IH]; intros crc H; cbn [crc32_le]; [exact H|].
  apply IH. unfold crc32_le_byte. apply crc32_le_bits_range.
  apply lxor_range; [lia|exact H|apply byte_of_range].
Qed.

(** The checksum of a name fits the u32 it is stored in. *)
Lemma get_name_checksum_range module_name :
  0 <= get_name_checksum module_name < 2 ^ 32.
Proof.
  destruct module_name as [n|]; cbn [get_name_checksum]; [|lia].
  apply crc32_le_range. lia.
Qed.

(** X6: a read whose copy_to_user fails loses the hit.  kpc_show_read has
    unlinked the record by then and frees it all the same, so it returns
    -EFAULT with nothing copied, the record is gone from the hit list and
    from memory, and no later read reports it. *)
Theorem X6_failed_copy_loses_the_hit K p r e st :
  lists_ok st ->
  hit_list st = p :: r ->
  heap st !! p = Some e ->
  0 <= module_checksum e < 2 ^ 32 ->
  copy_to_user_rv K <> 0 ->
  exists st',
    kpc_show_read K st = Done (- EFAULT, EmptyString) st'
    /\ hit_list st' = r
    /\ heap st' = delete p (heap st)
    /\ deferred_list st' = deferred_list st
    /\ pending_list st' = pending_list st
    /\ calls st' = calls st ++ [vfree_call p].
Proof.
  intros Hok Hh Hp Hc Hcopy.
  destruct (lists_ok_disjoint st Hok) as (_ & _ & Hnd & _ & Hdh & Hph).
  pose proof (lists_ok_live st Hok) as Hlive.
  destruct Hok as (_ & _ & Hnull).
  assert (p ∈ hit_list st) as Hin by (rewrite Hh; left).
  assert (p <> NULL) as Hpn.
  { intros ->. apply Hnull. unfold on_lists. rewrite !elem_of_app. auto. }
  exists (set_heap (delete p (heap st))
            (set_calls (calls st ++ [vfree_call p])
               (set_deferred (remove_ptr p (deferred_list st))
                  (set_pending (remove_ptr p (pending_list st))
                     (set_hit (remove_ptr p (hit_list st)) st))))).
  split; [|split; [|split; [reflexivity|split; [|split; [|reflexivity]]]]].
  - unfold kpc_show_read. unfold bind at 1.
    rewrite (kpc_unlink_next_Done K p r e st Hlive Hh Hp).
    apply N.eqb_neq in Hpn. rewrite Hpn.
    unfold bind at 1. unfold deref at 1. simpl_state. rewrite Hp.
    rewrite (length_snprintf_hit _ _ Hc (ulong_range _)).
    change (Z.of_nat 30 >=? 64) with false.
    apply Z.eqb_neq in Hcopy. rewrite Hcopy. cbv iota.
    unfold kpc_free_entry. unfold_prims. simpl_state. rewrite Hpn, Hp.
    reflexivity.
  - simpl_state. rewrite Hh in Hnd |- *. apply NoDup_cons in Hnd as [Hnd _].
    apply remove_ptr_head, Hnd.
  - simpl_state. apply remove_ptr_notin. intros Hd. exact (Hdh p Hd Hin).
  - simpl_state. apply remove_ptr_notin. intros Hd. exact (Hph p Hd Hin).
Qed.

(** X7: a probe whose register_kprobe fails leaves nothing behind.  For the
    kernel or a loaded module, kpc_add_probe allocates the record, the
    registrar refuses it, and the record is freed before it was linked
    anywhere: the lists, the records and the registrar are as before, and the
    only calls made are register_kprobe and vfree. *)
Theorem X7_failed_register_leaves_nothing K module_name where_ st :
  let p := N.succ (brk st) in
  let mod_ := match module_name with
              | Some n => find_module K n
              | None => None
              end in
  vzalloc_fails K p = false ->
  (module_name = None \/ is_Some mod_) ->
  register_kprobe_rv K p < 0 ->
  heap st !! p = None ->
  kpc_add_probe K module_name where_ st =
    Done tt
      (set_calls (calls st ++ [register_kprobe_call p; vfree_call p])
         (set_brk p st)).
Proof.
  intros p mod_. subst p. remember (N.succ (brk st)) as p eqn:Ep.
  intros Hv Hm Hr Hfresh.
  assert (N.eqb p NULL = false) as Hpn
    by (apply N.eqb_neq; unfold NULL; lia).
  apply Z.ltb_lt in Hr.
  assert (forall e,
            (rv <- kpc_enable_probe K p ;;
             if rv <? 0 then kpc_free_entry p else ret tt)
              (set_brk p (set_heap (<[p := e]> (heap st)) st))
            = Done tt
                (set_calls (calls st ++ [register_kprobe_call p; vfree_call p])
                   (set_brk p st))) as Hrun.
  { intros e. unfold kpc_enable_probe, kpc_free_entry. unfold_prims.
    repeat (simpl_state; rewrite ?lookup_insert_eq, ?Hr, ?Hpn; cbv beta iota).
    change (- EINVAL <? 0) with true. cbv beta iota.
    simpl_state. rewrite lookup_insert_eq. simpl_state.
    rewrite (delete_insert_id _ _ _ Hfresh), <- app_assoc.
    destruct st; reflexivity. }
  unfold kpc_add_probe. fold mod_. unfold bind at 1.
  unfold kpc_new_entry, vzalloc, store. unfold bind at 1. rewrite <- Ep.
  rewrite Hv, Hpn. unfold bind at 1. simpl_state.
  rewrite lookup_insert_eq, insert_insert_eq. unfold ret at 1.
  replace (set_heap _ (set_brk p (set_heap _ st)))
    with (set_brk p
            (set_heap (<[p := new_entry module_name mod_ where_]> (heap st)) st))
    by (destruct st; reflexivity).
  destruct Hm as [->|[m Hm]].
  - apply Hrun.
  - rewrite Hm. destruct module_name; apply Hrun.
Qed.

(** X8: the offset read back is the offset that was written.  For the
    kernel or a loaded module, in a state whose linked entries are all
    allocated, whose hit list is empty and in which no work is queued:
    kpc_add_probe arms the probe at
    base + offset; its kprobe fires, the handler queues its work, the worker
    takes the item and runs it; the read then returns 30 bytes that hold
    the checksum of the module name and the offset itself, modulo 2^64,
    whatever the base, the record is freed and no work is left. *)
Theorem X8_offset_read_back K module_name where_ st :
  let p := N.succ (brk st) in
  let mod_ := match module_name with
              | Some n => find_module K n
              | None => None
              end in
  lists_live st ->
  hit_list st = [] ->
  workqueue st = [] ->
  vzalloc_fails K p = false ->
  (module_name = None \/ is_Some mod_) ->
  0 <= register_kprobe_rv K p ->
  0 <= enable_kprobe_rv K p ->
  copy_to_user_rv K = 0 ->
  exists st1 st2 st',
    kpc_add_probe K module_name where_ st = Done tt st1
    /\ p ∈ kprobes st1
    /\ worker_run (hit_and_work p) (st1, []) = Some (st2, [])
    /\ workqueue st2 = []
    /\ hit_list st2 = [p]
    /\ kpc_show_read K st2
       = Done (30, snprintf_hit (get_name_checksum module_name) (ulong where_))
           st'
    /\ hit_list st' = []
    /\ heap st' !! p = None
    /\ p ∉ kprobes st'.
Proof.
  intros p mod_. subst p. remember (N.succ (brk st)) as p eqn:Ep.
  intros Hlive Hh Hwq Hv Hm Hr He Hcopy.
  assert (p <> NULL) as Hpn by (unfold NULL; lia).
  pose proof (kpc_add_probe_armed K module_name where_ st) as H1.
  cbv zeta in H1. rewrite <- Ep in H1.
  specialize (H1 (allocated_first st pending Hlive) Hv Hm Hr He).
  fold mod_ in H1.
  set (e := new_entry module_name mod_ where_) in *.
  set (s1 := set_calls (calls st ++ _) _) in H1.
  assert (heap s1 !! p = Some e) as Hp1 by apply lookup_insert_eq.
  assert (lists_live s1) as Hlive1.
  { intros q Hq. revert Hq. unfold on_lists, s1. simpl_state.
    rewrite !elem_of_app, elem_of_cons. intros Hq.
    destruct (decide (q = p)) as [->|Hne]; [rewrite lookup_insert_eq; eauto|].
    rewrite lookup_insert_ne by congruence. apply Hlive. unfold on_lists.
    rewrite !elem_of_app. tauto. }
  assert (p ∈ kprobes s1) as Hk1 by (unfold s1; simpl_state; set_solver).
  assert (p ∈ on_lists s1) as Hon.
  { unfold on_lists. rewrite !elem_of_app. right. left. left. }
  pose proof (hit_and_work_Done p e s1 Hlive1 Hp1 Hk1 Hon) as H2.
  change (hit_list s1) with (hit_list st) in H2.
  change (workqueue s1) with (workqueue st) in H2. rewrite Hh, Hwq in H2.
  change (remove_ptr p [] ++ [p]) with [p] in H2.
  change (remove_ptr p []) with (@nil N) in H2.
  set (s2 := set_calls (calls s1 ++ _) _) in H2.
  assert (heap s2 !! p = Some e) as Hp2 by apply lookup_insert_eq.
  assert (lists_live s2) as Hlive2.
  { intros q Hq. revert Hq. unfold on_lists, s2. simpl_state.
    rewrite !elem_of_app, !elem_of_remove_ptr, list_elem_of_singleton.
    intros Hq. destruct (decide (q = p)) as [->|Hne]; [eauto|].
    apply Hlive1. unfold on_lists. rewrite !elem_of_app. tauto. }
  assert (String.length
            (snprintf_hit (module_checksum e) (ulong (kp_addr e - base_addr e)))
          = 30%nat) as Hlen.
  { apply length_snprintf_hit; [apply get_name_checksum_range|apply ulong_range]. }
  pose proof (kpc_show_read_Done K p [] e s2 Hlive2 eq_refl Hp2 Hpn Hcopy) as H4.
  cbv zeta in H4. rewrite Hlen in H4. specialize (H4 ltac:(lia)).
  assert (ulong (kp_addr e - base_addr e) = ulong where_) as Haddr.
  { unfold e, new_entry. cbn [kp_addr base_addr]. apply ulong_rebase. }
  rewrite Haddr in H4.
  eexists s1, s2, _.
  split; [exact H1|]. split; [exact Hk1|]. split; [exact H2|].
  split; [reflexivity|]. split; [reflexivity|]. split; [exact H4|].
  simpl_state.
  split; [|split].
  - apply remove_ptr_head, not_elem_of_nil.
  - apply lookup_delete_eq.
  - set_solver.
Qed.

(** ** A module goes *)

Lemma state_ext (a b : state) :
  deferred_list a = deferred_list b -> pending_list a = pending_list b ->
  hit_list a = hit_list b -> heap a = heap b -> brk a = brk b ->
  kprobes a = kprobes b -> workqueue a = workqueue b -> calls a = calls b ->
  a = b.
Proof. destruct a, b; cbn; intros; subst; reflexivity. Qed.

Lemma going_round_Done mod_ q done rest st :
  lists_ok st ->
  pending_list st = done ++ q :: rest ->
  let c := get_name_checksum (Some (name mod_)) in
  (e <- deref q ;;
   if negb (c =? module_checksum e) then ret tt
   else unregister_kprobe q ;; list_del q) (going_state c done (q :: rest) st)
  = Done tt (going_state c (done ++ [q]) rest st).
Proof.
  intros Hok Hpend c.
  destruct (lists_ok_disjoint st Hok) as (_ & Hnd & _ & Hdp & _ & Hph).
  assert (q ∈ pending_list st) as Hq by (rewrite Hpend; set_solver).
  destruct (lists_ok_pending st q Hok Hq) as ([e He] & _ & Hqd & Hqh).
  rewrite Hpend in Hnd. apply NoDup_app in Hnd as (Hnd1 & Hnd2 & Hnd3).
  apply NoDup_cons in Hnd3 as [Hqr _].
  assert (q ∉ done) as Hqdone by (intros Hin; apply (Hnd2 q Hin); left).
  unfold going_state, deref, bind at 1. simpl_state. rewrite He.
  rewrite !filter_app, !filter_cons, !filter_nil. unfold of_module.
  rewrite !He.
  destruct (c =? module_checksum e) eqn:Hm; cbn [negb].
  - rewrite decide_True by reflexivity. rewrite decide_False by discriminate.
    unfold_prims. repeat (simpl_state; rewrite ?He; cbv beta iota).
    match goal with
    | |- context [on_list q ?a || on_list q ?b || on_list q ?d] =>
        assert (on_list q a || on_list q b || on_list q d = true) as ->
    end.
    { apply orb_true_iff. left. apply orb_true_iff. right.
      apply on_list_true. rewrite elem_of_app. right. left. }
    rewrite allocated_true.
    2:{ intros r Hr. apply (lists_ok_live st Hok). unfold on_lists.
        rewrite !elem_of_app in Hr. rewrite !elem_of_app.
        destruct Hr as [Hr|[Hr|Hr]]; apply elem_of_neighbours in Hr;
          [tauto| |tauto].
        right. left. rewrite Hpend.
        rewrite elem_of_app, list_elem_of_filter in Hr.
        rewrite elem_of_app. tauto. }
    f_equal. apply state_ext; simpl_state; try reflexivity.
    + apply remove_ptr_notin, Hqd.
    + rewrite app_nil_r, remove_ptr_app, remove_ptr_head by exact Hqr.
      f_equal. apply remove_ptr_notin. rewrite list_elem_of_filter. tauto.
    + apply remove_ptr_notin, Hqh.
    + rewrite list_to_set_app_L, list_to_set_cons, list_to_set_nil.
      set_solver.
    + rewrite map_app, <- app_assoc. reflexivity.
  - rewrite decide_False by discriminate. rewrite decide_True by reflexivity.
    unfold ret. f_equal. apply state_ext; simpl_state; try reflexivity.
    + rewrite <- app_assoc. reflexivity.
    + rewrite app_nil_r. reflexivity.
    + rewrite app_nil_r. reflexivity.
Qed.

Lemma going_loop mod_ st :
  lists_ok st ->
  let c := get_name_checksum (Some (name mod_)) in
  forall rest done,
    pending_list st = done ++ rest ->
    list_for_each_safe rest
      (fun entry =>
         e <- deref entry ;;
         if negb (c =? module_checksum e) then ret tt
         else unregister_kprobe entry ;; list_del entry)
      (going_state c done rest st)
    = Done tt (going_state c (done ++ rest) [] st).
Proof.
  intros Hok c rest. induction rest as [|q rest IH]; intros done Hpend.
  - rewrite app_nil_r. reflexivity.
  - cbn [list_for_each_safe].
    assert (q ∈ pending_list st) as Hq by (rewrite Hpend; set_solver).
    destruct (lists_ok_pending st q Hok Hq) as ([e He] & _).
    unfold bind at 1. unfold deref at 1.
    replace (heap (going_state c done (q :: rest) st)) with (heap st)
      by reflexivity.
    rewrite He. cbv beta iota. unfold bind at 1.
    pose proof (going_round_Done mod_ q done rest st Hok Hpend) as Hround.
    cbv zeta in Hround. fold c in Hround. rewrite Hround.
    replace (done ++ q :: rest) with ((done ++ [q]) ++ rest)
      by (rewrite <- app_assoc; reflexivity).
    apply IH. rewrite <- app_assoc. exact Hpend.
Qed.

(** X9: what a departing module takes with it.  For lists that are well
    formed, kpc_handle_going_module unregisters and unlinks exactly the
    pending records that carry the checksum of the module's name, in the
    order of the list; the other pending records keep their order, and the
    deferred list, the hit list and every record (those it unlinked
    included) are left as they are. *)
Theorem X9_going_module_unlinks_its_pending_records mod_ st :
  lists_ok st ->
  let c := get_name_checksum (Some (name mod_)) in
  let gone := filter (fun p => of_module c st p = true) (pending_list st) in
  kpc_handle_going_module mod_ st =
    Done tt
      (set_calls (calls st ++ map unregister_kprobe_call gone)
         (set_kprobes (kprobes st ∖ list_to_set gone)
            (set_pending
               (filter (fun p => of_module c st p = false) (pending_list st))
               st))).
Proof.
  intros Hok c gone.
  pose proof (going_loop mod_ st Hok (pending_list st) [] eq_refl) as H.
  cbv zeta in H. fold c in H. unfold kpc_handle_going_module.
  replace (going_state c [] (pending_list st) st) with st in H.
  - etransitivity; [exact H|].
    unfold going_state. cbn [app]. rewrite app_nil_r. reflexivity.
  - unfold going_state. rewrite filter_nil. cbn [map app list_to_set].
    apply state_ext; simpl_state; try reflexivity.
    + set_solver.
    + rewrite app_nil_r. reflexivity.
Qed.

(** ** A module comes *)

Lemma rebased_notin base l h q : q ∉ l -> rebased base l h !! q = h !! q.
Proof.
  revert h. induction l as [|p l IH]; intros h Hq; [reflexivity|].
  apply not_elem_of_cons in Hq as [Hne Hq]. cbn [rebased].
  rewrite (IH _ Hq). destruct (h !! p); [|reflexivity].
  apply lookup_insert_ne. congruence.
Qed.

Lemma rebased_snoc base l h q e :
  q ∉ l -> h !! q = Some e ->
  rebased base (l ++ [q]) h = <[q := rebase base e]> (rebased base l h).
Proof.
  revert h. induction l as [|p l IH]; intros h Hq He.
  - cbn [app rebased]. rewrite He. reflexivity.
  - apply not_elem_of_cons in Hq as [Hne Hq]. cbn [app rebased].
    apply (IH _ Hq). destruct (h !! p); [|exact He].
    rewrite lookup_insert_ne by congruence. exact He.
Qed.

Lemma rebased_in base l h q e :
  NoDup l -> q ∈ l -> h !! q = Some e ->
  rebased base l h !! q = Some (rebase base e).
Proof.
  revert h. induction l as [|p l IH]; intros h Hnd Hq He;
    [apply elem_of_nil in Hq; contradiction|].
  apply NoDup_cons in Hnd as [Hp Hnd]. cbn [rebased].
  apply elem_of_cons in Hq as [->|Hq].
  - rewrite rebased_notin by exact Hp. rewrite He. apply lookup_insert_eq.
  - assert (q <> p) by (intros ->; contradiction).
    apply (IH _ Hnd Hq). destruct (h !! p); [|exact He].
    rewrite lookup_insert_ne by congruence. exact He.
Qed.

Lemma coming_round_other K mod_ q e st :
  heap st !! q = Some e ->
  (get_name_checksum (Some (name mod_)) =? module_checksum e) = false ->
  coming_round K mod_ q st = Done tt st.
Proof.
  intros He Hm. unfold coming_round, bind, deref. rewrite He, Hm. reflexivity.
Qed.

Lemma rebased_is_Some base l h q :
  is_Some (h !! q) -> is_Some (rebased base l h !! q).
Proof.
  revert h. induction l as [|a l IH]; intros h Hq; [exact Hq|].
  cbn [rebased]. apply IH. destruct (h !! a); [|exact Hq].
  apply lookup_insert_is_Some'. right. exact Hq.
Qed.

Lemma lists_live_coming_state c base done rest st :
  lists_live st ->
  deferred_list st = done ++ rest ->
  lists_live (coming_state c base done rest st).
Proof.
  intros Hlive Hdef q Hq. unfold coming_state. simpl_state.
  apply rebased_is_Some, Hlive. revert Hq.
  unfold on_lists, coming_state. simpl_state. rewrite Hdef.
  rewrite !elem_of_app, elem_of_reverse, !list_elem_of_filter. tauto.
Qed.

Lemma coming_state_round K mod_ q done rest st :
  lists_ok st ->
  deferred_list st = done ++ q :: rest ->
  let c := get_name_checksum (Some (name mod_)) in
  let base := ulong (module_core mod_) in
  (of_module c st q = true ->
   0 <= register_kprobe_rv K q /\ 0 <= enable_kprobe_rv K q) ->
  coming_round K mod_ q (coming_state c base done (q :: rest) st)
  = Done tt (coming_state c base (done ++ [q]) rest st).
Proof.
  intros Hok Hdef c base HK.
  destruct (lists_ok_disjoint st Hok) as (Hnd & _ & _ & Hdp & Hdh & _).
  assert (q ∈ deferred_list st) as Hq by (rewrite Hdef; set_solver).
  assert (is_Some (heap st !! q)) as [e He].
  { destruct Hok as (_ & Hlive & _). apply Hlive. unfold on_lists.
    rewrite elem_of_app. left. exact Hq. }
  rewrite Hdef in Hnd. apply NoDup_app in Hnd as (Hnd1 & Hnd2 & Hnd3).
  apply NoDup_cons in Hnd3 as [Hqr _].
  assert (q ∉ done) as Hqdone by (intros Hin; apply (Hnd2 q Hin); left).
  set (come := filter (fun p => of_module c st p = true) done).
  assert (q ∉ come) as Hqcome
    by (unfold come; rewrite list_elem_of_filter; tauto).
  set (s := coming_state c base done (q :: rest) st).
  assert (heap s !! q = Some e) as Hes.
  { unfold s, coming_state. simpl_state. fold come.
    rewrite rebased_notin by exact Hqcome. exact He. }
  assert (of_module c st q = (c =? module_checksum e)) as Hof
    by (unfold of_module; rewrite He; reflexivity).
  unfold coming_state at 1. cbv zeta.
  rewrite !filter_app, !filter_cons, !filter_nil, Hof.
  fold come.
  destruct (c =? module_checksum e) eqn:Hm.
  - rewrite decide_True by reflexivity. rewrite decide_False by discriminate.
    destruct (HK ltac:(rewrite Hof; reflexivity)) as [Hr Hen].
    assert (q ∈ deferred_list s) as Hqs.
    { unfold s, coming_state. simpl_state. rewrite elem_of_app. right. left. }
    apply Z.eqb_eq in Hm.
    rewrite (coming_round_armed K mod_ q e s
               (lists_live_coming_state c base done (q :: rest) st
                  (lists_ok_live st Hok) Hdef)
               Hes Hqs (eq_sym Hm) Hr Hen).
    f_equal. unfold s, coming_state. fold come.
    apply state_ext; simpl_state.
    + rewrite app_nil_r, remove_ptr_app, remove_ptr_head by exact Hqr.
      f_equal. apply remove_ptr_notin. rewrite list_elem_of_filter. tauto.
    + rewrite reverse_snoc. cbn [app]. f_equal. apply remove_ptr_notin.
      rewrite elem_of_app, elem_of_reverse.
      intros [Hin|Hin]; [exact (Hqcome Hin)|exact (Hdp q Hq Hin)].
    + apply remove_ptr_notin. exact (Hdh q Hq).
    + rewrite (rebased_snoc base come (heap st) q e Hqcome He).
      reflexivity.
    + reflexivity.
    + rewrite list_to_set_app_L, list_to_set_cons, list_to_set_nil.
      set_solver.
    + reflexivity.
    + rewrite flat_map_app, <- app_assoc. reflexivity.
  - rewrite decide_False by discriminate. rewrite decide_True by reflexivity.
    rewrite (coming_round_other K mod_ q e s Hes Hm).
    f_equal. unfold s, coming_state. fold come.
    apply state_ext; simpl_state; rewrite ?app_nil_r; try reflexivity.
    rewrite <- app_assoc. reflexivity.
Qed.

Lemma coming_loop K mod_ st :
  lists_ok st ->
  let c := get_name_checksum (Some (name mod_)) in
  let base := ulong (module_core mod_) in
  (forall q, q ∈ deferred_list st -> of_module c st q = true ->
             0 <= register_kprobe_rv K q /\ 0 <= enable_kprobe_rv K q) ->
  forall rest done,
    deferred_list st = done ++ rest ->
    list_for_each_safe rest (coming_round K mod_)
      (coming_state c base done rest st)
    = Done tt (coming_state c base (done ++ rest) [] st).
Proof.
  intros Hok c base HK rest. induction rest as [|q rest IH]; intros done Hdef.
  - rewrite app_nil_r. reflexivity.
  - cbn [list_for_each_safe].
    assert (q ∈ deferred_list st) as Hq by (rewrite Hdef; set_solver).
    pose proof (coming_state_round K mod_ q done rest st Hok Hdef (HK q Hq))
      as Hround. cbv zeta in Hround. fold c base in Hround.
    assert (is_Some (heap (coming_state c base done (q :: rest) st) !! q))
      as [e He].
    { destruct (lists_ok_disjoint st Hok) as (Hnd & _).
      rewrite Hdef in Hnd. apply NoDup_app in Hnd as (_ & Hnd2 & _).
      destruct Hok as (_ & Hlive & _).
      unfold coming_state. simpl_state. rewrite rebased_notin.
      - apply Hlive. unfold on_lists. rewrite elem_of_app. left. exact Hq.
      - rewrite list_elem_of_filter. intros [_ Hin]. apply (Hnd2 q Hin). left. }
    unfold bind at 1. unfold deref at 1. rewrite He. cbv beta iota.
    unfold bind at 1. rewrite Hround.
    replace (done ++ q :: rest) with ((done ++ [q]) ++ rest)
      by (rewrite <- app_assoc; reflexivity).
    apply IH. rewrite <- app_assoc. exact Hdef.
Qed.

(** X10: what an arriving module arms.  For lists that are well formed,
    when the registrar accepts them, kpc_handle_coming_module takes exactly
    the deferred records that carry the checksum of the module's name, in the
    order of the list: each gets the module's base, its address moved by that
    base, a register_kprobe and an enable_kprobe, and goes to the head of the
    pending list, so that the last arrived is first.  The other deferred
    records keep their place, and the hit list and all other records are
    left as they are. *)
Theorem X10_coming_module_arms_its_deferred_records K mod_ st :
  lists_ok st ->
  let c := get_name_checksum (Some (name mod_)) in
  let base := ulong (module_core mod_) in
  let come := filter (fun p => of_module c st p = true) (deferred_list st) in
  (forall q, q ∈ come ->
             0 <= register_kprobe_rv K q /\ 0 <= enable_kprobe_rv K q) ->
  kpc_handle_coming_module K mod_ st =
    Done tt
      (set_calls
         (calls st
          ++ flat_map (fun q => [register_kprobe_call q; enable_kprobe_call q])
               come)
         (set_kprobes (list_to_set come ∪ kprobes st)
            (set_heap (rebased base come (heap st))
               (set_deferred
                  (filter (fun p => of_module c st p = false) (deferred_list st))
                  (set_pending (reverse come ++ pending_list st) st)))))
  /\ (forall q e,
        heap st !! q = Some e ->
        rebased base come (heap st) !! q =
          Some (if bool_decide (q ∈ come) then rebase base e else e)).
Proof.
  intros Hok c base come HK. split.
  - assert (forall q, q ∈ deferred_list st -> of_module c st q = true ->
                      0 <= register_kprobe_rv K q /\ 0 <= enable_kprobe_rv K q)
      as HK'.
    { intros q Hq Hm. apply HK. unfold come. rewrite list_elem_of_filter. tauto. }
    pose proof (coming_loop K mod_ st Hok HK' (deferred_list st) [] eq_refl) as H.
    cbv zeta in H. fold c base in H. rewrite kpc_handle_coming_module_rounds.
    replace (coming_state c base [] (deferred_list st) st) with st in H.
    + etransitivity; [exact H|].
      unfold coming_state. cbn [app]. rewrite app_nil_r. reflexivity.
    + unfold coming_state. rewrite filter_nil.
      change (reverse (@nil N)) with (@nil N).
      cbn [flat_map app list_to_set rebased].
      apply state_ext; simpl_state; try reflexivity.
      * set_solver.
      * rewrite app_nil_r. reflexivity.
  - intros q e He.
    destruct (lists_ok_disjoint st Hok) as (Hnd & _).
    assert (NoDup come) as Hndc by (apply NoDup_filter, Hnd).
    destruct (bool_decide_reflect (q ∈ come)) as [Hin|Hout].
    + apply rebased_in; assumption.
    + rewrite rebased_notin by exact Hout. exact He.
Qed.

(** ** What every reachable state satisfies *)








































(** ** From deferral to readout *)

(** The round trip of a probe that is deferred, armed when its module
    comes, hit and read, with the states in between. *)
Lemma deferred_round_trip K n where_ mod_ st :
  let p := N.succ (brk st) in
  let e1 := new_entry (Some n) None where_ in
  let e2 := rebase (ulong (module_core mod_)) e1 in
  lists_ok st -> brk_ok st -> hit_list st = [] -> workqueue st = [] ->
  name mod_ = n ->
  find_module K n = None ->
  vzalloc_fails K p = false ->
  0 <= register_kprobe_rv K p ->
  0 <= enable_kprobe_rv K p ->
  (forall q, q ∈ deferred_list st -> of_module (crc32 0 n) st q = true ->
     register_kprobe_rv K q < 0 \/ 0 <= enable_kprobe_rv K q) ->
  copy_to_user_rv K = 0 ->
  exists st1 st2 st3 st4,
    kpc_add_probe K (Some n) where_ st = Done tt st1
    /\ deferred_list st1 = p :: deferred_list st
    /\ pending_list st1 = pending_list st
    /\ heap st1 !! p = Some e1
    /\ kpc_module_notifier K MODULE_STATE_COMING mod_ st1 = Done 0 st2
    /\ (p ∉ deferred_list st2) /\ p ∈ pending_list st2 /\ p ∈ kprobes st2
    /\ heap st2 !! p = Some e2
    /\ worker_run (hit_and_work p) (st2, []) = Some (st3, [])
    /\ workqueue st3 = []
    /\ (p ∉ pending_list st3) /\ hit_list st3 = [p] /\ (p ∉ kprobes st3)
    /\ kpc_show_read K st3
       = Done (30, snprintf_hit (crc32 0 n) (ulong where_)) st4
    /\ heap st4 !! p = None /\ (p ∉ kprobes st4) /\ hit_list st4 = [].
Proof.
  intros p. subst p. remember (N.succ (brk st)) as p eqn:Ep.
  intros e1 e2 Hok Hbrk Hhit Hwq Hname Hmod Halloc Hreg Hen Hsib Hcopy.
  assert (p <> NULL) as Hnull by (unfold NULL; lia).
  destruct (lists_ok_disjoint st Hok) as (Hd & _ & _ & _ & _ & _).
  pose proof (lists_ok_live st Hok) as Hlive.
  assert (forall q, q ∈ on_lists st -> q <> p) as Hfresh.
  { intros q Hq Hc. assert (q <= brk st)%N by (apply Hbrk; exact Hq). lia. }
  (* add *)
  pose proof (kpc_add_probe_deferred K n where_ st) as Hadd.
  cbv zeta in Hadd. rewrite <- Ep in Hadd.
  specialize (Hadd (allocated_first st deferred Hlive) Halloc Hmod).
  fold e1 in Hadd.
  set (st1 := set_deferred _ _) in Hadd.
  assert (heap st1 !! p = Some e1) as He1 by apply lookup_insert_eq.
  assert (lists_live st1) as Hlive1.
  { intros q Hq. revert Hq. unfold on_lists, st1. simpl_state.
    rewrite !elem_of_app, elem_of_cons. intros Hq.
    destruct (decide (q = p)) as [->|Hne]; [rewrite lookup_insert_eq; eauto|].
    rewrite lookup_insert_ne by congruence. apply Hlive. unfold on_lists.
    rewrite !elem_of_app. tauto. }
  (* the module comes: the round on p *)
  pose proof (coming_round_armed K mod_ p e1 st1 Hlive1 He1) as Hround.
  specialize (Hround ltac:(left)
                ltac:(rewrite Hname; reflexivity) Hreg Hen).
  change (deferred_list st1) with (p :: deferred_list st) in Hround.
  rewrite (remove_ptr_head p (deferred_list st)) in Hround.
  2:{ intros Hc. apply (Hfresh p); [|reflexivity].
      unfold on_lists. rewrite !elem_of_app. tauto. }
  change (pending_list st1) with (pending_list st) in Hround.
  rewrite (remove_ptr_notin p (pending_list st)) in Hround.
  2:{ intros Hc. apply (Hfresh p); [|reflexivity].
      unfold on_lists. rewrite !elem_of_app. tauto. }
  change (hit_list st1) with (hit_list st) in Hround. rewrite Hhit in Hround.
  change (remove_ptr p []) with (@nil N) in Hround.
  change {| module_checksum := module_checksum e1;
            base_addr := ulong (module_core mod_);
            kp_addr := ulong (kp_addr e1 + sizeof_kprobe_opcode_t
                                          * ulong (module_core mod_)) |}
    with e2 in Hround.
  set (st1a := set_calls _ _) in Hround.
  (* the rounds on the records that were deferred before *)
  set (Inv := fun (rest : list N) (s : state) =>
                NoDup rest
                /\ (forall q, q ∈ rest ->
                      q <> p /\ heap s !! q = heap st !! q
                      /\ q ∈ deferred_list st /\ q ∈ deferred_list s)
                /\ lists_live s /\ workqueue s = []
                /\ p ∈ pending_list s /\ (p ∉ deferred_list s)
                /\ heap s !! p = Some e2 /\ p ∈ kprobes s /\ hit_list s = []).
  destruct (list_for_each_safe_inv Inv (coming_round K mod_) (deferred_list st) st1a)
    as (st2 & Hloop & _ & _ & Hlive2 & Hwq2 & Hp2 & Hd2 & He2 & Hk2 & Hh2).
  { unfold Inv. split; [exact Hd|].
    split; [|split; [|split; [exact Hwq|split; [|split; [|split; [|split]]]]]].
    - intros q Hq.
      assert (q <> p) as Hne
        by (apply Hfresh; unfold on_lists; rewrite !elem_of_app; tauto).
      split; [exact Hne|]. split; [|split; [exact Hq|exact Hq]].
      unfold st1a, st1. simpl_state. rewrite !lookup_insert_ne by congruence.
      reflexivity.
    - intros q Hq. revert Hq. unfold on_lists, st1a. simpl_state.
      rewrite !elem_of_app, elem_of_cons, elem_of_nil. intros Hq.
      destruct (decide (q = p)) as [->|Hne]; [rewrite lookup_insert_eq; eauto|].
      rewrite lookup_insert_ne by congruence. apply Hlive1.
      unfold on_lists, st1. simpl_state. rewrite !elem_of_app, elem_of_cons.
      tauto.
    - left.
    - intros Hc. apply (Hfresh p); [|reflexivity].
      unfold on_lists. rewrite !elem_of_app. tauto.
    - apply lookup_insert_eq.
    - unfold st1a. simpl_state. set_solver.
    - reflexivity. }
  { intros q rest s (Hnd & Hrest & Hls & Hws & Hps & Hds & Hes & Hks & Hhs).
    apply NoDup_cons in Hnd as [Hq Hnd].
    destruct (Hrest q) as (Hne & Hsame & Hin0 & Hin); [left|].
    destruct (Hlive q) as [e He];
      [unfold on_lists; rewrite !elem_of_app; tauto|].
    assert (heap s !! q = Some e) as Hes' by (rewrite Hsame; exact He).
    split; [exists e; exact Hes'|].
    destruct (coming_round_frame K mod_ q e s Hls Hes' Hin)
      as (s' & Hrun & (Fh & Fd & Fp & Fk & Fhit) & Hls').
    { intros Hm. apply (Hsib q Hin0). unfold of_module. rewrite He.
      apply Z.eqb_eq. rewrite Hm, Hname. reflexivity. }
    exists s'. split; [exact Hrun|]. unfold Inv.
    split; [exact Hnd|].
    split; [|split; [exact Hls'|split; [|split; [|split; [|split; [|split]]]]]].
    2:{ rewrite (proj1 (coming_round_arms K mod_ q s s' Hrun)). exact Hws. }
    - intros r Hr.
      destruct (Hrest r) as (Hrp & Hrl & Hr0 & Hrd); [right; exact Hr|].
      assert (r <> q) as Hrq by (intros ->; contradiction).
      split; [exact Hrp|]. split; [rewrite Fh by exact Hrq; exact Hrl|].
      split; [exact Hr0|]. apply Fd; assumption.
    - apply Fp; [congruence|exact Hps].
    - intros Hc. apply Hds. apply Fd in Hc; [exact Hc|congruence].
    - rewrite Fh by congruence. exact Hes.
    - apply Fk; [congruence|exact Hks].
    - apply Fhit, Hhs. }
  assert (kpc_module_notifier K MODULE_STATE_COMING mod_ st1 = Done 0 st2)
    as Hcome.
  { unfold kpc_module_notifier, bind. rewrite kpc_handle_coming_module_rounds.
    change (deferred_list st1) with (p :: deferred_list st).
    cbn [list_for_each_safe]. unfold bind, deref. rewrite He1, Hround, Hloop.
    reflexivity. }
  (* it fires, the worker runs its work *)
  assert (p ∈ on_lists st2) as Hin2
    by (unfold on_lists; rewrite !elem_of_app; tauto).
  pose proof (hit_and_work_Done p e2 st2 Hlive2 He2 Hk2 Hin2) as Hwork.
  rewrite Hh2, Hwq2 in Hwork.
  change (remove_ptr p [] ++ [p]) with [p] in Hwork.
  change (remove_ptr p []) with (@nil N) in Hwork.
  set (st3 := set_calls _ _) in Hwork.
  assert (lists_live st3) as Hlive3.
  { intros q Hq. revert Hq. unfold on_lists, st3. simpl_state.
    rewrite !elem_of_app, !elem_of_remove_ptr, list_elem_of_singleton.
    intros Hq. destruct (decide (q = p)) as [->|Hne]; [eauto|].
    apply Hlive2. unfold on_lists. rewrite !elem_of_app. tauto. }
  (* the read *)
  assert (0 <= module_checksum e2 < 2 ^ 32) as Hc2
    by apply (get_name_checksum_range (Some n)).
  pose proof (kpc_show_read_Done K p [] e2 st3 Hlive3 eq_refl He2 Hnull Hcopy)
    as Hread.
  cbv zeta in Hread.
  assert (ulong (kp_addr e2 - base_addr e2) = ulong where_) as Haddr.
  { unfold e2, e1, rebase, new_entry. cbn [kp_addr base_addr].
    unfold sizeof_kprobe_opcode_t. rewrite Z.mul_1_l, Z.add_0_l.
    rewrite (Z.add_comm (ulong where_)), ulong_rebase.
    unfold ulong. apply Z.mod_mod. unfold BITS_PER_LONG. lia. }
  rewrite Haddr in Hread.
  rewrite (length_snprintf_hit _ _ Hc2 (ulong_range _)) in Hread.
  specialize (Hread ltac:(lia)).
  change (module_checksum e2) with (crc32 0 n) in Hread.
  eexists st1, st2, st3, _.
  split; [exact Hadd|]. split; [reflexivity|]. split; [reflexivity|].
  split; [exact He1|]. split; [exact Hcome|].
  split; [exact Hd2|]. split; [exact Hp2|]. split; [exact Hk2|].
  split; [exact He2|]. split; [exact Hwork|]. split; [reflexivity|].
  split; [unfold st3; simpl_state; rewrite elem_of_remove_ptr; tauto|].
  split; [reflexivity|].
  split; [unfold st3; simpl_state; set_solver|].
  split; [exact Hread|]. simpl_state.
  split; [apply lookup_delete_eq|].
  split; [set_solver|].
  apply remove_ptr_head, not_elem_of_nil.
Qed.

(** C1: the round trip of a deferred probe.  Added for module "mymod",
    offset 0x10, while the module is absent, the record goes to the deferred
    list with checksum crc32("mymod") and base address 0; when "mymod" comes
    with its core at 0x1000 the record moves to the pending list, armed at
    0x1010; its kprobe fires, the handler queues its work, the worker takes
    the item and runs it, and the line read then carries the checksum and
    the relative offset 0x10.  The lists are well formed and no work is
    queued at the start.  Records that were deferred for "mymod" before are
    armed or refused by register_kprobe on the way; the case in which
    enable_kprobe fails for one of them after register_kprobe has succeeded
    is excluded, because that record is freed while it is linked next to
    this one. *)
Theorem C1_defer_resolve_round_trip :
  forall K st,
    let p := N.succ (brk st) in
    lists_ok st -> brk_ok st -> hit_list st = [] -> workqueue st = [] ->
    find_module K "mymod" = None ->
    vzalloc_fails K p = false ->
    0 <= register_kprobe_rv K p ->
    0 <= enable_kprobe_rv K p ->
    (forall q, q ∈ deferred_list st ->
       of_module (crc32 0 "mymod") st q = true ->
       register_kprobe_rv K q < 0 \/ 0 <= enable_kprobe_rv K q) ->
    copy_to_user_rv K = 0 ->
    exists st1 st2 st3 st4,
      kpc_add_probe K (Some "mymod"%string) 0x10 st = Done tt st1
      /\ deferred_list st1 = p :: deferred_list st
      /\ pending_list st1 = pending_list st
      /\ heap st1 !! p =
           Some {| kp_addr := 0x10;
                   module_checksum := crc32 0 "mymod";
                   base_addr := 0 |}
      /\ kpc_module_notifier K MODULE_STATE_COMING
           {| name := "mymod"; module_core := 0x1000 |} st1 = Done 0 st2
      /\ (p ∉ deferred_list st2) /\ p ∈ pending_list st2 /\ p ∈ kprobes st2
      /\ heap st2 !! p =
           Some {| kp_addr := 0x1010;
                   module_checksum := crc32 0 "mymod";
                   base_addr := 0x1000 |}
      /\ worker_run (hit_and_work p) (st2, []) = Some (st3, [])
      /\ workqueue st3 = []
      /\ (p ∉ pending_list st3) /\ hit_list st3 = [p] /\ (p ∉ kprobes st3)
      /\ kpc_show_read K st3 =
           Done (30, snprintf_hit (crc32 0 "mymod") 0x10) st4
      /\ snprintf_hit (crc32 0 "mymod") 0x10 =
           ("0x9f20d6b0:0x0000000000000010" ++ String LF EmptyString)%string
      /\ heap st4 !! p = None.
Proof.
  intros K st p Hok Hbrk Hhit Hwq Hmod Halloc Hreg Hen Hsib Hcopy.
  destruct (deferred_round_trip K "mymod" 0x10
              {| name := "mymod"; module_core := 0x1000 |} st
              Hok Hbrk Hhit Hwq eq_refl Hmod Halloc Hreg Hen Hsib Hcopy)
    as (st1 & st2 & st3 & st4 & H1 & H2 & H3 & H4 & H5 & H6 & H7 & H8 & H9
        & H10 & H11 & H12 & H13 & H14 & H15 & H16 & _).
  exists st1, st2, st3, st4.
  fold p in H1, H2, H4, H6, H7, H8, H9, H10, H12, H13, H14, H16.
  split; [exact H1|]. split; [exact H2|]. split; [exact H3|].
  split; [exact H4|]. split; [exact H5|]. split; [exact H6|].
  split; [exact H7|]. split; [exact H8|]. split; [exact H9|].
  split; [exact H10|]. split; [exact H11|]. split; [exact H12|].
  split; [exact H13|]. split; [exact H14|]. split; [exact H15|].
  split; [vm_compute; reflexivity|exact H16].
Qed.

(** X19: the round trip of a deferred probe, for every module.  In a
    state with well-formed lists and no work queued, a probe added for a
    module that is not loaded is deferred; when a module of that name comes,
    at whatever base, and the registrar accepts the probe, it is armed; its
    kprobe fires, the handler queues its work and the worker takes and runs
    it; a read then returns the 30 bytes that hold the checksum of the name
    and the offset that was written, modulo 2^64, the record is freed and
    no work is left.  The records deferred before it for the same module
    are armed, or refused by register_kprobe, on the way (a failure of
    enable_kprobe for one of them is excluded: it would leave a freed
    record linked next to this one); those of other modules are left
    alone. *)
Theorem X19_deferred_probe_round_trip K n where_ mod_ st :
  let p := N.succ (brk st) in
  lists_ok st -> brk_ok st -> hit_list st = [] -> workqueue st = [] ->
  name mod_ = n ->
  find_module K n = None ->
  vzalloc_fails K p = false ->
  0 <= register_kprobe_rv K p ->
  0 <= enable_kprobe_rv K p ->
  (forall q, q ∈ deferred_list st -> of_module (crc32 0 n) st q = true ->
     register_kprobe_rv K q < 0 \/ 0 <= enable_kprobe_rv K q) ->
  copy_to_user_rv K = 0 ->
  exists st1 st2 st',
    kpc_add_probe K (Some n) where_ st = Done tt st1
    /\ worker_run
         (other_event (module_event K MODULE_STATE_COMING mod_)
            :: hit_and_work p) (st1, [])
       = Some (st2, [])
    /\ workqueue st2 = []
    /\ hit_list st2 = [p]
    /\ kpc_show_read K st2
       = Done (30, snprintf_hit (crc32 0 n) (ulong where_)) st'
    /\ heap st' !! p = None
    /\ (p ∉ kprobes st')
    /\ hit_list st' = [].
Proof.
  intros p Hok Hbrk Hhit Hwq Hname Hmod Halloc Hreg Hen Hsib Hcopy.
  destruct (deferred_round_trip K n where_ mod_ st
              Hok Hbrk Hhit Hwq Hname Hmod Halloc Hreg Hen Hsib Hcopy)
    as (st1 & st2 & st3 & st4 & H1 & _ & _ & _ & H5 & _ & _ & _ & _
        & H10 & H11 & _ & H13 & _ & H15 & H16 & H17 & H18).
  exists st1, st3, st4. fold p in H10, H13, H16, H17.
  split; [exact H1|]. split.
  { change (worker_run (?a :: ?l) ?s)
      with (match worker_step a s with
            | Some s' => worker_run l s'
            | None => None
            end).
    cbn [worker_step step]. rewrite H5. cbn [returns]. exact H10. }
  split; [exact H11|]. split; [exact H13|]. split; [exact H15|].
  split; [exact H16|]. split; [exact H17|exact H18].
Qed.

(** ** Work that is still queued *)


(** X14: kpc_clear cancels no work.  A record that was hit and whose work
    has not run yet is unlinked and freed like every other, and its work item
    stays queued (kpc_clear and kpc_exit_module call neither cancel_work_sync
    nor flush_scheduled_work): when the worker then runs kpc_probe_work on
    it, the first thing it does, unregister_kprobe on the record's kprobe,
    is an access to freed memory. *)
Theorem X14_clear_cancels_no_work st p :
  lists_ok st -> p ∈ on_lists st -> p ∈ workqueue st ->
  kpc_exit_module st = Done tt (clear_state st)
  /\ p ∈ workqueue (clear_state st)
  /\ heap (clear_state st) !! p = None
  /\ kpc_probe_work p (clear_state st) =
       Oops (set_calls (calls (clear_state st) ++ [unregister_kprobe_call p])
               (clear_state st))
  /\ step (work_event p) (clear_state st) = None.
Proof.
  intros Hok Hp Hw.
  assert (heap (clear_state st) !! p = None) as Hfree.
  { rewrite (clear_state_heap st p Hok). rewrite bool_decide_eq_true_2 by exact Hp.
    reflexivity. }
  split; [exact (kpc_clear_Done st Hok)|].
  split; [rewrite clear_state_workqueue; exact Hw|].
  split; [exact Hfree|].
  assert (forall s, heap s !! p = None ->
            kpc_probe_work p s =
              Oops (set_calls (calls s ++ [unregister_kprobe_call p]) s)) as Hoops.
  { intros s Hs. unfold kpc_probe_work. unfold_prims. simpl_state.
    rewrite Hs. reflexivity. }
  split; [exact (Hoops _ Hfree)|].
  cbn [step]. rewrite clear_state_workqueue.
  rewrite (proj2 (on_list_true p (workqueue st)) Hw).
  rewrite Hoops; [reflexivity|exact Hfree].
Qed.

(** ** Loading and unloading the module *)

(** X15: loading is all or nothing.  kpc_init_module returns 0 exactly when
    vmalloc, debugfs_create_dir, both debugfs_create_file and
    register_module_notifier succeed; then debugfs holds the directory with
    the write-only file "control" and the read-only file "show", the
    notifier is registered and the three lists are empty.  Otherwise it
    returns -ENOMEM (vmalloc), -ENODEV (the directory, with a message) or
    -EINVAL (a file or the notifier), and leaves no directory, no file, no
    notifier and no memory behind. *)
Theorem X15_loading_is_all_or_nothing L :
  let failed :=
    vmalloc_fails L || debugfs_create_dir_fails L
    || debugfs_create_file_fails L "control"
    || debugfs_create_file_fails L "show"
    || (register_module_notifier_rv L <? 0) in
  let rv := fst (Lifecycle.kpc_init_module L unloaded) in
  let sys := snd (Lifecycle.kpc_init_module L unloaded) in
  if failed then
    rv = (if vmalloc_fails L then - ENOMEM
          else if debugfs_create_dir_fails L then - ENODEV
          else - EINVAL)
    /\ kpc_allocated sys = false /\ debugfs_root sys = false
    /\ debugfs_files sys = [] /\ notifier_registered sys = false
    /\ kpc sys = kpc unloaded
  else
    rv = 0
    /\ sys =
       {| global_kpc := true; kpc_allocated := true; debugfs_root := true;
          debugfs_files :=
            [ {| d_name := "show"; d_mode := 256; d_fops := kpc_show_fops |};
              {| d_name := "control"; d_mode := 128;
                 d_fops := kpc_control_fops |} ];
          notifier_registered := true; printk := []; kpc := kpc_init |}.
Proof.
  unfold Lifecycle.kpc_init_module, Lifecycle.kpc_init.
  destruct (vmalloc_fails L); [cbn; repeat split|].
  destruct (debugfs_create_dir_fails L); [cbn; repeat split|].
  destruct (debugfs_create_file_fails L "control"); [cbn; repeat split|].
  destruct (debugfs_create_file_fails L "show"); [cbn; repeat split|].
  destruct (register_module_notifier_rv L <? 0); cbn; repeat split.
Qed.

(** X16: unloading releases what loading took.  From any state of a loaded
    module whose lists are well formed, kpc_exit_module frees every record
    on the lists, removes the directory and its files, takes the notifier
    off the chain, frees the struct and resets global_kpc; a module that is
    loaded and unloaded at once leaves the system as it found it. *)
Theorem X16_unloading_releases_everything :
  (forall sys,
      lists_ok (kpc sys) ->
      Lifecycle.kpc_exit_module sys =
        Some {| global_kpc := false; kpc_allocated := false;
                debugfs_root := false; debugfs_files := [];
                notifier_registered := false; printk := printk sys;
                kpc := clear_state (kpc sys) |}
      /\ (forall p, p ∈ on_lists (kpc sys) ->
                    heap (clear_state (kpc sys)) !! p = None))
  /\ (forall L sys',
        Lifecycle.kpc_init_module L unloaded = (0, sys') ->
        Lifecycle.kpc_exit_module sys' = Some unloaded).
Proof.
  split.
  - intros sys Hok. split.
    + unfold Lifecycle.kpc_exit_module. rewrite (kpc_clear_Done _ Hok).
      reflexivity.
    + intros p Hp. rewrite (clear_state_heap _ p Hok).
      rewrite bool_decide_eq_true_2 by exact Hp. reflexivity.
  - intros L sys' H. unfold Lifecycle.kpc_init_module, Lifecycle.kpc_init in H.
    destruct (vmalloc_fails L); [discriminate|].
    destruct (debugfs_create_dir_fails L); [discriminate|].
    destruct (debugfs_create_file_fails L "control"); [discriminate|].
    destruct (debugfs_create_file_fails L "show"); [discriminate|].
    destruct (register_module_notifier_rv L <? 0); [discriminate|].
    injection H as <-. reflexivity.
Qed.

(** ** Clearing twice, writing in two parts *)

Lemma clear_state_empty st :
  deferred_list st = [] -> pending_list st = [] -> hit_list st = [] ->
  clear_state st = st.
Proof.
  intros Hd Hp Hh. unfold clear_state. rewrite Hd, Hp, Hh. cbn [cleared].
  apply state_ext; simpl_state; congruence.
Qed.

(** X17: clearing twice is clearing once.  For well-formed lists a second
    kpc_clear right after the first finds three empty lists, makes no call
    and changes nothing. *)
Theorem X17_clear_is_idempotent st :
  lists_ok st ->
  (kpc_clear ;; kpc_clear) st = kpc_clear st
  /\ kpc_clear (clear_state st) = Done tt (clear_state st).
Proof.
  intros Hok.
  destruct (clear_state_lists st) as (Hd & Hp & Hh).
  assert (lists_ok (clear_state st)) as Hok'.
  { unfold lists_ok, on_lists. rewrite Hd, Hp, Hh. cbn [app].
    split; [apply NoDup_nil_2|]. split.
    - intros p Hp'. apply elem_of_nil in Hp'. contradiction.
    - apply not_elem_of_nil. }
  assert (kpc_clear (clear_state st) = Done tt (clear_state st)) as H2.
  { rewrite (kpc_clear_Done _ Hok').
    rewrite (clear_state_empty _ Hd Hp Hh). reflexivity. }
  split; [|exact H2].
  unfold bind. rewrite (kpc_clear_Done st Hok). exact H2.
Qed.

Lemma join_lines_plain t lines :
  is_delim t = true ->
  forallb plain_line lines = true ->
  nul_free (join_lines t lines) = true
  /\ forall b, strsep_lines (join_lines t lines ++ b) = lines ++ strsep_lines b.
Proof.
  intros Ht. induction lines as [|line lines IH]; intros Hl;
    cbn [forallb join_lines] in *.
  - split; [reflexivity|]. intros b. rewrite append_nil. reflexivity.
  - apply andb_true_iff in Hl as [Hline Hl]. unfold plain_line in Hline.
    apply andb_true_iff in Hline as [Hline Hn].
    apply andb_true_iff in Hline as [_ Hd].
    destruct (IH Hl) as [IHn IHs]. split.
    + rewrite nul_free_app, Hn. cbn [nul_free andb].
      rewrite (is_delim_not_NUL t Ht), IHn. reflexivity.
    + intros b. rewrite append_assoc, append_cons.
      rewrite (strsep_lines_head line t _ Hd Ht), IHs. reflexivity.
Qed.

Lemma append_nil_r (a : string) : (a ++ EmptyString)%string = a.
Proof.
  induction a as [|c a IH]; rewrite ?append_nil, ?append_cons; [reflexivity|].
  rewrite IH. reflexivity.
Qed.

(** The loop over plain lines goes through all of them. *)
Lemma kpc_control_lines_plain_bytes K lines :
  forallb plain_line lines = true ->
  forall out st r st',
    kpc_control_lines K lines out st = Done r st' ->
    r = out + line_bytes lines.
Proof.
  induction lines as [|line lines IH]; intros Hl out st r st' H;
    cbn [kpc_control_lines line_bytes forallb] in *.
  - injection H as <- _. lia.
  - apply andb_true_iff in Hl as [Hline Hl]. unfold plain_line in Hline.
    apply andb_true_iff in Hline as [Hline _].
    apply andb_true_iff in Hline as [Hline _].
    apply andb_true_iff in Hline as [Hne Hcl].
    apply negb_true_iff in Hne, Hcl. rewrite Hne, Hcl in H.
    assert (forall m addr,
              (kpc_add_probe K m addr ;;
               kpc_control_lines K lines
                 (out + (Z.of_nat (String.length line) + 1))) st = Done r st' ->
              r = out + (Z.of_nat (String.length line) + 1 + line_bytes lines))
      as Hadd.
    { intros m addr Hrun. apply bind_Done in Hrun as ([] & s & _ & Hrun).
      apply (IH Hl) in Hrun. lia. }
    destruct (strstr_colon line) as [[m a]|].
    + destruct (simple_strtoul a) as [addr endp].
      destruct (Nat.eqb endp 0 || negb (Nat.eqb endp (String.length a)));
        [apply (IH Hl) in H; lia|exact (Hadd _ _ H)].
    + destruct (simple_strtoul line) as [addr endp].
      destruct (Nat.eqb endp 0 || negb (Nat.eqb endp (String.length line)));
        [apply (IH Hl) in H; lia|exact (Hadd _ _ H)].
Qed.

Lemma length_join_lines t lines :
  Z.of_nat (String.length (join_lines t lines)) = line_bytes lines.
Proof.
  induction lines as [|line lines IH]; cbn [join_lines line_bytes];
    [reflexivity|].
  rewrite length_append. cbn [String.length]. lia.
Qed.

(** X2: what a control write returns.  -ENOMEM when its buffer cannot be
    allocated, and -EFAULT when the buffer is there and the user's bytes
    cannot be copied, in both cases without any effect.  Otherwise, when it
    returns, the number of bytes of the lines it went through: never
    negative, never more than the number of bytes written, and all the
    bytes written when they are plain lines (not empty, not "clear"), each
    with its delimiter. *)
Theorem X2_control_write_return_value K user_buf st :
  (buffer_vzalloc_fails K = true ->
   kpc_control_write K user_buf st = Done (- ENOMEM) st)
  /\ (buffer_vzalloc_fails K = false -> copy_from_user_rv K <> 0 ->
      kpc_control_write K user_buf st = Done (- EFAULT) st)
  /\ (forall r st',
        buffer_vzalloc_fails K = false -> copy_from_user_rv K = 0 ->
        kpc_control_write K user_buf st = Done r st' ->
        0 <= r <= Z.of_nat (String.length user_buf))
  /\ (forall t lines r st',
        buffer_vzalloc_fails K = false -> copy_from_user_rv K = 0 ->
        is_delim t = true -> forallb plain_line lines = true ->
        user_buf = join_lines t lines ->
        kpc_control_write K user_buf st = Done r st' ->
        r = Z.of_nat (String.length user_buf)).
Proof.
  unfold kpc_control_write. split; [|split; [|split]].
  - intros ->. reflexivity.
  - intros -> Hc. apply Z.eqb_neq in Hc. rewrite Hc. reflexivity.
  - intros r st' -> -> H. cbn [Z.eqb negb] in H.
    apply kpc_control_lines_bytes in H.
    pose proof (line_bytes_strsep_lines (c_str user_buf)).
    pose proof (length_c_str user_buf). lia.
  - intros t lines r st' -> -> Ht Hl -> H. cbn [Z.eqb negb] in H.
    destruct (join_lines_plain t lines Ht Hl) as [Hn Hs].
    rewrite (c_str_nul_free _ Hn) in H.
    specialize (Hs EmptyString). rewrite append_nil_r in Hs.
    change (strsep_lines EmptyString) with (@nil string) in Hs.
    rewrite app_nil_r in Hs. rewrite Hs in H.
    apply (kpc_control_lines_plain_bytes K lines Hl) in H.
    rewrite length_join_lines. lia.
Qed.

(** The loop over complete plain lines, then over more lines, is the loop
    over the first and then the loop over the others. *)
Lemma kpc_control_lines_app K la lb :
  forallb plain_line la = true ->
  forall out st,
    same_effect
      (kpc_control_lines K (la ++ lb) out st)
      ((kpc_control_lines K la out ;; kpc_control_lines K lb 0) st).
Proof.
  induction la as [|line la IH]; intros Hl out st; cbn [forallb app] in *.
  - cbn [kpc_control_lines]. unfold bind, ret. apply kpc_control_lines_out.
  - apply andb_true_iff in Hl as [Hline Hl]. unfold plain_line in Hline.
    apply andb_true_iff in Hline as [Hline _].
    apply andb_true_iff in Hline as [Hline _].
    apply andb_true_iff in Hline as [Hne Hcl].
    apply negb_true_iff in Hne, Hcl.
    cbn [kpc_control_lines]. rewrite Hne, Hcl.
    destruct (strstr_colon line) as [[m a]|].
    + destruct (simple_strtoul a) as [addr endp].
      destruct (Nat.eqb endp 0 || negb (Nat.eqb endp (String.length a)));
        [apply (IH Hl)|].
      pose proof (IH Hl) as IH'. unfold bind in IH' |- *.
      destruct (kpc_add_probe K (Some m) addr st);
        [apply IH'|reflexivity|reflexivity].
    + destruct (simple_strtoul line) as [addr endp].
      destruct (Nat.eqb endp 0 || negb (Nat.eqb endp (String.length line)));
        [apply (IH Hl)|].
      pose proof (IH Hl) as IH'. unfold bind in IH' |- *.
      destruct (kpc_add_probe K None addr st);
        [apply IH'|reflexivity|reflexivity].
Qed.

(** X18: a control write can be split at a line boundary.  Complete lines
    that are neither empty nor "clear" (the two that end the loop), followed
    by more text, have the effect of a write of those lines followed by a
    write of the rest. *)
Theorem X18_write_split_at_a_line_boundary K t lines b st :
  is_delim t = true ->
  forallb plain_line lines = true ->
  same_effect
    (kpc_control_write K (join_lines t lines ++ b) st)
    ((kpc_control_write K (join_lines t lines) ;; kpc_control_write K b) st).
Proof.
  intros Ht Hl. destruct (join_lines_plain t lines Ht Hl) as [Hn Hs].
  unfold kpc_control_write, bind.
  destruct (buffer_vzalloc_fails K); [reflexivity|].
  destruct (negb (copy_from_user_rv K =? 0)); [reflexivity|].
  rewrite c_str_app, Hn, Hs.
  pose proof (Hs EmptyString) as Hs0.
  assert ((join_lines t lines ++ EmptyString)%string = join_lines t lines) as E.
  { clear. induction (join_lines t lines) as [|c s IH];
      rewrite ?append_nil, ?append_cons; [reflexivity|]. rewrite IH. reflexivity. }
  rewrite E in Hs0. change (strsep_lines EmptyString) with (@nil string) in Hs0.
  rewrite app_nil_r in Hs0.
  rewrite (c_str_nul_free _ Hn), Hs0.
  pose proof (kpc_control_lines_app K lines (strsep_lines (c_str b)) Hl 0 st) as H.
  unfold bind in H. exact H.
Qed.

(** ** The theorems at work *)

Lemma lists_okb_ok st : lists_okb st = true -> lists_ok st.
Proof.
  unfold lists_okb, lists_ok. rewrite !andb_true_iff, negb_true_iff.
  intros [[Hnd Hlive] Hnull]. split; [|split].
  - apply bool_decide_eq_true in Hnd. exact Hnd.
  - intros p Hp. rewrite forallb_forall in Hlive.
    apply list_elem_of_In in Hp. apply Hlive in Hp.
    apply bool_decide_eq_true in Hp. exact Hp.
  - apply on_list_false. exact Hnull.
Qed.

Lemma brk_okb_ok st : brk_okb st = true -> brk_ok st.
Proof.
  unfold brk_okb, brk_ok. rewrite forallb_forall. intros H p Hp.
  apply list_elem_of_In in Hp. apply H in Hp. apply N.leb_le. exact Hp.
Qed.

Lemma C1_witness :
  lists_ok waiting_state /\ brk_ok waiting_state /\ hit_list waiting_state = []
  /\ workqueue waiting_state = []
  /\ deferred_list waiting_state = [3%N; 2%N; 1%N]
  /\ exists st1 st2 st3 st4,
       kpc_add_probe K_ok (Some "mymod"%string) 0x10 waiting_state = Done tt st1
       /\ deferred_list st1 = [5%N; 3%N; 2%N; 1%N]
       /\ kpc_module_notifier K_ok MODULE_STATE_COMING
            {| name := "mymod"; module_core := 0x1000 |} st1 = Done 0 st2
       /\ heap st2 !! 5%N =
            Some {| kp_addr := 0x1010; module_checksum := crc32 0 "mymod";
                    base_addr := 0x1000 |}
       /\ worker_run (hit_and_work 5) (st2, []) = Some (st3, [])
       /\ hit_list st3 = [5%N]
       /\ kpc_show_read K_ok st3 =
            Done (30, ("0x9f20d6b0:0x0000000000000010"
                         ++ String LF EmptyString)%string) st4.
Proof.
  assert (lists_ok waiting_state) as H1
    by (apply lists_okb_ok; vm_compute; reflexivity).
  assert (brk_ok waiting_state) as H2
    by (apply brk_okb_ok; vm_compute; reflexivity).
  split; [exact H1|]. split; [exact H2|]. split; [reflexivity|].
  split; [reflexivity|]. split; [reflexivity|].
  destruct (C1_defer_resolve_round_trip K_ok waiting_state H1 H2 eq_refl eq_refl
              eq_refl eq_refl ltac:(vm_compute; discriminate)
              ltac:(vm_compute; discriminate)
              ltac:(intros q _ _; right; vm_compute; discriminate) eq_refl)
    as (st1 & st2 & st3 & st4 & Hadd & Hd1 & _ & _ & Hcome & _ & _ & _ & He2
        & Hwork & _ & _ & Hh3 & _ & Hread & Hline & _).
  exists st1, st2, st3, st4.
  split; [exact Hadd|]. split; [exact Hd1|]. split; [exact Hcome|].
  split; [exact He2|]. split; [exact Hwork|]. split; [exact Hh3|].
  rewrite Hread, Hline. reflexivity.
Defined.




Lemma C10_witness :
  is_delim CR = true /\ is_delim LF = true
  /\ kpc_control_write K_ok
       ("10" ++ String CR (String LF ("20" ++ String LF EmptyString))) kpc_init
     = kpc_control_write K_ok ("10" ++ String CR EmptyString) kpc_init.
Proof.
  split; [reflexivity|]. split; [reflexivity|].
  apply (proj1 (proj2 C10_empty_line_stops_processing) K_ok "10"%string CR LF
           ("20" ++ String LF EmptyString)%string kpc_init);
    reflexivity.
Defined.

Lemma X1_witness :
  simple_strtoul "0x1F" = (31, 4%nat)
  /\ same_effect
       (kpc_control_write K_ok ("mymod:0x1F" ++ String LF EmptyString) kpc_init)
       ((kpc_add_probe K_ok (Some "mymod"%string) 31 ;;
         kpc_control_write K_ok EmptyString) kpc_init).
Proof.
  exact (X1_well_formed_line_adds_probe K_ok "mymod:0x1F" LF EmptyString kpc_init
           eq_refl eq_refl eq_refl eq_refl eq_refl
           ltac:(discriminate) ltac:(discriminate) ltac:(discriminate) eq_refl).
Defined.

Lemma X2_witness :
  kpc_control_write K_no_buffer ("10" ++ String LF EmptyString) busy_state
  = Done (- ENOMEM) busy_state
  /\ kpc_control_write K_bad_user_buffer ("10" ++ String LF EmptyString)
       busy_state
     = Done (- EFAULT) busy_state
  /\ exists st',
       kpc_control_write K_ok (join_lines LF ["10"; "bad"; "mymod:20"]%string)
         kpc_init
       = Done 16 st'.
Proof.
  split; [|split].
  - exact (proj1 (X2_control_write_return_value K_no_buffer _ busy_state)
             eq_refl).
  - exact (proj1 (proj2 (X2_control_write_return_value K_bad_user_buffer _
                           busy_state)) eq_refl ltac:(discriminate)).
  - destruct (kpc_control_write K_ok
                (join_lines LF ["10"; "bad"; "mymod:20"]%string) kpc_init)
      as [r st'|st'|st'] eqn:Hrun;
      [|vm_compute in Hrun; discriminate Hrun..].
    exists st'.
    rewrite (proj2 (proj2 (proj2 (X2_control_write_return_value K_ok _ kpc_init)))
               LF ["10"; "bad"; "mymod:20"]%string r st'
               eq_refl eq_refl eq_refl eq_refl eq_refl Hrun).
    reflexivity.
Defined.

Lemma X3_witness :
  kpc_control_write K_ok (("10" ++ String LF EmptyString) ++ "20") kpc_init
  = kpc_control_write K_ok ("10" ++ String LF EmptyString) kpc_init
  /\ kpc_control_write K_ok "20" kpc_init = Done 0 kpc_init.
Proof.
  split.
  - exact (proj1 (X3_unterminated_tail_is_ignored K_ok
                    ("10" ++ String LF EmptyString) "20" kpc_init eq_refl)).
  - exact (proj2 (X3_unterminated_tail_is_ignored K_ok
                    EmptyString "20" kpc_init eq_refl) eq_refl eq_refl).
Defined.

Lemma X4_witness :
  kpc_control_write K_ok
    ("clear" ++ String LF ("10" ++ String LF EmptyString)) quiet_state
  = (kpc_clear ;; ret 6) quiet_state.
Proof.
  exact (proj2 (proj2 X4_clear_ends_the_write) K_ok LF
           ("10" ++ String LF EmptyString)%string quiet_state
           eq_refl eq_refl eq_refl).
Defined.

Lemma X5_witness :
  simple_strtoul ("0x" ++ fmt_0x 16 0x10) = (0x10, 18%nat)
  /\ kpc_control_write K_ok (snprintf_hit 0x9f20d6b0 0x10) kpc_init =
     (kpc_add_probe K_ok (Some ("0x" ++ fmt_0x 8 0x9f20d6b0)%string) 0x10 ;;
      ret 30) kpc_init.
Proof.
  apply (X5_show_line_written_back K_ok 0x9f20d6b0 0x10 kpc_init);
    first [reflexivity | lia].
Defined.

Lemma X6_witness :
  exists st',
    kpc_show_read K_copy_fails busy_state = Done (- EFAULT, EmptyString) st'
    /\ hit_list st' = []
    /\ heap st' = delete 4%N (heap busy_state)
    /\ deferred_list st' = deferred_list busy_state
    /\ pending_list st' = pending_list busy_state
    /\ calls st' = calls busy_state ++ [vfree_call 4].
Proof.
  apply (X6_failed_copy_loses_the_hit K_copy_fails 4%N []
           {| kp_addr := 0x50; module_checksum := 0; base_addr := 0 |}
           busy_state).
  - apply lists_okb_ok. vm_compute. reflexivity.
  - reflexivity.
  - vm_compute. reflexivity.
  - cbn. lia.
  - discriminate.
Defined.

Lemma X7_witness :
  kpc_add_probe K_register_fails None 0x10 kpc_init =
    Done tt
      (set_calls [register_kprobe_call 1; vfree_call 1] (set_brk 1 kpc_init)).
Proof.
  exact (X7_failed_register_leaves_nothing K_register_fails None 0x10 kpc_init
           eq_refl (or_introl eq_refl) eq_refl eq_refl).
Defined.

Lemma X8_witness :
  lists_live quiet_state
  /\ exists st1 st2 st',
       kpc_add_probe K_mymod (Some "mymod"%string) 0x10 quiet_state = Done tt st1
       /\ 3%N ∈ kprobes st1
       /\ worker_run (hit_and_work 3) (st1, []) = Some (st2, [])
       /\ workqueue st2 = []
       /\ hit_list st2 = [3%N]
       /\ kpc_show_read K_mymod st2
          = Done (30, snprintf_hit (crc32 0 "mymod") 0x10) st'
       /\ hit_list st' = []
       /\ heap st' !! 3%N = None
       /\ 3%N ∉ kprobes st'.
Proof.
  assert (lists_live quiet_state) as H
    by (apply lists_ok_live, lists_okb_ok; vm_compute; reflexivity).
  split; [exact H|].
  apply (X8_offset_read_back K_mymod (Some "mymod"%string) 0x10 quiet_state);
    first [exact H | reflexivity | discriminate
          | right; exists mymod; reflexivity].
Defined.

Lemma X9_witness :
  kpc_handle_going_module mymod arrived_state =
    Done tt
      (set_calls
         (calls arrived_state
          ++ [unregister_kprobe_call 1; unregister_kprobe_call 2])
         (set_kprobes (kprobes arrived_state ∖ list_to_set [1%N; 2%N])
            (set_pending [4%N] arrived_state))).
Proof.
  apply (X9_going_module_unlinks_its_pending_records mymod arrived_state).
  apply lists_okb_ok. vm_compute. reflexivity.
Defined.

Lemma X10_witness :
  kpc_handle_coming_module K_ok mymod waiting_state =
    Done tt
      (set_calls
         (calls waiting_state
          ++ [register_kprobe_call 2; enable_kprobe_call 2;
              register_kprobe_call 1; enable_kprobe_call 1])
         (set_kprobes (list_to_set [2%N; 1%N] ∪ kprobes waiting_state)
            (set_heap (rebased 0x1000 [2%N; 1%N] (heap waiting_state))
               (set_deferred [3%N]
                  (set_pending [1%N; 2%N; 4%N] waiting_state)))))
  /\ rebased 0x1000 [2%N; 1%N] (heap waiting_state) !! 1%N =
     Some {| kp_addr := 0x1010; module_checksum := crc32 0 "mymod";
             base_addr := 0x1000 |}.
Proof.
  destruct (X10_coming_module_arms_its_deferred_records K_ok mymod waiting_state)
    as [Hrun Hheap].
  - apply lists_okb_ok. vm_compute. reflexivity.
  - intros q _. split; discriminate.
  - split; [exact Hrun|].
    exact (Hheap 1%N {| kp_addr := 0x10; module_checksum := crc32 0 "mymod";
                        base_addr := 0 |} eq_refl).
Defined.




Lemma X14_witness :
  kpc_exit_module fired_state = Done tt (clear_state fired_state)
  /\ 1%N ∈ workqueue (clear_state fired_state)
  /\ heap (clear_state fired_state) !! 1%N = None
  /\ kpc_probe_work 1 (clear_state fired_state) =
       Oops (set_calls (calls (clear_state fired_state)
                        ++ [unregister_kprobe_call 1])
               (clear_state fired_state))
  /\ step (work_event 1) (clear_state fired_state) = None.
Proof.
  apply (X14_clear_cancels_no_work fired_state 1%N).
  - apply lists_okb_ok. vm_compute. reflexivity.
  - change (1%N ∈ [1%N]). left.
  - change (1%N ∈ [1%N]). left.
Defined.

Lemma X16_witness :
  Lifecycle.kpc_exit_module
    {| global_kpc := true; kpc_allocated := true; debugfs_root := true;
       debugfs_files := debugfs_files (snd (Lifecycle.kpc_init_module L_ok unloaded));
       notifier_registered := true; printk := []; kpc := busy_state |}
  = Some {| global_kpc := false; kpc_allocated := false;
            debugfs_root := false; debugfs_files := [];
            notifier_registered := false; printk := [];
            kpc := clear_state busy_state |}
  /\ Lifecycle.kpc_exit_module (snd (Lifecycle.kpc_init_module L_ok unloaded))
     = Some unloaded.
Proof.
  split.
  - refine (proj1 (proj1 X16_unloading_releases_everything
                     {| global_kpc := true; kpc_allocated := true;
                        debugfs_root := true;
                        debugfs_files :=
                          debugfs_files (snd (Lifecycle.kpc_init_module L_ok unloaded));
                        notifier_registered := true; printk := [];
                        kpc := busy_state |} _)).
    apply lists_okb_ok. vm_compute. reflexivity.
  - exact (proj2 X16_unloading_releases_everything L_ok _ eq_refl).
Defined.

Lemma X17_witness :
  (kpc_clear ;; kpc_clear) busy_state = kpc_clear busy_state
  /\ kpc_clear (clear_state busy_state) = Done tt (clear_state busy_state).
Proof.
  apply (X17_clear_is_idempotent busy_state).
  apply lists_okb_ok. vm_compute. reflexivity.
Defined.

Lemma X18_witness :
  same_effect
    (kpc_control_write K_ok
       (join_lines LF ["10"; "mymod:20"]%string ++ join_lines LF ["30"%string])
       kpc_init)
    ((kpc_control_write K_ok (join_lines LF ["10"; "mymod:20"]%string) ;;
      kpc_control_write K_ok (join_lines LF ["30"%string])) kpc_init).
Proof.
  exact (X18_write_split_at_a_line_boundary K_ok LF ["10"; "mymod:20"]%string
           (join_lines LF ["30"%string]) kpc_init eq_refl eq_refl).
Defined.

Lemma X19_witness :
  lists_ok waiting_state /\ brk_ok waiting_state
  /\ deferred_list waiting_state = [3%N; 2%N; 1%N]
  /\ exists st1 st2 st',
       kpc_add_probe K_ok (Some "othermod"%string) 0x44 waiting_state
       = Done tt st1
       /\ worker_run
            (other_event
               (module_event K_ok MODULE_STATE_COMING
                  {| name := "othermod"; module_core := 0x2000 |})
               :: hit_and_work 5) (st1, [])
          = Some (st2, [])
       /\ workqueue st2 = []
       /\ hit_list st2 = [5%N]
       /\ kpc_show_read K_ok st2
          = Done (30, snprintf_hit (crc32 0 "othermod") 0x44) st'
       /\ heap st' !! 5%N = None
       /\ (5%N ∉ kprobes st')
       /\ hit_list st' = [].
Proof.
  assert (lists_ok waiting_state) as H1
    by (apply lists_okb_ok; vm_compute; reflexivity).
  assert (brk_ok waiting_state) as H2
    by (apply brk_okb_ok; vm_compute; reflexivity).
  split; [exact H1|]. split; [exact H2|]. split; [reflexivity|].
  apply (X19_deferred_probe_round_trip K_ok "othermod" 0x44
           {| name := "othermod"; module_core := 0x2000 |} waiting_state);
    first [ exact H1 | exact H2 | reflexivity | discriminate
          | intros q _ _; right; vm_compute; discriminate ].
Defined.
